(** * Media-intelligence dashboard: cleaning and aggregation pipeline

    A shallow embedding of [streamlitappmi.py]: the normaliser [clean_data],
    the five aggregates behind the charts, the prompts of the insight
    requests and the top-level script, followed by the properties of the
    specification that concern them.

    The script is glue over pandas, so the embedding has three layers:
    - what the script itself computes (string rewriting of the header,
      the required-column test, the order of the steps, head(5), the
      prompts, the guards of the main run) is written out as functions;
    - what pandas, numpy and the interpreter decide (which texts are dates
      or numbers, how a number prints, in which order a sort leaves equal
      keys, what a cast makes of a number outside the 64-bit range, the
      lower-case mapping of Unicode) is an interface, [Pandas], with the
      laws documented for them; every property is proved for all
      implementations of it, and two implementations are given to run the
      definitions on concrete tables;
    - what the remote service answers is an interface, [TextService].

    Conventions: a Python [str] is the [string] of the bytes of its UTF-8
    encoding, so that comparing texts and replacing an ASCII character
    are what they are on code points, and [str.strip()] removes the
    encodings of Unicode white space; a finite number is an exact rational
    (a [float64] is the rational it stands for); an infinity in a numeric
    column is held as its text; columns of booleans and time zones are not
    modelled; sums are 64-bit and wrap, and [int] in [astype(int)] is
    [int64] (numpy 2, or an earlier numpy outside Windows); pandas
    semantics are those of the 2.x line ([astype(str)] turns a missing
    value into the text nan). *)

From Stdlib Require Import List ZArith QArith Bool Ascii String Lia Arith.
From Stdlib Require Import Permutation Sorted DecimalString OrderedTypeEx.
Import ListNotations.

Local Open Scope string_scope.
Local Open Scope Z_scope.

(** ** Python string methods used on the header *)

Module PyStr.

(** The ASCII characters: the code points that UTF-8 writes as one byte,
    a byte below 128. *)
Definition is_ascii (c : ascii) : bool := (nat_of_ascii c <? 128)%nat.

Definition all_ascii (s : string) : bool :=
  forallb is_ascii (list_ascii_of_string s).

(** [str.lower] on a text of ASCII characters: A to Z become a to z.
    Other texts are lower-cased by the tables of Unicode, see [str_lower]
    below. *)
Definition lower_char (c : ascii) : ascii :=
  let n := nat_of_ascii c in
  if ((65 <=? n) && (n <=? 90))%nat then ascii_of_nat (n + 32) else c.

Definition ascii_lower (s : string) : string :=
  string_of_list_ascii (map lower_char (list_ascii_of_string s)).

(** [str.replace(old, new)] for ASCII characters [old] and [new]: in
    UTF-8 the byte of an ASCII character is part of no other character. *)
Definition replace (old new : ascii) (s : string) : string :=
  string_of_list_ascii
    (map (fun c => if Ascii.eqb c old then new else c) (list_ascii_of_string s)).

(** White space, as [str.strip()] without an argument sees it
    ([str.isspace]), by the length of the UTF-8 encoding. One byte: tab,
    line feed, vertical tab, form feed, carriage return, the four
    separators 28..31 and space. *)
Definition is_space (c : ascii) : bool :=
  let n := nat_of_ascii c in
  (((9 <=? n) && (n <=? 13)) || ((28 <=? n) && (n <=? 32)))%nat.

(** Two bytes: U+0085 (C2 85) and U+00A0 (C2 A0). *)
Definition is_space2 (c1 c2 : ascii) : bool :=
  let n1 := nat_of_ascii c1 in
  let n2 := nat_of_ascii c2 in
  ((n1 =? 194) && ((n2 =? 133) || (n2 =? 160)))%nat.

(** Three bytes: U+1680 (E1 9A 80), U+2000 to U+200A (E2 80 80 to
    E2 80 8A), U+2028, U+2029 and U+202F (E2 80 A8, A9, AF), U+205F
    (E2 81 9F) and U+3000 (E3 80 80). *)
Definition is_space3 (c1 c2 c3 : ascii) : bool :=
  let n1 := nat_of_ascii c1 in
  let n2 := nat_of_ascii c2 in
  let n3 := nat_of_ascii c3 in
  (((n1 =? 225) && (n2 =? 154) && (n3 =? 128))
   || ((n1 =? 226) && (n2 =? 128)
       && (((128 <=? n3) && (n3 <=? 138)) || (n3 =? 168) || (n3 =? 169) || (n3 =? 175)))
   || ((n1 =? 226) && (n2 =? 129) && (n3 =? 159))
   || ((n1 =? 227) && (n2 =? 128) && (n3 =? 128)))%nat.

(** Dropping the white space a list of bytes starts with; [s1], [s2] and
    [s3] recognise a white-space character of one, two and three bytes. *)
Section Stripping.
Variable s1 : ascii -> bool.
Variable s2 : ascii -> ascii -> bool.
Variable s3 : ascii -> ascii -> ascii -> bool.

Fixpoint lstrip_with (l : list ascii) : list ascii :=
  match l with
  | [] => []
  | c1 :: l1 =>
      if s1 c1 then lstrip_with l1
      else
        match l1 with
        | [] => l
        | c2 :: l2 =>
            if s2 c1 c2 then lstrip_with l2
            else
              match l2 with
              | [] => l
              | c3 :: l3 => if s3 c1 c2 c3 then lstrip_with l3 else l
              end
        end
  end.

(** Whether the bytes start with a white-space character. *)
Definition starts_with (l : list ascii) : bool :=
  match l with
  | [] => false
  | c1 :: l1 =>
      s1 c1 ||
      match l1 with
      | [] => false
      | c2 :: l2 =>
          s2 c1 c2 ||
          match l2 with
          | [] => false
          | c3 :: _ => s3 c1 c2 c3
          end
      end
  end.
End Stripping.

Definition lstrip_chars : list ascii -> list ascii :=
  lstrip_with is_space is_space2 is_space3.

Definition starts_with_space : list ascii -> bool :=
  starts_with is_space is_space2 is_space3.

Definition ends_with_space (l : list ascii) : bool :=
  starts_with is_space (fun a b => is_space2 b a)
              (fun a b c => is_space3 c b a) (rev l).

(** From the end, on the reversed bytes: in well-formed UTF-8, bytes at
    the end of a text that are the encoding of a character are its last
    character. *)
Definition rstrip_chars (l : list ascii) : list ascii :=
  rev (lstrip_with is_space (fun a b => is_space2 b a)
                   (fun a b c => is_space3 c b a) (rev l)).

(** [str.strip()] with no argument. *)
Definition strip (s : string) : string :=
  string_of_list_ascii (rstrip_chars (lstrip_chars (list_ascii_of_string s))).

End PyStr.

Definition required_columns : list string :=
  ["date"; "platform"; "sentiment"; "location"; "engagements"; "media_type"].

(** ** Values, exceptions and the pandas interface *)

(** What one field of a parsed CSV holds: nothing, a finite number (an
    [int64] or [float64] column) or text (an [object] column; also the
    text of an infinity, wherever it stands). *)
Inductive cell : Type :=
| NaN
| Num (q : Q)
| Str (s : string).

(** The exceptions met, with the key that was not found or the message. *)
Inductive exn : Type :=
| KeyError (key : string)
| ValueError (msg : string)
| TypeError (msg : string)
| AttributeError (msg : string).

Inductive result (A : Type) : Type :=
| Ok (a : A)
| Raise (e : exn).
Arguments Ok {A} a.
Arguments Raise {A} e.

Definition rbind {A B} (r : result A) (f : A -> result B) : result B :=
  match r with
  | Ok a => f a
  | Raise e => Raise e
  end.

(** A value of a numeric column after [pd.to_numeric]: of an integer dtype
    ([int64] or [uint64]), a finite [float64], or an infinity. A missing
    value ([NaN]) is [None]. *)
Inductive number : Type :=
| Int (z : Z)
| Float (q : Q)
| Infinity.

(** The decisions the script leaves to pandas, numpy and the interpreter.

    - [str_lower s] is [s.lower()]. On a text of ASCII characters it
      changes A to Z into a to z and nothing else; elsewhere it follows the
      tables of Unicode, of which only this is used: a blank in front of a
      text is not a letter, so it stays and does not change how the rest is
      lower-cased.
    - [to_datetime col] is [pd.to_datetime(col, errors='coerce')] on a whole
      column: nanoseconds since the epoch, [None] for [NaT].  It takes the
      column, not one field, because pandas infers the format from the
      column.
    - [to_numeric col] is [pd.to_numeric(col, errors='coerce')] on a whole
      column, [None] for [NaN]: the dtype of the outcome, and with it the
      rounding of a large number, depends on the other fields. A missing
      field stays missing.
    - [float_to_int64 q] is what the cast of [astype(int)] makes of a
      [float64] whose integer part is outside the range of [int64]: C leaves
      it undefined and numpy returns what the processor does (the smallest
      [int64] on x86-64).
    - [num_repr q] is [astype(str)] on a number.
    - [argsort key l] is the order in which [sort_values], called with its
      default [kind='quicksort'], leaves the items of [l]: an arrangement of
      [l] in ascending order of [key].  Nothing more is documented for that
      kind; in particular not the order of equal keys. *)
Class Pandas : Type := {
  str_lower : string -> string;
  str_lower_ascii :
    forall s, PyStr.all_ascii s = true -> str_lower s = PyStr.ascii_lower s;
  str_lower_blank : forall s, str_lower (String " " s) = String " " (str_lower s);
  to_datetime : list cell -> list (option Z);
  to_datetime_length : forall col, List.length (to_datetime col) = List.length col;
  to_numeric : list cell -> list (option number);
  to_numeric_length : forall col, List.length (to_numeric col) = List.length col;
  to_numeric_nan :
    forall col i, nth_error col i = Some NaN -> nth_error (to_numeric col) i = Some None;
  float_to_int64 : Q -> Z;
  float_to_int64_range : forall q, - 2 ^ 63 <= float_to_int64 q < 2 ^ 63;
  num_repr : Q -> string;
  argsort : forall A : Type, (A -> Z) -> list A -> list A;
  argsort_perm : forall A (key : A -> Z) l, Permutation (argsort A key l) l;
  argsort_sorted :
    forall A (key : A -> Z) l, Sorted (fun a b => key a <= key b) (argsort A key l)
}.
Arguments argsort {_} {A} key l.

(** The list comprehension of [clean_data]:
    [col.lower().replace(' ', '_').strip()]. *)
Definition normalize_column `{Pandas} (col : string) : string :=
  PyStr.strip (PyStr.replace " "%char "_"%char (str_lower col)).

(** ** Frames *)

(** The frame [pd.read_csv] returns: header and rows under a [RangeIndex].
    A row shorter than the header is padded with [NaN] by the reader, which
    the default of [field] reproduces. *)
Record RawFrame : Type := {
  columns : list string;
  body : list (list cell)
}.

Definition field (i : nat) (r : list cell) : cell := nth i r NaN.

(** [df[name]]: the positions of the columns called [name]. pandas returns
    a Series for one, a DataFrame for several, and raises [KeyError] for
    none. *)
Inductive selection : Type :=
| Series (i : nat)
| SubFrame (positions : list nat)
| NoColumn.

Fixpoint positions_from (i : nat) (name : string) (cols : list string) : list nat :=
  match cols with
  | [] => []
  | c :: cols' =>
      if String.eqb name c then i :: positions_from (S i) name cols'
      else positions_from (S i) name cols'
  end.

Definition getitem (name : string) (cols : list string) : selection :=
  match positions_from 0 name cols with
  | [] => NoColumn
  | [i] => Series i
  | ps => SubFrame ps
  end.

(** One row of the frame [clean_data] returns: the three columns it
    rewrites, typed, and the fields of all columns as read ([cells]), from
    which the label columns it leaves alone are taken. *)
Record Row : Type := {
  date : Z;
  engagements : Z;
  sentiment : string;
  cells : list cell
}.

(** A cleaned frame: header (normalised) and rows with their index label. *)
Record Frame : Type := {
  header : list string;
  rows : list (nat * Row)
}.

(** ** The steps of [clean_data] *)

(** [int64] arithmetic of numpy: the result modulo [2^64], read as a
    signed number. Sums wrap this way, and so does the cast of an integer
    of another width. *)
Definition wrap64 (z : Z) : Z := (z + 2 ^ 63) mod 2 ^ 64 - 2 ^ 63.

Definition col_in (cols : list string) (c : string) : bool :=
  existsb (String.eqb c) cols.

(** [all(col in df.columns for col in required_columns)] *)
Definition has_required (cols : list string) : bool :=
  forallb (col_in cols) required_columns.

Section Cleaning.
Context `{Pandas}.

(** [fillna(0)] on one value of the numeric column; a column that has a
    missing value is a [float64] column. *)
Definition fillna (d : number) (o : option number) : number :=
  match o with
  | Some x => x
  | None => d
  end.

(** The integer part of a rational: the fraction is cut off, towards
    zero. *)
Definition trunc (q : Q) : Z := Z.quot (Qnum q) (Z.pos (Qden q)).

Definition in_int64 (z : Z) : bool := (- 2 ^ 63 <=? z) && (z <? 2 ^ 63).

(** [astype(int)] on one value. An integer of another width wraps; a
    [float64] loses its fraction when the integer part fits, and is left to
    the processor when it does not; pandas refuses an infinity
    ([IntCastingNaNError], a [ValueError]). *)
Definition to_int64 (x : number) : result Z :=
  match x with
  | Int z => Ok (wrap64 z)
  | Float q => Ok (if in_int64 (trunc q) then trunc q else float_to_int64 q)
  | Infinity =>
      Raise (ValueError "Cannot convert non-finite values (NA or inf) to integer")
  end.

(** [astype(int)] on the column: one value that cannot be converted makes
    the call raise. *)
Fixpoint astype_int (col : list number) : result (list Z) :=
  match col with
  | [] => Ok []
  | x :: col' =>
      rbind (to_int64 x) (fun n =>
      rbind (astype_int col') (fun ns => Ok (n :: ns)))
  end.

(** [astype(str)] on one field of an object or numeric column. *)
Definition astype_str (c : cell) : string :=
  match c with
  | NaN => "nan"
  | Num q => num_repr q
  | Str s => s
  end.

(** [df.dropna(subset=['date'])] on rows paired with their parsed date. *)
Fixpoint dropna_date (l : list (nat * (option Z * list cell)))
  : list (nat * (Z * list cell)) :=
  match l with
  | [] => []
  | (i, (Some t, r)) :: l' => (i, (t, r)) :: dropna_date l'
  | (i, (None, _)) :: l' => dropna_date l'
  end.

(** The rows of the raw frame under their index label, each with the
    result of [pd.to_datetime] on its date field. *)
Definition dated (di : nat) (b : list (list cell))
  : list (nat * (option Z * list cell)) :=
  combine (seq 0 (List.length b)) (combine (to_datetime (map (field di) b)) b).

(** [pd.to_numeric(df['engagements'], errors='coerce').fillna(0).astype(int)]
    on the rows that are left after [dropna]. *)
Definition to_engagements (ei : nat) (kept : list (nat * (Z * list cell)))
  : result (list Z) :=
  astype_int
    (map (fillna (Float 0))
         (to_numeric (map (fun x => field ei (snd (snd x))) kept))).

(** A row after the two assignments that follow [dropna]: its engagements
    from the converted column, its sentiment lower-cased. *)
Definition typed (si : nat) (xn : (nat * (Z * list cell)) * Z) : nat * Row :=
  let '((i, (t, r)), n) := xn in
  (i, {| date := t;
         engagements := n;
         sentiment := str_lower (astype_str (field si r));
         cells := r |}).

(** [df.sort_values('date')] *)
Definition sort_by_date (l : list (nat * Row)) : list (nat * Row) :=
  argsort (fun x => date (snd x)) l.

(** [reset_index(drop=True)] *)
Definition reset_index (l : list (nat * Row)) : list (nat * Row) :=
  combine (seq 0 (List.length l)) (map snd l).

(** The column a step of [clean_data] works on; the exception is the one
    pandas raises when the name selects several columns. *)
Definition the_series (name : string) (cols : list string) (dup : exn)
  : result nat :=
  match getitem name cols with
  | Series i => Ok i
  | SubFrame _ => Raise dup
  | NoColumn => Raise (KeyError name)
  end.

(** [clean_data] from the renaming to [sort_values], before the index is
    reset: [None] is the early [return None]. The [st.error] of that
    branch is issued by [clean_data] below. The conversion of the
    engagements raises when a row that is left holds an infinity. *)
Definition clean_sorted (df : RawFrame) : result (option Frame) :=
  let cols := map normalize_column (columns df) in
  if negb (has_required cols) then Ok None
  else
    rbind (the_series "date" cols
             (ValueError "cannot assemble with duplicate keys")) (fun di =>
    let kept := dropna_date (dated di (body df)) in
    rbind (the_series "engagements" cols
             (TypeError "arg must be a list, tuple, 1-d array, or Series")) (fun ei =>
    rbind (to_engagements ei kept) (fun ints =>
    rbind (the_series "sentiment" cols
             (AttributeError "'DataFrame' object has no attribute 'str'")) (fun si =>
    Ok (Some {| header := cols;
                rows := sort_by_date (map (typed si) (combine kept ints)) |}))))).

End Cleaning.

(** ** Aggregation primitives *)

(** The order in which [groupby] (with its default [sort=True]) lists its
    keys: numbers by value, text by code point, numbers before text. *)
Definition cell_compare (a b : cell) : comparison :=
  match a, b with
  | Num p, Num q => (p ?= q)%Q
  | Num _, Str _ => Lt
  | Num _, NaN => Lt
  | Str _, Num _ => Gt
  | Str s, Str t => String.compare s t
  | Str _, NaN => Lt
  | NaN, NaN => Eq
  | NaN, _ => Gt
  end.

Definition same_key (a b : cell) : bool :=
  match cell_compare a b with
  | Eq => true
  | _ => false
  end.

Definition notna (c : cell) : bool :=
  match c with
  | NaN => false
  | _ => true
  end.

Section GroupBy.
Context {K : Type} (cmp : K -> K -> comparison).

(** One more row for group [k]: the groups are kept in key order. *)
Fixpoint add_to_group (k : K) (v : Z) (acc : list (K * Z)) : list (K * Z) :=
  match acc with
  | [] => [(k, wrap64 v)]
  | (k', s) :: acc' =>
      match cmp k k' with
      | Eq => (k', wrap64 (s + v)) :: acc'
      | Lt => (k, wrap64 v) :: acc
      | Gt => (k', s) :: add_to_group k v acc'
      end
  end.

(** [groupby(key)[value].sum()] on rows given as (key, value). *)
Definition groupby_sum (l : list (K * Z)) : list (K * Z) :=
  fold_left (fun acc kv => add_to_group (fst kv) (snd kv) acc) l [].

(** The words of the specification: the sum of the values of the rows
    whose key is [k]. *)
Definition sum_where (k : K) (l : list (K * Z)) : Z :=
  fold_right (fun kv acc => match cmp k (fst kv) with
                            | Eq => snd kv + acc
                            | _ => acc
                            end) 0 l.

Definition key_lt (a b : K * Z) : Prop := cmp (fst a) (fst b) = Lt.

(** The groups [acc] account for the rows [p]. *)
Record grouped (p acc : list (K * Z)) : Prop := {
  g_sorted : StronglySorted key_lt acc;
  g_sum : forall j s, In (j, s) acc -> s = wrap64 (sum_where j p);
  g_cover : forall kv, In kv p -> exists e, In e acc /\ cmp (fst kv) (fst e) = Eq;
  g_keys : forall e, In e acc -> In (fst e) (map fst p)
}.

End GroupBy.

(** One more occurrence of [k]: the keys stay in order of first
    appearance, as in the hash table behind [value_counts]. *)
Fixpoint count_key (k : cell) (acc : list (cell * Z)) : list (cell * Z) :=
  match acc with
  | [] => [(k, 1)]
  | (k', n) :: acc' =>
      if same_key k k' then (k', n + 1) :: acc' else (k', n) :: count_key k acc'
  end.

Definition tally (s : list cell) : list (cell * Z) :=
  fold_left (fun acc k => count_key k acc) s [].

(** The sum of the measures of an aggregate. *)
Definition total {K : Type} (agg : list (K * Z)) : Z :=
  fold_right (fun kv acc => snd kv + acc) 0 agg.

Section Aggregates.
Context `{Pandas}.

(** [Series.sort_values(ascending=False)]: pandas reverses the values,
    sorts them ascending and reverses the outcome. *)
Definition sort_values_desc {K : Type} (s : list (K * Z)) : list (K * Z) :=
  rev (argsort snd (rev s)).

(** [Series.value_counts()]: missing values are not counted
    ([dropna=True]) and the counts come in descending order. *)
Definition value_counts (s : list cell) : list (cell * Z) :=
  sort_values_desc (tally (filter notna s)).

(** A label column of the cleaned frame; [dup] is raised when the name
    selects several columns. *)
Definition label_column (name : string) (dup : exn) (df : Frame)
  : result (list cell) :=
  rbind (the_series name (header df) dup) (fun i =>
  Ok (map (fun x => field i (cells (snd x))) (rows df))).

(** [df.groupby(name)['engagements'].sum()]: rows whose key is missing
    belong to no group ([dropna=True]). *)
Definition engagements_by (name : string) (df : Frame) : result (list (cell * Z)) :=
  rbind (label_column name (ValueError "Grouper not 1-dimensional") df) (fun keys =>
  Ok (groupby_sum cell_compare
        (filter (fun kv => notna (fst kv))
                (combine keys (map (fun x => engagements (snd x)) (rows df)))))).

(** [df['sentiment'].value_counts()] *)
Definition sentiment_counts (df : Frame) : list (cell * Z) :=
  value_counts (map (fun x => Str (sentiment (snd x))) (rows df)).

(** [.dt.date]: the calendar day of a timestamp, in days since the epoch. *)
Definition dt_date (t : Z) : Z := t / 86400000000000.

(** [df.groupby(df['date'].dt.date)['engagements'].sum()] *)
Definition engagement_by_date (df : Frame) : list (Z * Z) :=
  groupby_sum Z.compare
    (map (fun x => (dt_date (date (snd x)), engagements (snd x))) (rows df)).

(** [df.groupby('platform')['engagements'].sum().sort_values(ascending=False)],
    the data of the platform chart. *)
Definition platform_engagements (df : Frame) : result (list (cell * Z)) :=
  rbind (engagements_by "platform" df) (fun g => Ok (sort_values_desc g)).

(** The same with [.head(5)], the data of the platform prompt. *)
Definition platform_top5 (df : Frame) : result (list (cell * Z)) :=
  rbind (engagements_by "platform" df) (fun g => Ok (firstn 5 (sort_values_desc g))).

(** [df['media_type'].value_counts()] *)
Definition media_type_counts (df : Frame) : result (list (cell * Z)) :=
  rbind (label_column "media_type" (ValueError "Length mismatch") df) (fun s =>
  Ok (value_counts s)).

(** [df.groupby('location')['engagements'].sum().sort_values(ascending=False).head(5)],
    in [create_top_locations_chart] and again for the location prompt. *)
Definition top_locations (df : Frame) : result (list (cell * Z)) :=
  rbind (engagements_by "location" df) (fun g => Ok (firstn 5 (sort_values_desc g))).

End Aggregates.

(** The label a row has in column [i]. *)
Definition label_of (i : nat) (x : nat * Row) : cell := field i (cells (snd x)).

(** The words of the specification: the engagements of the rows of the
    table whose label in column [i] is [k], added up. *)
Definition engagements_where (i : nat) (k : cell) (df : Frame) : Z :=
  sum_where cell_compare k
    (map (fun x => (label_of i x, engagements (snd x))) (rows df)).

(** ** Charts, prompts and the page *)

(** A plotly figure, reduced to its kind and title and the table it draws. *)
Inductive figure : Type :=
| px_pie (title : string) (data : list (cell * Z))
| px_line (title : string) (data : list (Z * Z))
| px_bar (title : string) (data : list (cell * Z)).

(** A value interpolated in an f-string; how Python prints it is not
    modelled, a prompt keeps the value itself. *)
Inductive value : Type :=
| VDate (day : Z)
| VInt (z : Z)
| VDict (d : list (cell * Z))
| VExn (e : exn).

Inductive fragment : Type :=
| Lit (s : string)
| Fmt (v : value).

Definition prompt : Type := list fragment.

(** What the page shows and what leaves the process, in order. The static
    headings and separators of the page are not recorded, nor is the
    heading put in front of the insights. *)
Inductive event : Type :=
| st_success (msg : string)
| st_error (msg : list fragment)
| st_info (msg : string)
| st_plotly_chart (fig : figure)
| requests_post (p : prompt)
| st_markdown (insights : string).

(** Outcome of the HTTP exchange of [call_gemini_api]: a text found at
    [candidates[0].content.parts[0].text]; a body without that path; an
    exception of the [requests] library; or an answer on which the reading
    itself fails with another exception (a body that is no object, a first
    part without [text]), which [call_gemini_api] does not catch. *)
Inductive reply : Type :=
| Candidates (text : string)
| UnexpectedShape
| RequestException
| Unhandled (e : exn).

Class TextService : Type := generate : prompt -> reply.

(** A service whose answers [call_gemini_api] copes with. *)
Definition handled `{TextService} : Prop :=
  forall p e, generate p <> Unhandled e.

(** Computations of the page: the events so far and a value or the exception
    that interrupted them. *)
Definition ui (A : Type) : Type := (list event * result A)%type.

Definition ret {A} (a : A) : ui A := ([], Ok a).

Definition bind {A B} (m : ui A) (f : A -> ui B) : ui B :=
  match m with
  | (log, Ok a) => let (log', r) := f a in ((log ++ log')%list, r)
  | (log, Raise e) => (log, Raise e)
  end.

Definition emit (e : event) : ui unit := ([e], Ok tt).

Definition lift {A} (r : result A) : ui A := ([], r).

Declare Scope ui_scope.
Delimit Scope ui_scope with ui.
Notation "x <- m ;; k" := (bind m (fun x => k))
  (at level 61, m at next level, right associativity) : ui_scope.
Notation "m ;; k" := (bind m (fun _ => k))
  (at level 61, right associativity) : ui_scope.

(** A required column is missing: the message of the early return. *)
Definition missing_columns_msg : list fragment :=
  [Lit "Missing one or more required columns. Please ensure your CSV has: date, platform, sentiment, location, engagements, media_type"].

Definition trend_fallback : prompt :=
  [Lit "No engagement data available. Provide top 3 general insights about engagement trends in media analysis."].

Section Page.
Context `{Pandas} `{TextService}.
Local Open Scope ui_scope.

(** The two error messages end with the body received and with the
    exception; these are left out. *)
Definition call_gemini_api (p : prompt) : ui string :=
  emit (requests_post p) ;;
  match generate p with
  | Candidates text => ret text
  | UnexpectedShape =>
      emit (st_error [Lit "Unexpected API response structure: "]) ;;
      ret "Could not generate insights due to an unexpected API response."
  | RequestException =>
      emit (st_error [Lit "Failed to generate insights: "]) ;;
      ret "Failed to generate insights due to a network or API error."
  | Unhandled e => lift (Raise e)
  end.

Definition clean_data (df : RawFrame) : ui (option Frame) :=
  cleaned <- lift (clean_sorted df) ;;
  match cleaned with
  | None => emit (st_error missing_columns_msg) ;; ret None
  | Some f => ret (Some {| header := header f; rows := reset_index (rows f) |})
  end.

Definition create_sentiment_chart (df : Frame) : figure :=
  px_pie "Sentiment Breakdown" (sentiment_counts df).

Definition create_engagement_trend_chart (df : Frame) : figure :=
  px_line "Engagement Trend Over Time" (engagement_by_date df).

Definition create_platform_engagements_chart (df : Frame) : result figure :=
  rbind (platform_engagements df) (fun d => Ok (px_bar "Platform Engagements" d)).

Definition create_media_type_mix_chart (df : Frame) : result figure :=
  rbind (media_type_counts df) (fun d => Ok (px_pie "Media Type Mix" d)).

Definition create_top_locations_chart (df : Frame) : result figure :=
  rbind (top_locations df) (fun d => Ok (px_bar "Top 5 Locations by Engagements" d)).

(** [row[name]] on a row of a frame whose columns are [cols]. *)
Fixpoint iloc_item (cols : list string) (row : list value) (name : string)
  : result value :=
  match cols, row with
  | c :: cols', v :: row' =>
      if String.eqb c name then Ok v else iloc_item cols' row' name
  | _, _ => Raise (KeyError name)
  end.

(** The trend prompt of the main run. The grouped sums are read through
    [reset_index()], whose columns are [date] and [engagements]; the
    script then asks the first and last row for [date] and for
    [Total Engagements]. *)
Definition trend_prompt (df : Frame) : result prompt :=
  let cols := ["date"; "engagements"] in
  let table := map (fun kv => [VDate (fst kv); VInt (snd kv)]) (engagement_by_date df) in
  match table with
  | [] => Ok trend_fallback
  | first :: _ =>
      let last := List.last table first in
      rbind (iloc_item cols first "date") (fun first_date =>
      rbind (iloc_item cols last "date") (fun last_date =>
      rbind (iloc_item cols first "Total Engagements") (fun initial_engagements =>
      rbind (iloc_item cols last "Total Engagements") (fun final_engagements =>
      Ok [Lit "Based on engagement data from "; Fmt first_date;
          Lit " to "; Fmt last_date;
          Lit ", with initial engagements of "; Fmt initial_engagements;
          Lit " and final engagements of "; Fmt final_engagements;
          Lit ". Provide top 3 concise insights about the engagement trend."]))))
  end.

Definition sentiment_prompt (df : Frame) : prompt :=
  [Lit "Based on the following sentiment counts from media data: ";
   Fmt (VDict (sentiment_counts df)); Lit ". Provide top 3 concise insights."].

Definition platform_prompt (d : list (cell * Z)) : prompt :=
  [Lit "Based on platform engagements: "; Fmt (VDict d);
   Lit ". Provide top 3 concise insights."].

Definition media_type_prompt (d : list (cell * Z)) : prompt :=
  [Lit "Based on media type counts: "; Fmt (VDict d);
   Lit ". Provide top 3 concise insights."].

Definition location_prompt (d : list (cell * Z)) : prompt :=
  [Lit "Based on top 5 locations by engagement: "; Fmt (VDict d);
   Lit ". Provide top 3 concise insights."].

Definition insights (p : prompt) : ui unit :=
  text <- call_gemini_api p ;; emit (st_markdown text).

(** The five chart-and-insight blocks, entered when [clean_data] returned
    a frame. *)
Definition charts_and_insights (df : Frame) : ui unit :=
  emit (st_plotly_chart (create_sentiment_chart df)) ;;
  insights (sentiment_prompt df) ;;
  emit (st_plotly_chart (create_engagement_trend_chart df)) ;;
  p <- lift (trend_prompt df) ;;
  insights p ;;
  fig <- lift (create_platform_engagements_chart df) ;;
  emit (st_plotly_chart fig) ;;
  d <- lift (platform_top5 df) ;;
  insights (platform_prompt d) ;;
  fig <- lift (create_media_type_mix_chart df) ;;
  emit (st_plotly_chart fig) ;;
  d <- lift (media_type_counts df) ;;
  insights (media_type_prompt d) ;;
  fig <- lift (create_top_locations_chart df) ;;
  emit (st_plotly_chart fig) ;;
  d <- lift (top_locations df) ;;
  insights (location_prompt d).

(** The body of the [try] of the script. *)
Definition process (raw_df : RawFrame) : ui unit :=
  cleaned_df <- clean_data raw_df ;;
  match cleaned_df with
  | Some df => charts_and_insights df
  | None =>
      emit (st_error
              [Lit "Data cleaning failed. Please check your CSV file format and column names."])
  end.

(** The [except Exception] clause of the script. *)
Definition handler (e : exn) : list event :=
  [st_error [Lit "An error occurred while processing the file: "; Fmt (VExn e)];
   st_info "Please ensure your CSV file is correctly formatted and contains the expected columns: 'Date', 'Platform', 'Sentiment', 'Location', 'Engagements', 'Media Type'."].

(** The script from the upload on: [None] is no file; an exception ends
    the run in the handler, and what was shown before stays. *)
Definition main (uploaded : option RawFrame) : list event :=
  match uploaded with
  | None => []
  | Some raw_df =>
      st_success "File uploaded successfully! Processing data..." ::
      match process raw_df with
      | (log, Ok _) => log
      | (log, Raise e) => (log ++ handler e)%list
      end
  end.

End Page.

(** ** The words of the specification *)

(** The words of the specification: rows of one date keep the order they
    had in the input. Labels are positions in the input. *)
Definition keeps_input_order (l : list (nat * Row)) : Prop :=
  forall l1 a l2 b l3,
    l = (l1 ++ a :: l2 ++ b :: l3)%list ->
    date (snd a) = date (snd b) -> (fst a < fst b)%nat.

(** The prompts that leave the process, in order. *)
Fixpoint posted (log : list event) : list prompt :=
  match log with
  | [] => []
  | requests_post p :: log' => p :: posted log'
  | _ :: log' => posted log'
  end.

(** The words of the specification: a prompt that carries an aggregate. *)
Definition embeds_aggregate (p : prompt) : Prop := exists d, In (Fmt (VDict d)) p.

(** ** Parsers, a sort and sample uploads to run the model *)

(** Insertion sort, to which numpy's quicksort leaves short runs.
    [before a b] decides whether an item of key [a] goes in front of one
    of key [b]. *)
Section InsertionSort.
Context {A : Type} (key : A -> Z) (before : Z -> Z -> bool).

Fixpoint insert (x : A) (l : list A) : list A :=
  match l with
  | [] => [x]
  | y :: l' => if before (key x) (key y) then x :: l else y :: insert x l'
  end.

Definition insertion_sort (l : list A) : list A := fold_right insert [] l.
End InsertionSort.

(** ISO dates, numbers in decimal notation, infinities, and how numbers
    print. *)
Module Parse.

Definition digit (c : ascii) : option Z :=
  let n := nat_of_ascii c in
  if ((48 <=? n) && (n <=? 57))%nat then Some (Z.of_nat (n - 48)) else None.

Fixpoint digits (acc : Z) (l : list ascii) : option Z :=
  match l with
  | [] => Some acc
  | c :: l' =>
      match digit c with
      | Some d => digits (10 * acc + d) l'
      | None => None
      end
  end.

Definition natural (l : list ascii) : option Z :=
  match l with
  | [] => None
  | _ => digits 0 l
  end.

Definition is_leap (y : Z) : bool :=
  ((y mod 4 =? 0) && negb (y mod 100 =? 0)) || (y mod 400 =? 0).

Definition days_in_month (y m : Z) : Z :=
  if m =? 2 then (if is_leap y then 29 else 28)
  else if (m =? 4) || (m =? 6) || (m =? 9) || (m =? 11) then 30
  else 31.

(** Days from 1970-01-01 to a date of the proleptic Gregorian calendar. *)
Definition days_from_civil (y m d : Z) : Z :=
  let y' := if m <=? 2 then y - 1 else y in
  let era := y' / 400 in
  let yoe := y' - era * 400 in
  let doy := (153 * ((m + 9) mod 12) + 2) / 5 + d - 1 in
  let doe := yoe * 365 + yoe / 4 - yoe / 100 + doy in
  era * 146097 + doe - 719468.

(** A date written [YYYY-MM-DD], as a timestamp at midnight. *)
Definition iso_date (s : string) : option Z :=
  match list_ascii_of_string s with
  | [y1; y2; y3; y4; "-"%char; m1; m2; "-"%char; d1; d2] =>
      match natural [y1; y2; y3; y4], natural [m1; m2], natural [d1; d2] with
      | Some y, Some m, Some d =>
          if (1 <=? m) && (m <=? 12) && (1 <=? d) && (d <=? days_in_month y m)
          then Some (days_from_civil y m d * 86400000000000)
          else None
      | _, _, _ => None
      end
  | _ => None
  end.

Definition date_of_cell (c : cell) : option Z :=
  match c with
  | Str s => iso_date s
  | _ => None
  end.

(** A whole number in decimal notation, with an optional sign. *)
Definition integer (s : string) : option Z :=
  match list_ascii_of_string s with
  | "-"%char :: l => option_map Z.opp (natural l)
  | "+"%char :: l => natural l
  | l => natural l
  end.

(** Some of the texts [pd.to_numeric] reads as an infinity. *)
Definition infinite (s : string) : bool :=
  existsb (String.eqb s) ["inf"; "-inf"; "+inf"; "Infinity"; "-Infinity"].

(** The bytes before the first byte for which [p] holds, and those after
    it. *)
Fixpoint break (p : ascii -> bool) (l : list ascii)
  : list ascii * option (list ascii) :=
  match l with
  | [] => ([], None)
  | c :: l' =>
      if p c then ([], Some l')
      else let (before, after) := break p l' in (c :: before, after)
  end.

Definition signed (l : list ascii) : bool * list ascii :=
  match l with
  | "-"%char :: l' => (true, l')
  | "+"%char :: l' => (false, l')
  | _ => (false, l)
  end.

(** A number in decimal notation with a fraction or an exponent, as the
    rational it writes (pandas rounds it to a [float64]). *)
Definition real (s : string) : option Q :=
  let (negative, l) := signed (list_ascii_of_string s) in
  let (mantissa, exponent) :=
    break (fun c => Ascii.eqb c "e" || Ascii.eqb c "E") l in
  let (whole, point) := break (Ascii.eqb ".") mantissa in
  let fraction := match point with Some f => f | None => [] end in
  let power :=
    match exponent with
    | None => Some 0
    | Some e =>
        let (down, d) := signed e in
        option_map (fun z => if down then - z else z) (natural d)
    end in
  match natural (whole ++ fraction), power with
  | Some m, Some e =>
      let shift := e - Z.of_nat (List.length fraction) in
      let q := if 0 <=? shift then inject_Z (m * 10 ^ shift)
               else m # Z.to_pos (10 ^ (- shift)) in
      Some (if negative then Qopp q else q)
  | _, _ => None
  end.

(** A whole number is of an integer dtype when 64 bits hold it, signed
    or unsigned, and a [float64] otherwise. *)
Definition whole (z : Z) : number :=
  if (- 2 ^ 63 <=? z) && (z <? 2 ^ 64) then Int z else Float (inject_Z z).

(** A field as a number. *)
Definition number_of_cell (c : cell) : option number :=
  match c with
  | NaN => None
  | Num q => Some (if Z.pos (Qden q) =? 1 then whole (Qnum q) else Float q)
  | Str s =>
      if infinite s then Some Infinity
      else
        match integer s with
        | Some z => Some (whole z)
        | None => option_map Float (real s)
        end
  end.

Definition decimal (z : Z) : string := NilZero.string_of_int (Z.to_int z).

(** Exact on whole numbers; a fraction is shown as a quotient. *)
Definition repr (q : Q) : string :=
  if (Z.pos (Qden q) =? 1) then decimal (Qnum q)
  else decimal (Qnum q) ++ "/" ++ decimal (Z.pos (Qden q)).

End Parse.

(** Uploads, as [pd.read_csv] returns them. *)
Module Samples.

Definition dashboard_header : list string :=
  ["Date"; "Platform"; "Sentiment"; "Location"; "Engagements"; "Media Type"].

(** The three rows of the example of the specification. *)
Definition three_rows : RawFrame :=
  {| columns := dashboard_header;
     body :=
       [[Str "2024-01-01"; Str "TikTok"; Str "Positive"; Str "NY"; Num 10; Str "video"];
        [Str "2024-01-01"; Str "X"; Str "positive"; Str "NY"; Num 5; Str "text"];
        [Str "bad-date"; Str "X"; Str "negative"; Str "LA"; Num 7; Str "image"]] |}.

(** No sentiment column under any spelling. *)
Definition no_sentiment : RawFrame :=
  {| columns := ["Date"; "Platform"; "Location"; "Engagements"; "Media Type"];
     body := [[Str "2024-01-01"; Str "X"; Str "NY"; Num 5; Str "text"]] |}.

(** The last column name padded with a blank on either side. *)
Definition padded_header : RawFrame :=
  {| columns := ["Date"; "Platform"; "Sentiment"; "Location"; "Engagements"; " media_type "];
     body := [[Str "2024-01-01"; Str "X"; Str "positive"; Str "NY"; Num 5; Str "text"]] |}.

(** A header and no data row. *)
Definition header_only : RawFrame :=
  {| columns := dashboard_header; body := [] |}.

(** Refunds booked as negative engagements, fields that are no numbers
    and fractions. *)
Definition odd_engagements : RawFrame :=
  {| columns := dashboard_header;
     body :=
       [[Str "2024-01-01"; Str "X"; Str "negative"; Str "NY"; Num (-5); Str "text"];
        [Str "2024-01-02"; Str "X"; Str "neutral"; Str "NY"; Str "many"; Str "text"];
        [Str "2024-01-03"; Str "X"; NaN; Str "LA"; NaN; Str "text"];
        [Str "2024-01-04"; Str "X"; Str "neutral"; Str "LA"; Num (7 # 2); Str "text"];
        [Str "2024-01-05"; Str "X"; Str "neutral"; Str "LA"; Num (- 1 # 2); Str "text"]] |}.

(** An engagement that is no finite number, in a row with a date and in a
    row without one. *)
Definition infinite_engagements : RawFrame :=
  {| columns := dashboard_header;
     body :=
       [[Str "2024-01-01"; Str "X"; Str "negative"; Str "NY"; Str "7"; Str "text"];
        [Str "2024-01-02"; Str "X"; Str "neutral"; Str "NY"; Str "inf"; Str "text"]] |}.

Definition infinite_engagements_undated : RawFrame :=
  {| columns := dashboard_header;
     body :=
       [[Str "2024-01-01"; Str "X"; Str "negative"; Str "NY"; Str "7"; Str "text"];
        [Str "no date"; Str "X"; Str "neutral"; Str "NY"; Str "inf"; Str "text"]] |}.

(** A row without a sentiment whose date is no date. *)
Definition undated_without_sentiment : RawFrame :=
  {| columns := dashboard_header;
     body :=
       [[Str "2024-01-01"; Str "X"; Str "Positive"; Str "NY"; Num 5; Str "text"];
        [Str "bad-date"; Str "X"; NaN; Str "LA"; Num 7; Str "text"]] |}.

(** Six locations, two of them with the same total. *)
Definition six_locations : RawFrame :=
  {| columns := dashboard_header;
     body :=
       map (fun p => [Str "2024-01-01"; Str "X"; Str "neutral"; Str (fst p);
                      Num (inject_Z (snd p)); Str "text"])
           [("NY", 10); ("LA", 60); ("SF", 30); ("DC", 50);
            ("TX", 10); ("WA", 20); ("NY", 5)] |}.

(** Eighteen mentions of one day, told apart by their engagements
    0, 1, ..., 17. *)
Definition one_day : RawFrame :=
  {| columns := dashboard_header;
     body :=
       map (fun n => [Str "2024-03-01"; Str "X"; Str "neutral"; Str "NY";
                      Num (inject_Z (Z.of_nat n)); Str "text"])
           (seq 0 18) |}.

(** Two locations with the same total; NY is met first. *)
Definition tied_locations : RawFrame :=
  {| columns := dashboard_header;
     body :=
       [[Str "2024-01-01"; Str "X"; Str "positive"; Str "NY"; Num 5; Str "text"];
        [Str "2024-01-02"; Str "X"; Str "positive"; Str "LA"; Num 5; Str "text"]] |}.

(** The same two rows, LA first. *)
Definition tied_locations_swapped : RawFrame :=
  {| columns := dashboard_header;
     body :=
       [[Str "2024-01-01"; Str "X"; Str "positive"; Str "LA"; Num 5; Str "text"];
        [Str "2024-01-02"; Str "X"; Str "positive"; Str "NY"; Num 5; Str "text"]] |}.

(** Six platforms. *)
Definition six_platforms : RawFrame :=
  {| columns := dashboard_header;
     body :=
       map (fun p => [Str "2024-01-01"; Str (fst p); Str "neutral"; Str "NY";
                      Num (inject_Z (snd p)); Str "text"])
           [("TikTok", 10); ("X", 60); ("Facebook", 30); ("Instagram", 50);
            ("YouTube", 40); ("LinkedIn", 20)] |}.

End Samples.

(** ** The response of the service, as [call_gemini_api] reads it *)

(** A decoded JSON value ([response.json()]); the members of an object
    have distinct names. A number is an [int] or a [float]; Python's
    decoder also reads [NaN] and the infinities, floats that are no
    rational ([JFloat None]). No property needs induction on it. *)
#[local] Unset Elimination Schemes.
Inductive json : Type :=
| JNull
| JBool (b : bool)
| JInt (z : Z)
| JFloat (x : option Q)
| JStr (s : string)
| JArr (items : list json)
| JObj (members : list (string * json)).
#[local] Set Elimination Schemes.

(** Python's truth value of such a value. *)
Definition truthy (j : json) : bool :=
  match j with
  | JNull => false
  | JBool b => b
  | JInt z => negb (z =? 0)
  | JFloat (Some q) => negb (Qnum q =? 0)
  | JFloat None => true
  | JStr s => negb (String.eqb s "")
  | JArr items => match items with [] => false | _ => true end
  | JObj members => match members with [] => false | _ => true end
  end.

(** The name of the Python type, as error messages have it. *)
Definition type_name (j : json) : string :=
  match j with
  | JNull => "NoneType"
  | JBool _ => "bool"
  | JInt _ => "int"
  | JFloat _ => "float"
  | JStr _ => "str"
  | JArr _ => "list"
  | JObj _ => "dict"
  end.

Definition no_attribute (j : json) (name : string) : exn :=
  AttributeError ("'" ++ type_name j ++ "' object has no attribute '" ++ name ++ "'").

Definition not_subscriptable (j : json) : exn :=
  TypeError ("'" ++ type_name j ++ "' object is not subscriptable").

Fixpoint assoc (key : string) (members : list (string * json)) : option json :=
  match members with
  | [] => None
  | (k, v) :: members' => if String.eqb k key then Some v else assoc key members'
  end.

(** [j.get(key)]: only a dict has the method; a missing key gives [None],
    which is JSON's null. *)
Definition py_get (key : string) (j : json) : result json :=
  match j with
  | JObj members =>
      Ok (match assoc key members with
          | Some v => v
          | None => JNull
          end)
  | _ => Raise (no_attribute j "get")
  end.

(** [j[key]] for a text [key] (the message for a text is that of Python
    3.11 and later). *)
Definition py_getitem (key : string) (j : json) : result json :=
  match j with
  | JObj members =>
      match assoc key members with
      | Some v => Ok v
      | None => Raise (KeyError key)
      end
  | JArr _ => Raise (TypeError "list indices must be integers or slices, not str")
  | JStr _ => Raise (TypeError "string indices must be integers, not 'str'")
  | _ => Raise (not_subscriptable j)
  end.

(** [j[0]], which the script evaluates for a true [j] only: [None] stands
    for a false [j]. The first item of a list, the first character of a
    text (its first byte stands for it: the script goes on to ask it for a
    method or a key, which no text has); a dict has no key 0 and the other
    values cannot be indexed. *)
Definition first_if_truthy (j : json) : option (result json) :=
  if truthy j then
    Some (match j with
          | JArr (x :: _) => Ok x
          | JStr (String c _) => Ok (JStr (String c ""))
          | JObj _ => Raise (KeyError "0")
          | _ => Raise (not_subscriptable j)
          end)
  else None.

(** The [if] of [call_gemini_api] and its first branch: the text found
    ([Some]), the [else] branch ([None]) or the exception the reading
    ends in. *)
Definition read_candidates (body : json) : result (option json) :=
  rbind (py_get "candidates" body) (fun candidates =>
  match first_if_truthy candidates with
  | None => Ok None
  | Some c0 =>
      rbind c0 (fun candidate =>
      rbind (py_get "content" candidate) (fun content =>
      if truthy content then
        rbind (py_get "parts" content) (fun parts =>
        match first_if_truthy parts with
        | None => Ok None
        | Some p0 =>
            rbind p0 (fun part =>
            rbind (py_getitem "text" part) (fun text => Ok (Some text)))
        end)
      else Ok None))
  end).

(** What [requests.post] comes back with: an exception of the library, or
    a status and a body that decodes as JSON or does not. *)
Inductive response : Type :=
| NoResponse
| Response (status : Z) (body : option json).

(** [response.raise_for_status()] raises for the codes 400 to 599. *)
Definition is_error_status (status : Z) : bool :=
  (400 <=? status) && (status <? 600).

Section OverHttp.
(** How Python prints the value found under [text] when the page shows it. *)
Context (format : json -> string).

(** The [try] of [call_gemini_api] after the request. A body that does
    not decode makes [response.json()] raise the library's
    [JSONDecodeError], a [RequestException] (requests 2.27 and later). *)
Definition reply_of (r : response) : reply :=
  match r with
  | NoResponse => RequestException
  | Response status body =>
      if is_error_status status then RequestException
      else
        match body with
        | None => RequestException
        | Some j =>
            match read_candidates j with
            | Ok (Some text) => Candidates (format text)
            | Ok None => UnexpectedShape
            | Raise e => Unhandled e
            end
        end
  end.

(** The service reached through [http]. *)
Definition over_http (http : prompt -> response) : TextService :=
  fun p => reply_of (http p).
End OverHttp.

(** ** More words to state properties in *)

(** The member [key] of an object and the first item of an array. *)
Definition member (key : string) (j : json) : option json :=
  match j with
  | JObj members => assoc key members
  | _ => None
  end.

Definition head_item (j : json) : option json :=
  match j with
  | JArr (x :: _) => Some x
  | _ => None
  end.

Definition and_then {A B : Type} (o : option A) (f : A -> option B) : option B :=
  match o with
  | Some a => f a
  | None => None
  end.

(** The value at [candidates[0].content.parts[0].text], going through
    objects and arrays only. *)
Definition text_path (j : json) : option json :=
  and_then (member "candidates" j) (fun candidates =>
  and_then (head_item candidates) (fun candidate =>
  and_then (member "content" candidate) (fun content =>
  and_then (member "parts" content) (fun parts =>
  and_then (head_item parts) (fun part =>
  member "text" part))))).

(** The first part of the first candidate. *)
Definition first_part (j : json) : option json :=
  and_then (member "candidates" j) (fun candidates =>
  and_then (head_item candidates) (fun candidate =>
  and_then (member "content" candidate) (fun content =>
  and_then (member "parts" content) head_item))).

(** An object without a true value under [key]. *)
Definition lacking (key : string) (j : json) : bool :=
  match j with
  | JObj members =>
      match assoc key members with
      | Some v => negb (truthy v)
      | None => true
      end
  | _ => false
  end.

(** The bodies without a true [candidates], or whose first candidate is
    without a true [content], or whose [content] is without a true
    [parts]. *)
Definition incomplete (j : json) : bool :=
  lacking "candidates" j ||
  match and_then (member "candidates" j) head_item with
  | Some candidate =>
      lacking "content" candidate ||
      match member "content" candidate with
      | Some content => lacking "parts" content
      | None => false
      end
  | None => false
  end.

(** Some bodies, and a way to print the value found. *)
Module Answers.
Definition answer_of (part : json) : json :=
  JObj [("candidates",
         JArr [JObj [("content", JObj [("parts", JArr [part]); ("role", JStr "model")]);
                     ("finishReason", JStr "STOP")]])].

Definition with_text : json := answer_of (JObj [("text", JStr "1. Engagement is rising.")]).

Definition part_without_text : json := answer_of (JObj [("inlineData", JObj [])]).

Definition blocked : json :=
  JObj [("promptFeedback", JObj [("blockReason", JStr "SAFETY")])].

Definition as_text (j : json) : string :=
  match j with
  | JStr s => s
  | _ => "?"
  end.
End Answers.

(** The figures shown, in order. *)
Fixpoint shown (log : list event) : list figure :=
  match log with
  | [] => []
  | st_plotly_chart fig :: log' => fig :: shown log'
  | _ :: log' => shown log'
  end.

(** How many items of [s] fall under the key [k]. *)
Definition count_where (k : cell) (s : list cell) : Z :=
  Z.of_nat (List.length (filter (fun x => same_key x k) s)).

(** The counts [acc] account for the items [p]: every count is the number
    of items under its key, no two entries share a key, and every item has
    its entry. *)
Definition tallied (p : list cell) (acc : list (cell * Z)) : Prop :=
  (forall k n, In (k, n) acc -> n = count_where k p /\ In k p) /\
  ForallOrdPairs (fun a b => same_key (fst a) (fst b) = false) acc /\
  (forall x, In x p -> exists e, In e acc /\ same_key x (fst e) = true).

(** The days of the rows, each with the engagements of the row. *)
Definition by_day (l : list (nat * Row)) : list (Z * Z) :=
  map (fun x => (dt_date (date (snd x)), engagements (snd x))) l.

(** The labels of column [i], each with the engagements of the row; rows
    without a label are left out. *)
Definition by_label (i : nat) (l : list (nat * Row)) : list (cell * Z) :=
  filter (fun kv => notna (fst kv))
         (map (fun x => (label_of i x, engagements (snd x))) l).

(** The sum of the magnitudes of the measures. *)
Definition abs_total {K : Type} (l : list (K * Z)) : Z :=
  fold_right (fun kv acc => Z.abs (snd kv) + acc) 0 l.

(** [n] is the integer part of [q]: what is left when the fraction is cut
    off, towards zero. *)
Definition integer_part (q : Q) (n : Z) : Prop :=
  ((0 <= q)%Q -> (inject_Z n <= q)%Q /\ (q < inject_Z (n + 1))%Q) /\
  ((q <= 0)%Q -> (inject_Z (n - 1) < q)%Q /\ (q <= inject_Z n)%Q).

Definition parsed (o : option Z) : bool :=
  match o with
  | Some _ => true
  | None => false
  end.

(** * Properties *)

(** ** Two implementations of the interface *)

Section InsertionSortLaws.
Context {A : Type} (key : A -> Z) (before : Z -> Z -> bool).

Local Abbreviation insert := (insert key before).
Local Abbreviation insertion_sort := (insertion_sort key before).

Hypothesis before_true : forall a b, before a b = true -> a <= b.
Hypothesis before_false : forall a b, before a b = false -> b <= a.

Lemma insert_perm x l : Permutation (insert x l) (x :: l).
Proof.
  induction l as [|y l IH]; simpl; [reflexivity|].
  destruct (before (key x) (key y)); [reflexivity|].
  rewrite IH. apply perm_swap.
Qed.

Lemma insert_hd x y l :
  key y <= key x ->
  HdRel (fun a b => key a <= key b) y l ->
  HdRel (fun a b => key a <= key b) y (insert x l).
Proof.
  intros Hyx Hhd. destruct l as [|z l]; simpl.
  - constructor. exact Hyx.
  - destruct (before (key x) (key z)); constructor.
    + exact Hyx.
    + inversion Hhd; assumption.
Qed.

Lemma insert_sorted x l :
  Sorted (fun a b => key a <= key b) l ->
  Sorted (fun a b => key a <= key b) (insert x l).
Proof.
  induction 1 as [|y l Hs IH Hhd]; simpl.
  - repeat constructor.
  - destruct (before (key x) (key y)) eqn:E.
    + constructor; [constructor; assumption|].
      constructor. apply before_true. exact E.
    + constructor; [exact IH|].
      apply insert_hd; [apply before_false; exact E | exact Hhd].
Qed.

Lemma insertion_sort_perm l : Permutation (insertion_sort l) l.
Proof.
  induction l as [|x l IH]; simpl; [constructor|].
  rewrite insert_perm. constructor. exact IH.
Qed.

Lemma insertion_sort_sorted l :
  Sorted (fun a b => key a <= key b) (insertion_sort l).
Proof.
  induction l as [|x l IH]; simpl; [constructor|].
  apply insert_sorted. exact IH.
Qed.
End InsertionSortLaws.

Module Reference.

(** pandas on tables of ASCII text whose dates are ISO dates or no dates
    at all, whose numbers are written in decimal notation (and taken
    exactly, where pandas rounds to a [float64]), and which are short
    enough for numpy to sort them by insertion, which keeps equal keys in
    their order; the processor is an x86-64. *)
Definition pandas : Pandas := {|
  str_lower := PyStr.ascii_lower;
  str_lower_ascii := fun s _ => eq_refl;
  str_lower_blank := fun s => eq_refl;
  to_datetime := map Parse.date_of_cell;
  to_datetime_length := fun col => length_map Parse.date_of_cell col;
  to_numeric := map Parse.number_of_cell;
  to_numeric_length := fun col => length_map Parse.number_of_cell col;
  to_numeric_nan := fun col i E => map_nth_error Parse.number_of_cell i col E;
  float_to_int64 := fun _ => - 2 ^ 63;
  float_to_int64_range := fun _ => conj (Z.le_refl _) eq_refl;
  num_repr := Parse.repr;
  argsort := fun A key => insertion_sort key Z.leb;
  argsort_perm := fun A key =>
    insertion_sort_perm key Z.leb;
  argsort_sorted := fun A key =>
    insertion_sort_sorted key Z.leb
      (fun a b E => proj1 (Z.leb_le a b) E)
      (fun a b E => Z.lt_le_incl _ _ (proj1 (Z.leb_gt a b) E))
|}.

(** The same, with a sort that lets an item pass the items of equal key.
    It is not the sort of numpy, whose outcome depends on its version and
    on the processor; it is one of the outcomes the contract of
    [kind='quicksort'] allows, and shows what the contract leaves open. *)
Definition pandas_passing_ties : Pandas := {|
  str_lower := PyStr.ascii_lower;
  str_lower_ascii := fun s _ => eq_refl;
  str_lower_blank := fun s => eq_refl;
  to_datetime := map Parse.date_of_cell;
  to_datetime_length := fun col => length_map Parse.date_of_cell col;
  to_numeric := map Parse.number_of_cell;
  to_numeric_length := fun col => length_map Parse.number_of_cell col;
  to_numeric_nan := fun col i E => map_nth_error Parse.number_of_cell i col E;
  float_to_int64 := fun _ => - 2 ^ 63;
  float_to_int64_range := fun _ => conj (Z.le_refl _) eq_refl;
  num_repr := Parse.repr;
  argsort := fun A key => insertion_sort key Z.ltb;
  argsort_perm := fun A key =>
    insertion_sort_perm key Z.ltb;
  argsort_sorted := fun A key =>
    insertion_sort_sorted key Z.ltb
      (fun a b E => Z.lt_le_incl _ _ (proj1 (Z.ltb_lt a b) E))
      (fun a b E => proj1 (Z.ltb_ge a b) E)
|}.

(** A service that cannot be reached (the script ships an empty key). *)
Definition offline : TextService := fun _ => RequestException.

End Reference.

(** The frames [clean_data] returns for the samples, under the reference
    implementation. *)
Module Runs.

Definition returned (raw : RawFrame) : Frame :=
  match snd (@clean_data Reference.pandas raw) with
  | Ok (Some f) => f
  | _ => {| header := []; rows := [] |}
  end.

Definition three_rows : Frame := Eval vm_compute in returned Samples.three_rows.
Definition header_only : Frame := Eval vm_compute in returned Samples.header_only.
Definition odd_engagements : Frame := Eval vm_compute in returned Samples.odd_engagements.
Definition tied_locations : Frame := Eval vm_compute in returned Samples.tied_locations.
Definition tied_locations_swapped : Frame :=
  Eval vm_compute in returned Samples.tied_locations_swapped.
Definition six_platforms : Frame := Eval vm_compute in returned Samples.six_platforms.
Definition six_locations : Frame := Eval vm_compute in returned Samples.six_locations.
Definition undated_without_sentiment : Frame :=
  Eval vm_compute in returned Samples.undated_without_sentiment.

End Runs.

(** ** The header *)

Lemma col_in_In cols c : col_in cols c = true <-> In c cols.
Proof.
  unfold col_in. rewrite existsb_exists. split.
  - intros [x [Hin Heq]]. apply String.eqb_eq in Heq. subst. exact Hin.
  - intros Hin. exists c. split; [exact Hin | apply String.eqb_refl].
Qed.

Lemma has_required_false cols :
  (exists c, In c required_columns /\ ~ In c cols) <-> has_required cols = false.
Proof.
  unfold has_required. split.
  - intros [c [Hreq Hnot]].
    destruct (forallb (col_in cols) required_columns) eqn:E; [|reflexivity].
    exfalso. apply Hnot. apply col_in_In.
    rewrite forallb_forall in E. apply E. exact Hreq.
  - intros E.
    assert (Hex : existsb (fun c => negb (col_in cols c)) required_columns = true).
    { clear -E. induction required_columns as [|c l IH]; simpl in *; [discriminate|].
      destruct (col_in cols c); simpl in *; [apply IH; exact E | reflexivity]. }
    apply existsb_exists in Hex. destruct Hex as [c [Hin Hneg]].
    exists c. split; [exact Hin|].
    intros Hc. apply col_in_In in Hc. rewrite Hc in Hneg. discriminate.
Qed.

Section HeaderFacts.
Context `{Pandas} `{TextService}.

Lemma clean_sorted_missing df :
  has_required (map normalize_column (columns df)) = false ->
  clean_sorted df = Ok None.
Proof. intros E. unfold clean_sorted. rewrite E. reflexivity. Qed.

(** What a successful run of the steps before [reset_index] consists
    of. *)
Lemma clean_sorted_some df f :
  clean_sorted df = Ok (Some f) ->
  exists di ei si ints,
    getitem "date" (map normalize_column (columns df)) = Series di /\
    getitem "engagements" (map normalize_column (columns df)) = Series ei /\
    getitem "sentiment" (map normalize_column (columns df)) = Series si /\
    to_engagements ei (dropna_date (dated di (body df))) = Ok ints /\
    header f = map normalize_column (columns df) /\
    rows f = sort_by_date
               (map (typed si) (combine (dropna_date (dated di (body df))) ints)).
Proof.
  unfold clean_sorted, the_series.
  destruct (negb (has_required _)); [discriminate|].
  destruct (getitem "date" _) as [di| |]; simpl; try discriminate.
  destruct (getitem "engagements" _) as [ei| |]; simpl; try discriminate.
  destruct (to_engagements ei _) as [ints|e] eqn:Ei; simpl; try discriminate.
  destruct (getitem "sentiment" _) as [si| |]; simpl; try discriminate.
  intros E. injection E as <-. exists di, ei, si, ints. simpl.
  repeat split; try reflexivity. exact Ei.
Qed.

Lemma clean_data_some df log f :
  clean_data df = (log, Ok (Some f)) ->
  exists pre,
    clean_sorted df = Ok (Some pre) /\ log = [] /\
    header f = header pre /\ rows f = reset_index (rows pre).
Proof.
  unfold clean_data, lift, bind.
  destruct (clean_sorted df) as [[pre|]|e]; simpl; intros E; inversion E.
  exists pre. repeat split; reflexivity.
Qed.

Lemma reset_index_rows l : map snd (reset_index l) = map snd l.
Proof.
  unfold reset_index.
  assert (G : forall (r : list Row) (n : list nat),
             List.length n = List.length r -> map snd (combine n r) = r).
  { induction r as [|x r IH]; intros [|a n] Hl; simpl in *;
      try reflexivity; try discriminate.
    f_equal. apply IH. lia. }
  apply G. rewrite length_seq, length_map. reflexivity.
Qed.

End HeaderFacts.

(** C1. A table that lacks one of the six required columns after the
    renaming makes [clean_data] report the required columns and return
    nothing, and the run ends there: the page shows the two error messages
    and neither a chart nor a request to the text service. *)
Theorem C1_missing_column_halts `{Pandas} `{TextService} (raw : RawFrame) :
  (exists c, In c required_columns /\
             ~ In c (map normalize_column (columns raw))) ->
  clean_data raw = ([st_error missing_columns_msg], Ok None) /\
  main (Some raw) =
    [st_success "File uploaded successfully! Processing data...";
     st_error missing_columns_msg;
     st_error [Lit "Data cleaning failed. Please check your CSV file format and column names."]] /\
  (forall e, In e (main (Some raw)) ->
             (forall fig, e <> st_plotly_chart fig) /\ (forall p, e <> requests_post p)).
Proof.
  intros Hmiss. apply has_required_false in Hmiss.
  assert (Hc : clean_data raw = ([st_error missing_columns_msg], Ok None)).
  { unfold clean_data. rewrite (clean_sorted_missing _ Hmiss). reflexivity. }
  assert (Hm : main (Some raw) =
    [st_success "File uploaded successfully! Processing data...";
     st_error missing_columns_msg;
     st_error [Lit "Data cleaning failed. Please check your CSV file format and column names."]]).
  { unfold main, process. rewrite Hc. reflexivity. }
  split; [exact Hc|]. split; [exact Hm|].
  intros e He. rewrite Hm in He. simpl in He.
  destruct He as [<-|[<-|[<-|[]]]]; split; intros; discriminate.
Qed.

Lemma C1_missing_column_halts_witness :
  @main Reference.pandas Reference.offline (Some Samples.no_sentiment) =
    [st_success "File uploaded successfully! Processing data...";
     st_error missing_columns_msg;
     st_error [Lit "Data cleaning failed. Please check your CSV file format and column names."]].
Proof.
  refine (proj1 (proj2 (@C1_missing_column_halts Reference.pandas Reference.offline
                         Samples.no_sentiment _))).
  exists "sentiment". split.
  - simpl. tauto.
  - vm_compute. intuition discriminate.
Defined.

(** ** Stripping *)

Section StripFacts.
Variable s1 : ascii -> bool.
Variable s2 : ascii -> ascii -> bool.
Variable s3 : ascii -> ascii -> ascii -> bool.

Local Abbreviation lstrip := (PyStr.lstrip_with s1 s2 s3).
Local Abbreviation starts := (PyStr.starts_with s1 s2 s3).

(** The cases of [lstrip_with]: a character of one, two or three bytes is
    dropped, or nothing is. *)
Lemma lstrip_with_cases (P : list ascii -> list ascii -> Prop) :
  (forall c1 l1, s1 c1 = true -> P l1 (lstrip l1) -> P (c1 :: l1) (lstrip l1)) ->
  (forall c1 c2 l2, s1 c1 = false -> s2 c1 c2 = true ->
                    P l2 (lstrip l2) -> P (c1 :: c2 :: l2) (lstrip l2)) ->
  (forall c1 c2 c3 l3, s1 c1 = false -> s2 c1 c2 = false -> s3 c1 c2 c3 = true ->
                       P l3 (lstrip l3) -> P (c1 :: c2 :: c3 :: l3) (lstrip l3)) ->
  (forall l, starts l = false -> P l l) ->
  forall l, P l (lstrip l).
Proof.
  intros H1 H2 H3 H0.
  assert (G : forall n l, (List.length l <= n)%nat -> P l (lstrip l)).
  { induction n as [|n IH]; intros l Hl.
    - destruct l; [apply H0; reflexivity | simpl in Hl; lia].
    - destruct l as [|c1 l1]; [apply H0; reflexivity|].
      simpl in Hl. cbn [PyStr.lstrip_with].
      destruct (s1 c1) eqn:E1.
      { apply H1; [exact E1 | apply IH; lia]. }
      destruct l1 as [|c2 l2].
      { apply H0. simpl. rewrite E1. reflexivity. }
      simpl in Hl.
      destruct (s2 c1 c2) eqn:E2.
      { apply H2; [exact E1 | exact E2 | apply IH; lia]. }
      destruct l2 as [|c3 l3].
      { apply H0. simpl. rewrite E1, E2. reflexivity. }
      simpl in Hl.
      destruct (s3 c1 c2 c3) eqn:E3.
      { apply H3; [exact E1 | exact E2 | exact E3 | apply IH; lia]. }
      apply H0. simpl. rewrite E1, E2, E3. reflexivity. }
  intros l. apply (G (List.length l)). lia.
Qed.

Lemma lstrip_with_head l : starts (lstrip l) = false.
Proof. apply (lstrip_with_cases (fun _ r => starts r = false)); auto. Qed.

Lemma lstrip_with_id l : starts l = false -> lstrip l = l.
Proof.
  destruct l as [|c1 [|c2 [|c3 l3]]]; simpl; try reflexivity.
  - destruct (s1 c1); [discriminate | reflexivity].
  - destruct (s1 c1); [discriminate|]. destruct (s2 c1 c2); [discriminate | reflexivity].
  - destruct (s1 c1); [discriminate|]. destruct (s2 c1 c2); [discriminate|].
    destruct (s3 c1 c2 c3); [discriminate | reflexivity].
Qed.

Lemma lstrip_with_suffix l : exists p, l = (p ++ lstrip l)%list.
Proof.
  apply (lstrip_with_cases (fun l r => exists p, l = (p ++ r)%list)).
  - intros c1 l1 _ [p E]. exists (c1 :: p). simpl. f_equal. exact E.
  - intros c1 c2 l2 _ _ [p E]. exists (c1 :: c2 :: p). simpl. do 2 f_equal. exact E.
  - intros c1 c2 c3 l3 _ _ _ [p E]. exists (c1 :: c2 :: c3 :: p). simpl.
    do 3 f_equal. exact E.
  - intros l0 _. exists []. reflexivity.
Qed.

Lemma starts_with_app p q : starts p = true -> starts (p ++ q) = true.
Proof.
  destruct p as [|c1 [|c2 [|c3 p]]]; simpl; try discriminate.
  - rewrite orb_false_r. intros ->. reflexivity.
  - rewrite orb_false_r. destruct (s1 c1); [reflexivity|]. simpl.
    intros ->. reflexivity.
  - auto.
Qed.

(** A byte that ends no white-space character stays at the end. *)
Lemma lstrip_with_snoc l c :
  s1 c = false -> (forall a, s2 a c = false) -> (forall a b, s3 a b c = false) ->
  exists l', lstrip (l ++ [c]) = (l' ++ [c])%list.
Proof.
  intros C1 C2 C3.
  assert (G : forall n l, (List.length l <= n)%nat ->
                          exists l', lstrip (l ++ [c]) = (l' ++ [c])%list).
  { induction n as [|n IH]; intros l0 Hl.
    - destruct l0; [|simpl in Hl; lia]. simpl. rewrite C1. exists []. reflexivity.
    - destruct l0 as [|c1 l1].
      { simpl. rewrite C1. exists []. reflexivity. }
      simpl in Hl. cbn [app PyStr.lstrip_with].
      destruct (s1 c1); [apply IH; lia|].
      destruct l1 as [|c2 l2]; cbn [app].
      { rewrite C2. exists [c1]. reflexivity. }
      simpl in Hl.
      destruct (s2 c1 c2); [apply IH; lia|].
      destruct l2 as [|c3 l3]; cbn [app].
      { rewrite C3. exists [c1; c2]. reflexivity. }
      simpl in Hl.
      destruct (s3 c1 c2 c3); [apply IH; lia|].
      exists (c1 :: c2 :: c3 :: l3). reflexivity. }
  apply (G (List.length l)). lia.
Qed.

End StripFacts.

Lemma lstrip_chars_underscore l :
  PyStr.lstrip_chars ("_"%char :: l) = ("_"%char :: l)%list.
Proof. apply lstrip_with_id. destruct l as [|c2 [|c3 l]]; reflexivity. Qed.

Lemma rstrip_chars_underscore l :
  exists l', PyStr.rstrip_chars ("_"%char :: l) = ("_"%char :: l')%list.
Proof.
  unfold PyStr.rstrip_chars. cbn [rev].
  destruct (lstrip_with_snoc PyStr.is_space (fun a b => PyStr.is_space2 b a)
              (fun a b c => PyStr.is_space3 c b a) (rev l) "_"%char)
    as [l' ->]; try reflexivity.
  rewrite rev_app_distr. exists (rev l'). reflexivity.
Qed.

Section Renaming.
Context `{Pandas}.

(** The renaming of a name of ASCII characters. *)
Lemma normalize_column_ascii col :
  PyStr.all_ascii col = true ->
  normalize_column col
  = PyStr.strip (PyStr.replace " " "_" (PyStr.ascii_lower col)).
Proof. intros Ha. unfold normalize_column. rewrite (str_lower_ascii _ Ha). reflexivity. Qed.

End Renaming.

(** C2. The renaming lower-cases a name and turns its blanks into
    underscores before it strips it, so the blanks around a padded name
    are underscores by then and stay: ["Media Type"] and ["MEDIA_TYPE"]
    become [media_type], [" media_type "] becomes [_media_type_], and a
    table whose header spells the column that way is rejected for a
    missing column. No name that starts with a blank is renamed to a name
    without a leading underscore. *)
Theorem C2_padded_name_keeps_underscores `{Pandas} :
  normalize_column "Media Type" = "media_type" /\
  normalize_column "MEDIA_TYPE" = "media_type" /\
  normalize_column " media_type " = "_media_type_" /\
  has_required (map normalize_column (columns Samples.padded_header)) = false /\
  (forall col, exists rest, normalize_column (String " " col) = String "_" rest).
Proof.
  split; [rewrite normalize_column_ascii; reflexivity|].
  split; [rewrite normalize_column_ascii; reflexivity|].
  split; [rewrite normalize_column_ascii; reflexivity|].
  split.
  { simpl map. rewrite !normalize_column_ascii by reflexivity. reflexivity. }
  intros col. unfold normalize_column, PyStr.strip, PyStr.replace.
  rewrite str_lower_blank.
  rewrite list_ascii_of_string_of_list_ascii. cbn [list_ascii_of_string map].
  change (Ascii.eqb " " " ") with true. cbv iota.
  rewrite lstrip_chars_underscore.
  destruct (rstrip_chars_underscore
              (map (fun c => if Ascii.eqb c " " then "_"%char else c)
                   (list_ascii_of_string (str_lower col)))) as [l' ->].
  eexists. reflexivity.
Qed.

(** ** The rows that survive *)

Lemma In_combine_seq {A : Type} (l : list A) (s i : nat) (x : A) :
  In (i, x) (combine (seq s (List.length l)) l) <->
  (s <= i)%nat /\ nth_error l (i - s) = Some x.
Proof.
  revert s. induction l as [|a l IH]; intros s; simpl.
  - split; [tauto|]. intros [_ E]. destruct (i - s)%nat; discriminate.
  - rewrite IH. split.
    + intros [E|[Hle E]].
      * injection E as <- <-. split; [lia|]. rewrite Nat.sub_diag. reflexivity.
      * split; [lia|]. replace (i - s)%nat with (S (i - S s)) by lia. exact E.
    + intros [Hle E]. destruct (Nat.eq_dec s i) as [->|Hne].
      * left. rewrite Nat.sub_diag in E. simpl in E. injection E as <-. reflexivity.
      * right. split; [lia|].
        replace (i - s)%nat with (S (i - S s)) in E by lia. exact E.
Qed.

Lemma nth_error_combine {A B : Type} (la : list A) (lb : list B) i a b :
  nth_error (combine la lb) i = Some (a, b) <->
  nth_error la i = Some a /\ nth_error lb i = Some b.
Proof.
  revert lb i. induction la as [|x la IH]; intros [|y lb] [|i]; simpl;
    try (split; [discriminate | intros [? ?]; discriminate]).
  - split; [intros E; injection E as <- <-; split; reflexivity|].
    intros [E1 E2]. injection E1 as <-. injection E2 as <-. reflexivity.
  - apply IH.
Qed.

Lemma In_combine_nth {A B : Type} (la : list A) (lb : list B) a b :
  In (a, b) (combine la lb) <->
  exists j, nth_error la j = Some a /\ nth_error lb j = Some b.
Proof.
  split.
  - intros Hin. apply In_nth_error in Hin. destruct Hin as [j Hj].
    exists j. apply nth_error_combine. exact Hj.
  - intros [j Hj]. apply nth_error_combine in Hj.
    eapply nth_error_In. exact Hj.
Qed.

Lemma Forall2_at {A B : Type} (P : A -> B -> Prop) la lb j a b :
  Forall2 P la lb -> nth_error la j = Some a -> nth_error lb j = Some b -> P a b.
Proof.
  intros F. revert j. induction F as [|x y la lb Hxy F IH]; intros [|j]; simpl;
    try discriminate.
  - intros E1 E2. injection E1 as <-. injection E2 as <-. exact Hxy.
  - apply IH.
Qed.

Lemma wrap64_range z : - 2 ^ 63 <= wrap64 z < 2 ^ 63.
Proof.
  unfold wrap64.
  pose proof (Z.mod_pos_bound (z + 2 ^ 63) (2 ^ 64) eq_refl) as Hb.
  change (2 ^ 64) with (2 * 2 ^ 63) in *. lia.
Qed.

(** ** The integer part of a number *)

Lemma trunc_integer_part q : integer_part q (trunc q).
Proof.
  destruct q as [a b]. unfold integer_part, trunc, Qle, Qlt, inject_Z. simpl.
  assert (Hpos : forall c, 0 <= c ->
            Z.pos b * (c ÷ Z.pos b) <= c < Z.pos b * (c ÷ Z.pos b) + Z.pos b).
  { intros c Hc. pose proof (Z.quot_rem' c (Z.pos b)) as E.
    pose proof (Z.rem_bound_pos c (Z.pos b) Hc (Pos2Z.is_pos b)) as Hr. lia. }
  split; intros Ha.
  - specialize (Hpos a ltac:(lia)). nia.
  - specialize (Hpos (- a) ltac:(lia)).
    rewrite Z.quot_opp_l in Hpos by lia. nia.
Qed.

Lemma integer_part_unique q n m : integer_part q n -> integer_part q m -> n = m.
Proof.
  destruct q as [a b]. unfold integer_part, Qle, Qlt, inject_Z. simpl.
  intros [P1 N1] [P2 N2].
  destruct (Z_le_gt_dec 0 a) as [Ha|Ha].
  - specialize (P1 ltac:(lia)). specialize (P2 ltac:(lia)). nia.
  - specialize (N1 ltac:(lia)). specialize (N2 ltac:(lia)). nia.
Qed.

Lemma trunc_fits q :
  (inject_Z (- 2 ^ 63 - 1) < q)%Q -> (q < inject_Z (2 ^ 63))%Q ->
  in_int64 (trunc q) = true.
Proof.
  pose proof (trunc_integer_part q) as [P N].
  destruct q as [a b]. unfold Qle, Qlt, inject_Z, in_int64 in *. simpl in *.
  intros Hlo Hhi. apply andb_true_iff. rewrite Z.leb_le, Z.ltb_lt.
  set (n := trunc (a # b)) in *. clearbody n.
  set (lo := 2 ^ 63) in *. assert (0 < lo) by reflexivity. clearbody lo.
  destruct (Z_le_gt_dec 0 a) as [Ha|Ha].
  - specialize (P ltac:(lia)). nia.
  - specialize (N ltac:(lia)). nia.
Qed.

Section Survivors.
Context `{Pandas}.

Lemma dated_In di b i o r :
  In (i, (o, r)) (dated di b) <->
  nth_error (to_datetime (map (field di) b)) i = Some o /\ nth_error b i = Some r.
Proof.
  unfold dated.
  assert (L : List.length b =
              List.length (combine (to_datetime (map (field di) b)) b)).
  { rewrite length_combine, to_datetime_length, length_map. lia. }
  rewrite L, In_combine_seq, Nat.sub_0_r, nth_error_combine.
  split; [tauto|]. intros G. split; [lia | exact G].
Qed.

Lemma dropna_date_In l i t r :
  In (i, (t, r)) (dropna_date l) <-> In (i, (Some t, r)) l.
Proof.
  induction l as [|[j [[u|] q]] l IH]; simpl.
  - tauto.
  - rewrite IH. split.
    + intros [E|G]; [left; injection E as -> -> ->; reflexivity | right; exact G].
    + intros [E|G]; [left; injection E as -> -> ->; reflexivity | right; exact G].
  - rewrite IH. split; [tauto|]. intros [E|G]; [discriminate | exact G].
Qed.

(** *** The conversion of the engagements *)

Lemma astype_int_each col ints :
  astype_int col = Ok ints -> Forall2 (fun x n => to_int64 x = Ok n) col ints.
Proof.
  revert ints. induction col as [|x col IH]; simpl; intros ints E.
  - injection E as <-. constructor.
  - destruct (to_int64 x) as [n|e] eqn:E1; simpl in E; [|discriminate].
    destruct (astype_int col) as [ns|e] eqn:E2; simpl in E; [|discriminate].
    injection E as <-. constructor; [exact E1 | apply IH; reflexivity].
Qed.

Lemma astype_int_finite col :
  ~ In Infinity col -> exists ints, astype_int col = Ok ints.
Proof.
  induction col as [|x col IH]; simpl; intros Hn.
  - eexists. reflexivity.
  - destruct IH as [ns ->]; [tauto|].
    destruct x; simpl; try (eexists; reflexivity).
    exfalso. apply Hn. left. reflexivity.
Qed.

Lemma astype_int_infinite col :
  In Infinity col ->
  astype_int col
  = Raise (ValueError "Cannot convert non-finite values (NA or inf) to integer").
Proof.
  induction col as [|x col IH]; simpl; [tauto|].
  intros [->|Hin]; [reflexivity|].
  rewrite (IH Hin). destruct x; reflexivity.
Qed.

Lemma to_int64_range x n : to_int64 x = Ok n -> - 2 ^ 63 <= n < 2 ^ 63.
Proof.
  destruct x as [z|q|]; simpl; intros E; try discriminate; injection E as <-.
  - apply wrap64_range.
  - destruct (in_int64 (trunc q)) eqn:Ei; [|apply float_to_int64_range].
    unfold in_int64 in Ei. apply andb_true_iff in Ei.
    rewrite Z.leb_le, Z.ltb_lt in Ei. exact Ei.
Qed.

(** The column of numbers [to_engagements] converts. *)
Local Abbreviation numbers ei kept :=
  (to_numeric (map (fun x : nat * (Z * list cell) => field ei (snd (snd x))) kept)).

Lemma to_engagements_length ei kept ints :
  to_engagements ei kept = Ok ints -> List.length ints = List.length kept.
Proof.
  intros E. apply astype_int_each, Forall2_length in E.
  rewrite length_map, to_numeric_length, length_map in E. symmetry. exact E.
Qed.

Lemma to_engagements_finite ei kept ints :
  to_engagements ei kept = Ok ints -> ~ In (Some Infinity) (numbers ei kept).
Proof.
  intros E Hin. unfold to_engagements in E.
  rewrite astype_int_infinite in E; [discriminate|].
  apply in_map_iff. exists (Some Infinity). split; [reflexivity | exact Hin].
Qed.

(** The engagements at position [j] are what [astype(int)] makes of the
    number at position [j]. *)
Lemma to_engagements_at ei kept ints j x :
  to_engagements ei kept = Ok ints ->
  nth_error kept j = Some x ->
  exists o n,
    nth_error (numbers ei kept) j = Some o /\
    nth_error ints j = Some n /\
    to_int64 (fillna (Float 0) o) = Ok n /\
    (field ei (snd (snd x)) = NaN -> o = None).
Proof.
  intros E Hx.
  pose proof (to_engagements_length _ _ _ E) as Hlen.
  assert (Hj : (j < List.length kept)%nat).
  { apply nth_error_Some. rewrite Hx. discriminate. }
  destruct (nth_error (numbers ei kept) j) as [o|] eqn:Eo.
  2:{ apply nth_error_None in Eo.
      rewrite to_numeric_length, length_map in Eo. lia. }
  destruct (nth_error ints j) as [n|] eqn:En.
  2:{ apply nth_error_None in En. lia. }
  exists o, n. split; [reflexivity|]. split; [reflexivity|]. split.
  - apply astype_int_each in E.
    apply (Forall2_at _ _ _ j _ _ E); [|exact En].
    apply map_nth_error. exact Eo.
  - intros Hnan.
    pose proof (to_numeric_nan
                  (map (fun x : nat * (Z * list cell) => field ei (snd (snd x))) kept) j)
      as Hlaw.
    rewrite (map_nth_error _ _ _ Hx), Hnan in Hlaw.
    specialize (Hlaw eq_refl). rewrite Eo in Hlaw. injection Hlaw as ->. reflexivity.
Qed.

(** A row is in the frame before [reset_index], under label [i], exactly
    when [pd.to_datetime] returned a timestamp for row [i] of the raw frame
    and it is what the assignments make of that row. *)
Lemma survivors df pre di ei si ints :
  clean_sorted df = Ok (Some pre) ->
  getitem "date" (map normalize_column (columns df)) = Series di ->
  getitem "engagements" (map normalize_column (columns df)) = Series ei ->
  getitem "sentiment" (map normalize_column (columns df)) = Series si ->
  to_engagements ei (dropna_date (dated di (body df))) = Ok ints ->
  forall i row,
    In (i, row) (rows pre) <->
    exists t r n,
      nth_error (to_datetime (map (field di) (body df))) i = Some (Some t) /\
      nth_error (body df) i = Some r /\
      In ((i, (t, r)), n) (combine (dropna_date (dated di (body df))) ints) /\
      row = {| date := t;
               engagements := n;
               sentiment := str_lower (astype_str (field si r));
               cells := r |}.
Proof.
  intros Hc Hd He Hs Hi i row.
  destruct (clean_sorted_some _ _ Hc)
    as (di' & ei' & si' & ints' & Hd' & He' & Hs' & Hi' & _ & Hrows).
  rewrite Hd in Hd'. rewrite He in He'. rewrite Hs in Hs'.
  injection Hd' as <-. injection He' as <-. injection Hs' as <-.
  rewrite Hi in Hi'. injection Hi' as <-.
  rewrite Hrows. unfold sort_by_date. split.
  - intros Hin. apply (Permutation_in _ (argsort_perm _ _ _)) in Hin.
    apply in_map_iff in Hin. destruct Hin as [[[j [t r]] n] [E Hin]].
    simpl in E. injection E as -> <-.
    exists t, r, n.
    pose proof Hin as Hk. apply in_combine_l in Hk.
    apply dropna_date_In, dated_In in Hk. tauto.
  - intros (t & r & n & Ht & Hr & Hin & ->).
    apply (Permutation_in _ (Permutation_sym (argsort_perm _ _ _))).
    apply in_map_iff. exists ((i, (t, r)), n). split; [reflexivity | exact Hin].
Qed.

(** Every raw row with a timestamp has its row in the frame. *)
Lemma survivor_of df pre di ei si ints i t r :
  clean_sorted df = Ok (Some pre) ->
  getitem "date" (map normalize_column (columns df)) = Series di ->
  getitem "engagements" (map normalize_column (columns df)) = Series ei ->
  getitem "sentiment" (map normalize_column (columns df)) = Series si ->
  to_engagements ei (dropna_date (dated di (body df))) = Ok ints ->
  nth_error (to_datetime (map (field di) (body df))) i = Some (Some t) ->
  nth_error (body df) i = Some r ->
  exists n,
    In (i, {| date := t;
              engagements := n;
              sentiment := str_lower (astype_str (field si r));
              cells := r |}) (rows pre).
Proof.
  intros Hc Hd He Hs Hi Ht Hr.
  assert (Hk : In (i, (t, r)) (dropna_date (dated di (body df)))).
  { apply dropna_date_In, dated_In. tauto. }
  apply In_nth_error in Hk. destruct Hk as [j Hj].
  destruct (to_engagements_at _ _ _ _ _ Hi Hj) as (o & n & _ & Hn & _).
  exists n. apply (survivors _ _ _ _ _ _ Hc Hd He Hs Hi).
  exists t, r, n. repeat split; try assumption.
  apply In_combine_nth. exists j. tauto.
Qed.

End Survivors.

Section Normalised.
Context `{Pandas}.

Lemma returned_row_origin raw log df pre x :
  clean_data raw = (log, Ok (Some df)) ->
  clean_sorted raw = Ok (Some pre) ->
  In x (rows df) -> exists i, In (i, snd x) (rows pre).
Proof.
  intros Hc Hp Hin.
  destruct (clean_data_some _ _ _ Hc) as (pre' & Hp' & _ & _ & Hrows).
  rewrite Hp in Hp'. injection Hp' as <-.
  apply (in_map snd) in Hin. rewrite Hrows, reset_index_rows in Hin.
  apply in_map_iff in Hin. destruct Hin as [[i row] [E Hin]].
  simpl in E. subst row. exists i. exact Hin.
Qed.

End Normalised.

(** C3, as the code has it. In every row of the returned table the
    engagements are a 64-bit integer, made of the number [pd.to_numeric]
    read for the row: 0 when the field is missing or no number; the integer
    part, towards zero, of a finite number whose integer part fits 64 bits,
    so that a number that is not negative gives engagements that are not
    negative and a negative number is not taken for an error; an integer of
    another width modulo [2^64]. No row of a returned table holds an
    infinity: the conversion refuses it and no table is returned. *)
Theorem C3_engagements_integer_default_zero `{Pandas}
    (raw : RawFrame) (log : list event) (df : Frame) :
  clean_data raw = (log, Ok (Some df)) ->
  exists di ei,
    getitem "date" (map normalize_column (columns raw)) = Series di /\
    getitem "engagements" (map normalize_column (columns raw)) = Series ei /\
    let kept := dropna_date (dated di (body raw)) in
    let nums := to_numeric (map (fun x => field ei (snd (snd x))) kept) in
    ~ In (Some Infinity) nums /\
    Forall (fun x =>
              - 2 ^ 63 <= engagements (snd x) < 2 ^ 63 /\
              (field ei (cells (snd x)) = NaN -> engagements (snd x) = 0) /\
              exists j i t,
                nth_error kept j = Some (i, (t, cells (snd x))) /\
                match nth_error nums j with
                | Some None => engagements (snd x) = 0
                | Some (Some (Int z)) =>
                    engagements (snd x) = wrap64 z /\
                    (- 2 ^ 63 <= z < 2 ^ 63 -> engagements (snd x) = z)
                | Some (Some (Float q)) =>
                    (inject_Z (- 2 ^ 63 - 1) < q)%Q -> (q < inject_Z (2 ^ 63))%Q ->
                    integer_part q (engagements (snd x)) /\
                    ((0 <= q)%Q -> 0 <= engagements (snd x))
                | _ => False
                end)
           (rows df).
Proof.
  intros Hc.
  destruct (clean_data_some _ _ _ Hc) as (pre & Hp & _ & _ & _).
  destruct (clean_sorted_some _ _ Hp)
    as (di & ei & si & ints & Hd & He & Hs & Hi & _ & _).
  exists di, ei. split; [exact Hd|]. split; [exact He|]. cbv zeta.
  split; [exact (to_engagements_finite _ _ _ Hi)|].
  apply Forall_forall. intros x Hin.
  destruct (returned_row_origin _ _ _ _ _ Hc Hp Hin) as [i Hrow].
  apply (survivors _ _ _ _ _ _ Hp Hd He Hs Hi) in Hrow.
  destruct Hrow as (t & r & n & _ & _ & Hk & ->). cbn [engagements cells].
  apply In_combine_nth in Hk. destruct Hk as [j [Hj Hn]].
  destruct (to_engagements_at _ _ _ _ _ Hi Hj) as (o & n' & Ho & Hn' & Hcast & Hnan).
  rewrite Hn in Hn'. injection Hn' as <-. cbn [snd] in Hnan.
  split; [exact (to_int64_range _ _ Hcast)|]. split.
  - intros Hr. rewrite (Hnan Hr) in Hcast. simpl in Hcast.
    injection Hcast as <-. reflexivity.
  - exists j, i, t. split; [exact Hj|]. rewrite Ho.
    destruct o as [[z|q|]|]; simpl in Hcast; try discriminate; injection Hcast as <-.
    + split; [reflexivity|]. intros Hz. unfold wrap64.
      rewrite Z.mod_small by (change (2 ^ 64) with (2 * 2 ^ 63); lia). lia.
    + intros Hlo Hhi. rewrite (trunc_fits q Hlo Hhi).
      pose proof (trunc_integer_part q) as Hpart.
      split; [exact Hpart|].
      intros Hq. destruct Hpart as [P _]. specialize (P Hq).
      destruct q as [a b]. unfold Qle, Qlt, inject_Z in *. simpl in *. nia.
    + reflexivity.
Qed.

Lemma C3_engagements_integer_default_zero_witness :
  exists di ei,
    getitem "date"
      (map (@normalize_column Reference.pandas) (columns Samples.odd_engagements))
      = Series di /\
    getitem "engagements"
      (map (@normalize_column Reference.pandas) (columns Samples.odd_engagements))
      = Series ei /\
    let kept := dropna_date (@dated Reference.pandas di (body Samples.odd_engagements)) in
    let nums := @to_numeric Reference.pandas
                  (map (fun x => field ei (snd (snd x))) kept) in
    ~ In (Some Infinity) nums /\
    Forall (fun x =>
              - 2 ^ 63 <= engagements (snd x) < 2 ^ 63 /\
              (field ei (cells (snd x)) = NaN -> engagements (snd x) = 0) /\
              exists j i t,
                nth_error kept j = Some (i, (t, cells (snd x))) /\
                match nth_error nums j with
                | Some None => engagements (snd x) = 0
                | Some (Some (Int z)) =>
                    engagements (snd x) = wrap64 z /\
                    (- 2 ^ 63 <= z < 2 ^ 63 -> engagements (snd x) = z)
                | Some (Some (Float q)) =>
                    (inject_Z (- 2 ^ 63 - 1) < q)%Q -> (q < inject_Z (2 ^ 63))%Q ->
                    integer_part q (engagements (snd x)) /\
                    ((0 <= q)%Q -> 0 <= engagements (snd x))
                | _ => False
                end)
           (rows Runs.odd_engagements).
Proof.
  apply (@C3_engagements_integer_default_zero Reference.pandas
           Samples.odd_engagements []).
  vm_compute. reflexivity.
Defined.

(** What the conversion makes of some fields, on an x86-64: the text of a
    number too large for 64 bits, of 2^63, of a fraction and of no
    number; and that it refuses an infinity. *)
Example to_engagements_samples :
  @to_engagements Reference.pandas 0
    [(0%nat, (0, [Str "1e19"])); (1%nat, (0, [Str "9223372036854775808"]));
     (2%nat, (0, [Str "-0.5"])); (3%nat, (0, [Str "3.99"]));
     (4%nat, (0, [Str "many"])); (5%nat, (0, [NaN]))]
  = Ok [- 2 ^ 63; - 2 ^ 63; 0; 3; 0; 0] /\
  @to_engagements Reference.pandas 0 [(0%nat, (0, [Str "inf"]))]
  = Raise (ValueError "Cannot convert non-finite values (NA or inf) to integer").
Proof. split; vm_compute; reflexivity. Qed.

(** C3, as the specification has it, fails: a raw engagement of -5 is a
    number, so it is kept, and the returned table has a row whose
    engagements are negative. Of 7/2 the table keeps 3, of -1/2 it keeps
    0. *)
Lemma C3_negative_engagements_kept :
  @clean_data Reference.pandas Samples.odd_engagements
    = ([], Ok (Some Runs.odd_engagements)) /\
  map (fun x => engagements (snd x)) (rows Runs.odd_engagements) = [-5; 0; 0; 3; 0] /\
  ~ Forall (fun x => 0 <= engagements (snd x)) (rows Runs.odd_engagements).
Proof.
  split; [vm_compute; reflexivity|]. split; [reflexivity|].
  intros F. inversion F as [|? ? Hneg _]. simpl in Hneg. lia.
Qed.

(** C4. A row for which [pd.to_datetime] returned no timestamp is not in
    the returned table, and every row of the returned table carries the
    timestamp [pd.to_datetime] returned for the raw row it comes from. The
    returned table is the frame [pre] with its index renumbered; the labels
    of [pre] are the positions of the raw rows. *)
Theorem C4_only_dated_rows_survive `{Pandas}
    (raw : RawFrame) (log : list event) (df : Frame) :
  clean_data raw = (log, Ok (Some df)) ->
  exists di pre,
    getitem "date" (map normalize_column (columns raw)) = Series di /\
    clean_sorted raw = Ok (Some pre) /\
    map snd (rows df) = map snd (rows pre) /\
    (forall i,
        nth_error (to_datetime (map (field di) (body raw))) i = Some None ->
        ~ In i (map fst (rows pre))) /\
    (forall i row,
        In (i, row) (rows pre) ->
        nth_error (body raw) i = Some (cells row) /\
        nth_error (to_datetime (map (field di) (body raw))) i = Some (Some (date row))).
Proof.
  intros Hc.
  destruct (clean_data_some _ _ _ Hc) as (pre & Hp & _ & _ & Hrows).
  destruct (clean_sorted_some _ _ Hp)
    as (di & ei & si & ints & Hd & He & Hs & Hi & _ & _).
  exists di, pre. split; [exact Hd|]. split; [exact Hp|].
  split; [rewrite Hrows; apply reset_index_rows|]. split.
  - intros i Hnone Hin. apply in_map_iff in Hin.
    destruct Hin as [[j row] [E Hin]]. simpl in E. subst j.
    apply (survivors _ _ _ _ _ _ Hp Hd He Hs Hi) in Hin.
    destruct Hin as (t & r & n & Ht & _). rewrite Hnone in Ht. discriminate.
  - intros i row Hin.
    apply (survivors _ _ _ _ _ _ Hp Hd He Hs Hi) in Hin.
    destruct Hin as (t & r & n & Ht & Hr & _ & ->). simpl. split; assumption.
Qed.

Lemma C4_only_dated_rows_survive_witness :
  exists di pre,
    getitem "date" (map (@normalize_column Reference.pandas) (columns Samples.three_rows)) = Series di /\
    @clean_sorted Reference.pandas Samples.three_rows = Ok (Some pre) /\
    map snd (rows Runs.three_rows) = map snd (rows pre) /\
    (forall i,
        nth_error (@to_datetime Reference.pandas
                     (map (field di) (body Samples.three_rows))) i = Some None ->
        ~ In i (map fst (rows pre))) /\
    (forall i row,
        In (i, row) (rows pre) ->
        nth_error (body Samples.three_rows) i = Some (cells row) /\
        nth_error (@to_datetime Reference.pandas
                     (map (field di) (body Samples.three_rows))) i
          = Some (Some (date row))).
Proof.
  apply (@C4_only_dated_rows_survive Reference.pandas Samples.three_rows []).
  vm_compute. reflexivity.
Defined.

(** ** Order of the returned table *)

Lemma Sorted_map {A B : Type} (f : A -> B) (R : B -> B -> Prop) (l : list A) :
  Sorted (fun a b => R (f a) (f b)) l -> Sorted R (map f l).
Proof.
  induction 1 as [|x l Hs IH Hhd]; simpl; constructor.
  - exact IH.
  - destruct Hhd; simpl; constructor. assumption.
Qed.

Lemma Sorted_combine_snd {A B : Type} (R : B -> B -> Prop) (n : list A) (l : list B) :
  Sorted R l -> Sorted (fun a b => R (snd a) (snd b)) (combine n l).
Proof.
  intros Hs. revert n. induction Hs as [|x l Hs IH Hhd]; intros [|a n]; simpl;
    try constructor.
  - apply IH.
  - destruct Hhd; destruct n; simpl; constructor. assumption.
Qed.

(** C5, as the code has it. The returned table is in ascending order of
    date, is indexed 0, 1, 2, ... and holds the surviving rows, each once.
    In which order it lists rows of one date is left to [sort_values]. *)
Theorem C5_sorted_by_date `{Pandas}
    (raw : RawFrame) (log : list event) (df : Frame) :
  clean_data raw = (log, Ok (Some df)) ->
  Sorted (fun a b => date (snd a) <= date (snd b)) (rows df) /\
  map fst (rows df) = seq 0 (List.length (rows df)) /\
  exists di ei si ints,
    getitem "date" (map normalize_column (columns raw)) = Series di /\
    getitem "engagements" (map normalize_column (columns raw)) = Series ei /\
    getitem "sentiment" (map normalize_column (columns raw)) = Series si /\
    to_engagements ei (dropna_date (dated di (body raw))) = Ok ints /\
    Permutation (map snd (rows df))
                (map snd (map (typed si)
                              (combine (dropna_date (dated di (body raw))) ints))).
Proof.
  intros Hc.
  destruct (clean_data_some _ _ _ Hc) as (pre & Hp & _ & _ & Hrows).
  destruct (clean_sorted_some _ _ Hp)
    as (di & ei & si & ints & Hd & He & Hs & Hi & _ & Hpre).
  split; [|split].
  - rewrite Hrows. unfold reset_index.
    apply (Sorted_combine_snd (fun a b => date a <= date b)).
    apply (Sorted_map snd (fun a b => date a <= date b)).
    rewrite Hpre. apply argsort_sorted.
  - rewrite Hrows. unfold reset_index.
    rewrite length_combine, length_seq, length_map, Nat.min_id.
    generalize 0%nat. generalize (rows pre). clear.
    induction l as [|x l IH]; intros s; simpl; [reflexivity|].
    f_equal. apply IH.
  - exists di, ei, si, ints. repeat split; try assumption.
    rewrite Hrows, reset_index_rows, Hpre. apply Permutation_map.
    apply argsort_perm.
Qed.

Lemma C5_sorted_by_date_witness :
  Sorted (fun a b => date (snd a) <= date (snd b)) (rows Runs.three_rows) /\
  map fst (rows Runs.three_rows) = seq 0 (List.length (rows Runs.three_rows)) /\
  exists di ei si ints,
    getitem "date"
      (map (@normalize_column Reference.pandas) (columns Samples.three_rows))
      = Series di /\
    getitem "engagements"
      (map (@normalize_column Reference.pandas) (columns Samples.three_rows))
      = Series ei /\
    getitem "sentiment"
      (map (@normalize_column Reference.pandas) (columns Samples.three_rows))
      = Series si /\
    @to_engagements Reference.pandas ei
      (dropna_date (@dated Reference.pandas di (body Samples.three_rows))) = Ok ints /\
    Permutation (map snd (rows Runs.three_rows))
                (map snd (map (@typed Reference.pandas si)
                              (combine
                                 (dropna_date (@dated Reference.pandas di
                                                 (body Samples.three_rows)))
                                 ints))).
Proof.
  apply (@C5_sorted_by_date Reference.pandas Samples.three_rows []).
  vm_compute. reflexivity.
Defined.

(** C5, as the specification has it, fails. [sort_values] is called with
    its default kind, for which pandas promises an ascending arrangement
    and no more. Under an implementation that meets this promise and lets
    equal keys pass each other, eighteen mentions of one day, entered with
    engagements 0, 1, ..., 17, are returned in the order 17, 16, ..., 0. *)
Lemma C5_rows_of_one_day_reordered :
  exists pre df,
    @clean_sorted Reference.pandas_passing_ties Samples.one_day = Ok (Some pre) /\
    @clean_data Reference.pandas_passing_ties Samples.one_day = ([], Ok (Some df)) /\
    (forall x, In x (rows df) -> date (snd x) = 1709251200000000000) /\
    map (fun x => engagements (snd x)) (rows df) = map Z.of_nat (rev (seq 0 18)) /\
    map fst (rows pre) = rev (seq 0 18) /\
    ~ keeps_input_order (rows pre).
Proof.
  eexists. eexists.
  split; [vm_compute; reflexivity|].
  split; [vm_compute; reflexivity|].
  split.
  { intros x Hin. simpl in Hin.
    repeat (destruct Hin as [<-|Hin]; [reflexivity|]). destruct Hin. }
  split; [reflexivity|]. split; [reflexivity|].
  intros K. simpl in K.
  specialize (K [] _ [] _ _ eq_refl eq_refl).
  simpl in K. lia.
Qed.

(** ** Counting *)

Lemma total_perm {K : Type} (a b : list (K * Z)) :
  Permutation a b -> total a = total b.
Proof. induction 1; simpl; lia. Qed.

Lemma cell_compare_refl c : cell_compare c c = Eq.
Proof.
  destruct c as [|q|s]; simpl.
  - reflexivity.
  - apply Qeq_alt. reflexivity.
  - pose proof (String.compare_antisym s s) as E.
    destruct (String.compare s s); simpl in E; congruence.
Qed.

Lemma same_key_refl c : same_key c c = true.
Proof. unfold same_key. rewrite cell_compare_refl. reflexivity. Qed.

Lemma same_key_Str a b : same_key (Str a) (Str b) = true -> a = b.
Proof.
  unfold same_key. simpl. destruct (String.compare a b) eqn:E; try discriminate.
  intros _. apply String.compare_eq_iff. exact E.
Qed.

Lemma count_key_total k acc : total (count_key k acc) = total acc + 1.
Proof.
  induction acc as [|[k' n] acc IH]; simpl; [reflexivity|].
  destruct (same_key k k'); simpl; lia.
Qed.

Lemma count_key_found k acc :
  exists k', In k' (map fst (count_key k acc)) /\ same_key k k' = true.
Proof.
  induction acc as [|[j n] acc IH]; simpl.
  - exists k. split; [left; reflexivity | apply same_key_refl].
  - destruct (same_key k j) eqn:E; simpl.
    + exists j. split; [left; reflexivity | exact E].
    + destruct IH as [k' [Hin Hk]]. exists k'. split; [right; exact Hin | exact Hk].
Qed.

Lemma count_key_keeps k acc j :
  In j (map fst acc) -> In j (map fst (count_key k acc)).
Proof.
  induction acc as [|[j' n] acc IH]; simpl; [tauto|].
  destruct (same_key k j'); simpl; tauto.
Qed.

Lemma count_key_keys k acc j :
  In j (map fst (count_key k acc)) -> j = k \/ In j (map fst acc).
Proof.
  induction acc as [|[j' n] acc IH]; simpl; [intuition congruence|].
  destruct (same_key k j'); simpl; tauto.
Qed.

Lemma fold_count_total s acc :
  total (fold_left (fun a k => count_key k a) s acc)
  = total acc + Z.of_nat (List.length s).
Proof.
  revert acc. induction s as [|k s IH]; intros acc; simpl List.length; simpl fold_left.
  - lia.
  - rewrite IH, count_key_total. lia.
Qed.

Lemma fold_count_keeps s acc j :
  In j (map fst acc) -> In j (map fst (fold_left (fun a k => count_key k a) s acc)).
Proof.
  revert acc. induction s as [|k s IH]; intros acc Hin; simpl; [exact Hin|].
  apply IH, count_key_keeps, Hin.
Qed.

Lemma fold_count_found s acc k :
  In k s ->
  exists k', In k' (map fst (fold_left (fun a k => count_key k a) s acc)) /\
             same_key k k' = true.
Proof.
  revert acc. induction s as [|x s IH]; intros acc Hin; simpl in *; [tauto|].
  destruct Hin as [->|Hin]; [|apply IH; exact Hin].
  destruct (count_key_found k acc) as [k' [Hk' E]].
  exists k'. split; [apply fold_count_keeps; exact Hk' | exact E].
Qed.

Lemma fold_count_keys s acc j :
  In j (map fst (fold_left (fun a k => count_key k a) s acc)) ->
  In j s \/ In j (map fst acc).
Proof.
  revert acc. induction s as [|x s IH]; intros acc Hin; simpl in *; [tauto|].
  apply IH in Hin. destruct Hin as [Hin|Hin]; [tauto|].
  apply count_key_keys in Hin. intuition.
Qed.

Lemma filter_notna_Str (l : list string) : filter notna (map Str l) = map Str l.
Proof. induction l as [|s l IH]; simpl; [reflexivity | f_equal; exact IH]. Qed.

Section Ordering.
Context `{Pandas}.

Lemma sort_values_desc_perm {K : Type} (s : list (K * Z)) :
  Permutation (sort_values_desc s) s.
Proof.
  unfold sort_values_desc.
  rewrite <- Permutation_rev, argsort_perm, <- Permutation_rev. reflexivity.
Qed.

Lemma argsort_nil {A : Type} (key : A -> Z) : argsort key [] = [].
Proof. apply Permutation_nil, Permutation_sym, argsort_perm. Qed.

Lemma sentiment_counts_key df x :
  In x (rows df) ->
  In (Str (sentiment (snd x))) (map fst (sentiment_counts df)).
Proof.
  intros Hin. unfold sentiment_counts, value_counts.
  apply (Permutation_in _ (Permutation_sym
           (Permutation_map fst (sort_values_desc_perm _)))).
  rewrite <- (map_map (fun x => sentiment (snd x)) Str), filter_notna_Str.
  unfold tally.
  destruct (fold_count_found (map Str (map (fun x => sentiment (snd x)) (rows df)))
              [] (Str (sentiment (snd x)))) as [k' [Hk' E]].
  { apply in_map, (in_map (fun x => sentiment (snd x))), Hin. }
  assert (Hs : In k' (map Str (map (fun x => sentiment (snd x)) (rows df)))).
  { apply fold_count_keys in Hk'. destruct Hk' as [G|[]]. exact G. }
  apply in_map_iff in Hs. destruct Hs as [s [<- _]].
  apply same_key_Str in E. rewrite E. exact Hk'.
Qed.

End Ordering.

(** C9. The counts of the sentiment breakdown add up to the number of rows
    of the table, whatever its rows are. *)
Theorem C9_sentiment_counts_sum_to_rows `{Pandas} (df : Frame) :
  total (sentiment_counts df) = Z.of_nat (List.length (rows df)).
Proof.
  unfold sentiment_counts, value_counts.
  rewrite (total_perm _ _ (sort_values_desc_perm _)).
  rewrite <- (map_map (fun x => sentiment (snd x)) Str), filter_notna_Str.
  unfold tally. rewrite fold_count_total. simpl. rewrite !length_map. reflexivity.
Qed.

(** C10, as the code has it. A raw row without a sentiment is kept
    whenever [pd.to_datetime] finds its date: it is in the returned table
    with the sentiment [nan], and [nan] is a category of the sentiment
    breakdown. *)
Theorem C10_missing_sentiment_counted_as_nan `{Pandas}
    (raw : RawFrame) (log : list event) (df : Frame)
    (di si i : nat) (r : list cell) (t : Z) :
  clean_data raw = (log, Ok (Some df)) ->
  getitem "date" (map normalize_column (columns raw)) = Series di ->
  getitem "sentiment" (map normalize_column (columns raw)) = Series si ->
  nth_error (body raw) i = Some r ->
  field si r = NaN ->
  nth_error (to_datetime (map (field di) (body raw))) i = Some (Some t) ->
  exists pre row,
    clean_sorted raw = Ok (Some pre) /\
    In (i, row) (rows pre) /\
    In row (map snd (rows df)) /\
    cells row = r /\ date row = t /\ sentiment row = "nan" /\
    In (Str "nan") (map fst (sentiment_counts df)).
Proof.
  intros Hc Hd Hs Hr Hnan Ht.
  destruct (clean_data_some _ _ _ Hc) as (pre & Hp & _ & _ & Hrows).
  destruct (clean_sorted_some _ _ Hp)
    as (di' & ei & si' & ints & Hd' & He & Hs' & Hi & _ & _).
  rewrite Hd in Hd'. injection Hd' as <-.
  destruct (survivor_of _ _ _ _ _ _ _ _ _ Hp Hd He Hs Hi Ht Hr) as [n Hin].
  rewrite Hnan in Hin. cbn [astype_str] in Hin.
  rewrite (str_lower_ascii "nan" eq_refl) in Hin.
  change (PyStr.ascii_lower "nan") with "nan" in Hin.
  eexists pre, _. split; [exact Hp|]. split; [exact Hin|].
  assert (Hdf : In {| date := t; engagements := n; sentiment := "nan"; cells := r |}
                   (map snd (rows df))).
  { rewrite Hrows, reset_index_rows. apply (in_map snd) in Hin. exact Hin. }
  split; [exact Hdf|]. repeat split.
  apply in_map_iff in Hdf. destruct Hdf as [x [E Hx]].
  apply sentiment_counts_key in Hx. rewrite E in Hx. exact Hx.
Qed.

Lemma C10_missing_sentiment_counted_as_nan_witness :
  exists pre row,
    @clean_sorted Reference.pandas Samples.odd_engagements = Ok (Some pre) /\
    In (2%nat, row) (rows pre) /\
    In row (map snd (rows Runs.odd_engagements)) /\
    cells row = [Str "2024-01-03"; Str "X"; NaN; Str "LA"; NaN; Str "text"] /\
    date row = 1704240000000000000 /\ sentiment row = "nan" /\
    In (Str "nan") (map fst (@sentiment_counts Reference.pandas Runs.odd_engagements)).
Proof.
  apply (@C10_missing_sentiment_counted_as_nan Reference.pandas
           Samples.odd_engagements [] Runs.odd_engagements 0 2 2);
    vm_compute; reflexivity.
Defined.

(** C10, as the specification has it, fails: a row without a sentiment
    whose date is no date is dropped like every row without a date, and
    when it is the only one without a sentiment the breakdown has no
    category [nan]. *)
Lemma C10_undated_row_not_counted :
  @clean_data Reference.pandas Samples.undated_without_sentiment
    = ([], Ok (Some Runs.undated_without_sentiment)) /\
  map (field 2) (body Samples.undated_without_sentiment) = [Str "Positive"; NaN] /\
  map (fun x => sentiment (snd x)) (rows Runs.undated_without_sentiment)
    = ["positive"] /\
  @sentiment_counts Reference.pandas Runs.undated_without_sentiment
    = [(Str "positive", 1)] /\
  ~ In (Str "nan")
       (map fst (@sentiment_counts Reference.pandas Runs.undated_without_sentiment)).
Proof.
  split; [vm_compute; reflexivity|]. split; [reflexivity|].
  split; [reflexivity|]. split; [vm_compute; reflexivity|].
  vm_compute. intros [E|[]]. discriminate.
Qed.

(** ** Grouped sums *)

Lemma wrap64_add_l a b : wrap64 (wrap64 a + b) = wrap64 (a + b).
Proof.
  unfold wrap64. f_equal.
  replace ((a + 2 ^ 63) mod 2 ^ 64 - 2 ^ 63 + b + 2 ^ 63)
    with ((a + 2 ^ 63) mod 2 ^ 64 + b) by lia.
  rewrite Zplus_mod_idemp_l. f_equal. lia.
Qed.

Section GroupTheory.
Context {K : Type} (cmp : K -> K -> comparison).

Local Abbreviation sum_where := (sum_where cmp).
Local Abbreviation key_lt := (key_lt cmp).
Local Abbreviation grouped := (grouped cmp).

Hypothesis cmp_refl : forall a, cmp a a = Eq.
Hypothesis cmp_antisym : forall a b, cmp b a = CompOpp (cmp a b).
Hypothesis cmp_eq_l : forall a b c, cmp a b = Eq -> cmp a c = cmp b c.
Hypothesis cmp_lt_trans :
  forall a b c, cmp a b = Lt -> cmp b c = Lt -> cmp a c = Lt.

Lemma sum_where_cons j k v p :
  sum_where j ((k, v) :: p)
  = match cmp j k with
    | Eq => v + sum_where j p
    | _ => sum_where j p
    end.
Proof. reflexivity. Qed.

Lemma sum_where_app k a b : sum_where k (a ++ b) = sum_where k a + sum_where k b.
Proof.
  induction a as [|x a IH]; simpl; [reflexivity|].
  destruct (cmp k (fst x)); lia.
Qed.

Lemma sum_where_rev k l : sum_where k (rev l) = sum_where k l.
Proof.
  induction l as [|x l IH]; simpl; [reflexivity|].
  rewrite sum_where_app, IH. simpl. destruct (cmp k (fst x)); lia.
Qed.

Lemma sum_where_none k l :
  (forall kv, In kv l -> cmp k (fst kv) <> Eq) -> sum_where k l = 0.
Proof.
  induction l as [|x l IH]; intros Hno; simpl; [reflexivity|].
  pose proof (Hno x (or_introl eq_refl)) as Hx.
  destruct (cmp k (fst x)); try congruence; apply IH; intros; apply Hno; right; assumption.
Qed.

Lemma add_to_group_keys k v acc e :
  In e (add_to_group cmp k v acc) ->
  fst e = k \/ exists e', In e' acc /\ fst e' = fst e.
Proof.
  induction acc as [|[k' s'] acc IH]; simpl.
  - intros [<-|[]]. left. reflexivity.
  - destruct (cmp k k'); simpl.
    + intros [<-|Hin]; right.
      * exists (k', s'). split; [left|]; reflexivity.
      * exists e. split; [right; exact Hin | reflexivity].
    + intros [<-|[<-|Hin]]; [left; reflexivity|right|right].
      * exists (k', s'). split; [left|]; reflexivity.
      * exists e. split; [right; exact Hin | reflexivity].
    + intros [<-|Hin].
      * right. exists (k', s'). split; [left|]; reflexivity.
      * destruct (IH Hin) as [G|[e' [G1 G2]]]; [left; exact G|].
        right. exists e'. split; [right; exact G1 | exact G2].
Qed.

Lemma add_to_group_sorted k v acc :
  StronglySorted key_lt acc -> StronglySorted key_lt (add_to_group cmp k v acc).
Proof.
  induction 1 as [|[k' s'] acc Hs IH Hall]; simpl.
  - repeat constructor.
  - destruct (cmp k k') eqn:E.
    + constructor; [exact Hs|]. exact Hall.
    + constructor; [constructor; assumption|].
      constructor; [exact E|].
      rewrite Forall_forall in *. intros e He.
      unfold key_lt in *. simpl in *. eapply cmp_lt_trans; [exact E|].
      apply (Hall e He).
    + constructor; [exact IH|].
      rewrite Forall_forall in *. intros e He.
      destruct (add_to_group_keys _ _ _ _ He) as [G|[e' [G1 G2]]].
      * unfold key_lt. simpl. rewrite G, cmp_antisym, E. reflexivity.
      * unfold key_lt in *. rewrite <- G2. apply (Hall e' G1).
Qed.

Lemma add_to_group_values k v acc j s :
  StronglySorted key_lt acc ->
  In (j, s) (add_to_group cmp k v acc) ->
  (cmp k j = Eq /\
   ((exists s0, In (j, s0) acc /\ s = wrap64 (s0 + v)) \/
    (s = wrap64 v /\ forall e, In e acc -> cmp k (fst e) <> Eq))) \/
  (cmp k j <> Eq /\ In (j, s) acc).
Proof.
  induction 1 as [|[k' s'] acc Hs IH Hall]; simpl.
  - intros [E|[]]. injection E as <- <-. left. split; [apply cmp_refl|].
    right. split; [reflexivity|]. intros e [].
  - rewrite Forall_forall in Hall. unfold key_lt in Hall. simpl in Hall.
    destruct (cmp k k') eqn:E; simpl.
    + intros [G|Hin].
      * injection G as <- <-. left. split; [exact E|]. left.
        exists s'. split; [left|]; reflexivity.
      * right. split; [|right; exact Hin].
        pose proof (Hall _ Hin) as Hj. simpl in Hj.
        rewrite (cmp_eq_l _ _ j E), Hj. discriminate.
    + assert (Hlt : forall e, In e ((k', s') :: acc) -> cmp k (fst e) = Lt).
      { intros e [<-|He]; [exact E|].
        eapply cmp_lt_trans; [exact E | apply (Hall e He)]. }
      intros [G|Hin].
      * injection G as <- <-. left. split; [apply cmp_refl|]. right.
        split; [reflexivity|]. intros e He. rewrite (Hlt e He). discriminate.
      * right. split; [|exact Hin].
        pose proof (Hlt _ Hin) as Hj. simpl in Hj. rewrite Hj. discriminate.
    + intros [G|Hin].
      * injection G as <- <-. right. split; [rewrite E; discriminate|].
        left. reflexivity.
      * destruct (IH Hin) as [[G1 [[s0 [G2 G3]]|[G2 G3]]]|[G1 G2]].
        -- left. split; [exact G1|]. left. exists s0. split; [right; exact G2 | exact G3].
        -- left. split; [exact G1|]. right. split; [exact G2|].
           intros e [<-|He]; [simpl; rewrite E; discriminate | apply G3; exact He].
        -- right. split; [exact G1 | right; exact G2].
Qed.

Lemma add_to_group_found k v acc :
  exists e, In e (add_to_group cmp k v acc) /\ cmp k (fst e) = Eq.
Proof.
  induction acc as [|[k' s'] acc IH]; simpl.
  - eexists. split; [left; reflexivity | apply cmp_refl].
  - destruct (cmp k k') eqn:E.
    + eexists. split; [left; reflexivity | exact E].
    + eexists. split; [left; reflexivity | apply cmp_refl].
    + destruct IH as [e [G1 G2]]. exists e. split; [right; exact G1 | exact G2].
Qed.

Lemma add_to_group_keeps k v acc e :
  In e acc -> exists e', In e' (add_to_group cmp k v acc) /\ fst e' = fst e.
Proof.
  induction acc as [|[k' s'] acc IH]; simpl; [tauto|].
  destruct (cmp k k'); simpl.
  - intros [<-|Hin].
    + eexists. split; [left; reflexivity | reflexivity].
    + exists e. split; [right; exact Hin | reflexivity].
  - intros Hin. exists e. split; [right; exact Hin | reflexivity].
  - intros [<-|Hin].
    + eexists. split; [left; reflexivity | reflexivity].
    + destruct (IH Hin) as [e' [G1 G2]]. exists e'. split; [right; exact G1 | exact G2].
Qed.

Lemma grouped_step p acc k v :
  grouped p acc -> grouped ((k, v) :: p) (add_to_group cmp k v acc).
Proof.
  intros [Hs Hsum Hcov Hkeys]. constructor.
  - apply add_to_group_sorted. exact Hs.
  - intros j s Hin. rewrite sum_where_cons.
    destruct (add_to_group_values _ _ _ _ _ Hs Hin)
      as [[E [[s0 [G1 G2]]|[G1 G2]]]|[E G]].
    + rewrite cmp_antisym, E. simpl. rewrite G2, (Hsum _ _ G1), wrap64_add_l.
      f_equal. lia.
    + rewrite cmp_antisym, E. simpl. rewrite G1. f_equal.
      rewrite sum_where_none; [lia|].
      intros kv Hkv Ekv. destruct (Hcov kv Hkv) as [e [He1 He2]].
      apply (G2 e He1).
      assert (Ejk : cmp k (fst kv) = Eq).
      { rewrite (cmp_eq_l _ _ (fst kv) E). exact Ekv. }
      rewrite (cmp_eq_l _ _ (fst e) Ejk). exact He2.
    + rewrite cmp_antisym. destruct (cmp k j); try congruence; simpl;
        apply (Hsum _ _ G).
  - intros kv [<-|Hin]; simpl.
    + apply add_to_group_found.
    + destruct (Hcov kv Hin) as [e [He1 He2]].
      destruct (add_to_group_keeps k v acc e He1) as [e' [G1 G2]].
      exists e'. split; [exact G1|]. rewrite G2. exact He2.
  - intros e Hin. simpl.
    destruct (add_to_group_keys _ _ _ _ Hin) as [G|[e' [G1 G2]]].
    + left. symmetry. exact G.
    + right. rewrite <- G2. apply Hkeys. exact G1.
Qed.

Lemma grouped_fold l p acc :
  grouped p acc ->
  grouped (rev l ++ p)
          (fold_left (fun a kv => add_to_group cmp (fst kv) (snd kv) a) l acc).
Proof.
  revert p acc. induction l as [|[k v] l IH]; intros p acc Hg; simpl; [exact Hg|].
  rewrite <- app_assoc. simpl. apply IH, grouped_step, Hg.
Qed.

(** [groupby_sum] lists every key of the rows once, in key order, with
    the 64-bit sum of the values of its rows. *)
Lemma groupby_sum_spec l :
  StronglySorted key_lt (groupby_sum cmp l) /\
  (forall j s, In (j, s) (groupby_sum cmp l) ->
               s = wrap64 (sum_where j l) /\ In j (map fst l)) /\
  (forall kv, In kv l ->
              exists e, In e (groupby_sum cmp l) /\ cmp (fst kv) (fst e) = Eq).
Proof.
  assert (G0 : grouped [] []).
  { constructor; try (intros; simpl in *; tauto). constructor. }
  pose proof (grouped_fold l [] [] G0) as [Hs Hsum Hcov Hkeys].
  rewrite app_nil_r in *. fold (groupby_sum cmp l) in *.
  split; [exact Hs|]. split.
  - intros j s Hin. split.
    + rewrite <- sum_where_rev. apply (Hsum _ _ Hin).
    + pose proof (Hkeys _ Hin) as G. simpl in G.
      rewrite map_rev in G. apply in_rev in G. exact G.
  - intros kv Hin. apply Hcov. apply in_rev in Hin. exact Hin.
Qed.

End GroupTheory.

(** ** The order of group keys *)

Lemma cell_compare_antisym a b : cell_compare b a = CompOpp (cell_compare a b).
Proof.
  destruct a as [|p|s], b as [|q|t]; simpl; try reflexivity.
  - symmetry. apply Qcompare_antisym.
  - apply String.compare_antisym.
Qed.

Lemma cell_compare_eq_l a b c :
  cell_compare a b = Eq -> cell_compare a c = cell_compare b c.
Proof.
  destruct a as [|p|s], b as [|q|t]; simpl; try discriminate; intros E.
  - reflexivity.
  - destruct c as [|r|u]; simpl; try reflexivity.
    apply Qeq_alt in E. apply Qcompare_comp; [exact E | reflexivity].
  - apply String.compare_eq_iff in E. subst. reflexivity.
Qed.

Lemma cell_compare_lt_trans a b c :
  cell_compare a b = Lt -> cell_compare b c = Lt -> cell_compare a c = Lt.
Proof.
  destruct a as [|p|s], b as [|q|t], c as [|r|u]; simpl;
    try discriminate; try reflexivity; intros E1 E2.
  - apply Qlt_alt. apply Qlt_alt in E1, E2. eapply Qlt_trans; eassumption.
  - apply String_as_OT.cmp_lt. apply String_as_OT.cmp_lt in E1, E2.
    eapply String_as_OT.lt_trans; eassumption.
Qed.

Lemma notna_not_same k : notna k = true -> cell_compare k NaN <> Eq.
Proof. destruct k; simpl; discriminate. Qed.

Lemma sum_where_same_key a b l :
  cell_compare a b = Eq -> sum_where cell_compare a l = sum_where cell_compare b l.
Proof.
  intros E. induction l as [|x l IH]; simpl; [reflexivity|].
  rewrite (cell_compare_eq_l _ _ (fst x) E), IH. reflexivity.
Qed.

Lemma sum_where_notna k (l : list (cell * Z)) :
  notna k = true ->
  sum_where cell_compare k (filter (fun kv => notna (fst kv)) l)
  = sum_where cell_compare k l.
Proof.
  intros Hk. induction l as [|[j v] l IH]; simpl; [reflexivity|].
  destruct j as [|q|s]; simpl; rewrite IH; try reflexivity.
  destruct k; simpl in *; try discriminate; reflexivity.
Qed.

Lemma combine_map {A B C : Type} (f : A -> B) (g : A -> C) (l : list A) :
  combine (map f l) (map g l) = map (fun x => (f x, g x)) l.
Proof. induction l as [|x l IH]; simpl; [reflexivity | f_equal; exact IH]. Qed.

(** ** Descending order and [head] *)

Lemma In_firstn {A : Type} n (l : list A) x : In x (firstn n l) -> In x l.
Proof.
  intros Hin. rewrite <- (firstn_skipn n l). apply in_or_app. left. exact Hin.
Qed.

Lemma In_skipn {A : Type} n (l : list A) x : In x (skipn n l) -> In x l.
Proof.
  intros Hin. rewrite <- (firstn_skipn n l). apply in_or_app. right. exact Hin.
Qed.

Lemma StronglySorted_snoc {A : Type} (R : A -> A -> Prop) l x :
  StronglySorted R l -> Forall (fun y => R y x) l -> StronglySorted R (l ++ [x]).
Proof.
  induction 1 as [|y l Hs IH Hall]; intros Hx; simpl.
  - repeat constructor.
  - inversion Hx as [|? ? Hyx Hlx]; subst. constructor; [apply IH; exact Hlx|].
    apply Forall_app. split; [exact Hall | repeat constructor; exact Hyx].
Qed.

Section Descending.
Context {A : Type} (R : A -> A -> Prop).

Lemma StronglySorted_rev l :
  StronglySorted R l -> StronglySorted (fun a b => R b a) (rev l).
Proof.
  induction 1 as [|x l Hs IH Hall]; simpl; [constructor|].
  apply StronglySorted_snoc; [exact IH|].
  apply Forall_rev. exact Hall.
Qed.

Lemma StronglySorted_firstn n l :
  StronglySorted R l -> StronglySorted R (firstn n l).
Proof.
  intros Hs. revert n. induction Hs as [|x l Hs IH Hall]; intros [|n]; simpl;
    try constructor.
  - apply IH.
  - rewrite Forall_forall in *. intros y Hy. apply Hall.
    eapply In_firstn; exact Hy.
Qed.

Lemma StronglySorted_head_tail n l a b :
  StronglySorted R l -> In a (firstn n l) -> In b (skipn n l) -> R a b.
Proof.
  intros Hs. revert n. induction Hs as [|x l Hs IH Hall]; intros [|n]; simpl;
    try tauto.
  intros [<-|Ha] Hb.
  - rewrite Forall_forall in Hall. apply Hall.
    eapply In_skipn; exact Hb.
  - eapply IH; eassumption.
Qed.
End Descending.

(** ** Rankings *)

Section Rankings.
Context `{Pandas}.

Lemma sort_values_desc_sorted {K : Type} (s : list (K * Z)) :
  StronglySorted (fun a b => snd b <= snd a) (sort_values_desc s).
Proof.
  unfold sort_values_desc.
  apply (StronglySorted_rev (fun a b : K * Z => snd a <= snd b)).
  apply Sorted_StronglySorted; [|apply argsort_sorted].
  intros a b c. lia.
Qed.

Lemma engagements_by_spec name df i :
  getitem name (header df) = Series i ->
  exists g,
    engagements_by name df = Ok g /\
    (forall k s, In (k, s) g ->
                 notna k = true /\ s = wrap64 (engagements_where i k df) /\
                 exists x, In x (rows df) /\ label_of i x = k) /\
    (forall x, In x (rows df) -> notna (label_of i x) = true ->
               exists e, In e g /\ cell_compare (label_of i x) (fst e) = Eq).
Proof.
  intros Hget. unfold engagements_by, label_column, the_series.
  rewrite Hget. simpl. eexists. split; [reflexivity|].
  rewrite (combine_map (fun x => field i (cells (snd x)))
                       (fun x => engagements (snd x))).
  destruct (groupby_sum_spec cell_compare cell_compare_refl cell_compare_antisym
              cell_compare_eq_l cell_compare_lt_trans
              (filter (fun kv => notna (fst kv))
                 (map (fun x => (field i (cells (snd x)), engagements (snd x)))
                      (rows df))))
    as (_ & Hsum & Hcov).
  split.
  - intros k s Hin. destruct (Hsum k s Hin) as [Hs Hk].
    apply in_map_iff in Hk. destruct Hk as [[k' v] [Ek Hk]]. simpl in Ek. subst k'.
    apply filter_In in Hk. destruct Hk as [Hk Hna]. simpl in Hna.
    split; [exact Hna|]. split.
    + rewrite Hs, (sum_where_notna _ _ Hna). reflexivity.
    + apply in_map_iff in Hk. destruct Hk as [x [Ex Hx]].
      exists x. split; [exact Hx|]. injection Ex as Ex _. exact Ex.
  - intros x Hx Hna.
    apply (Hcov (label_of i x, engagements (snd x))).
    apply filter_In. split; [|exact Hna].
    apply in_map_iff. exists x. split; [reflexivity | exact Hx].
Qed.

(** What [head(5)] of a descending ranking of the groups keeps. *)
Lemma top5_spec name df i :
  getitem name (header df) = Series i ->
  exists g ranked,
    engagements_by name df = Ok g /\
    ranked = sort_values_desc g /\
    StronglySorted (fun a b => snd b <= snd a) ranked /\
    (forall k s, In (k, s) ranked ->
                 notna k = true /\ s = wrap64 (engagements_where i k df) /\
                 exists x, In x (rows df) /\ label_of i x = k) /\
    (forall x, In x (rows df) -> notna (label_of i x) = true ->
               exists e, In e ranked /\ cell_compare (label_of i x) (fst e) = Eq) /\
    (forall a b, In a (firstn 5 ranked) -> In b (skipn 5 ranked) -> snd b <= snd a).
Proof.
  intros Hget.
  destruct (engagements_by_spec name df i Hget) as (g & Hg & Hsum & Hcov).
  exists g, (sort_values_desc g).
  split; [exact Hg|]. split; [reflexivity|].
  pose proof (sort_values_desc_perm g) as Hperm.
  split; [apply sort_values_desc_sorted|]. split; [|split].
  - intros k s Hin. apply Hsum. eapply Permutation_in; eassumption.
  - intros x Hx Hna. destruct (Hcov x Hx Hna) as [e [He1 He2]].
    exists e. split; [|exact He2].
    eapply Permutation_in; [apply Permutation_sym; exact Hperm | exact He1].
  - intros a b Ha Hb.
    apply (StronglySorted_head_tail (fun a b : cell * Z => snd b <= snd a)
             5 (sort_values_desc g) a b); try assumption.
    apply sort_values_desc_sorted.
Qed.

End Rankings.

Lemma engagements_by_sorted `{Pandas} name df i :
  getitem name (header df) = Series i ->
  exists g,
    engagements_by name df = Ok g /\ StronglySorted (key_lt cell_compare) g.
Proof.
  intros Hget. unfold engagements_by, label_column, the_series.
  rewrite Hget. simpl. eexists. split; [reflexivity|].
  apply (groupby_sum_spec cell_compare cell_compare_refl cell_compare_antisym
           cell_compare_eq_l cell_compare_lt_trans).
Qed.

(** C7, as the code has it. The top-locations aggregate has at most five
    entries, in descending order of their sums; each entry is a location
    of the table with the 64-bit sum of the engagements of its rows; and a
    location of the table that is not listed has a sum no larger than any
    listed one. It is the head of a ranking of the groups, which
    [groupby] hands over in ascending order of the location, not in the
    order in which the table has them; nothing is said about the order
    [sort_values] gives equal sums. *)
Theorem C7_top_locations_ranked `{Pandas} (df : Frame) (i : nat) :
  getitem "location" (header df) = Series i ->
  exists agg,
    top_locations df = Ok agg /\
    (List.length agg <= 5)%nat /\
    StronglySorted (fun a b => snd b <= snd a) agg /\
    (forall k s, In (k, s) agg ->
                 notna k = true /\ s = wrap64 (engagements_where i k df) /\
                 exists x, In x (rows df) /\ label_of i x = k) /\
    (forall x, In x (rows df) -> notna (label_of i x) = true ->
               (exists e, In e agg /\ cell_compare (label_of i x) (fst e) = Eq) \/
               (forall e, In e agg ->
                          wrap64 (engagements_where i (label_of i x) df) <= snd e)) /\
    exists groups,
      engagements_by "location" df = Ok groups /\
      StronglySorted (key_lt cell_compare) groups /\
      agg = firstn 5 (sort_values_desc groups).
Proof.
  intros Hget.
  destruct (top5_spec "location" df i Hget)
    as (g & ranked & Hg & -> & Hsorted & Hsum & Hcov & Hcut).
  exists (firstn 5 (sort_values_desc g)).
  split; [unfold top_locations; rewrite Hg; reflexivity|].
  split; [apply firstn_le_length|].
  split; [apply StronglySorted_firstn; exact Hsorted|]. split; [|split].
  - intros k s Hin. apply Hsum. eapply In_firstn; exact Hin.
  - intros x Hx Hna. destruct (Hcov x Hx Hna) as [[k s] [He1 He2]].
    rewrite <- (firstn_skipn 5 (sort_values_desc g)) in He1.
    apply in_app_or in He1. destruct He1 as [He1|He1].
    + left. exists (k, s). split; assumption.
    + right. intros e He. simpl in He2.
      rewrite (sum_where_same_key _ _ _ He2 : engagements_where i _ df = engagements_where i k df).
      destruct (Hsum k s (In_skipn _ _ _ He1)) as (_ & <- & _).
      apply (Hcut e (k, s) He He1).
  - destruct (engagements_by_sorted "location" df i Hget) as (g' & Hg' & Hkeys).
    rewrite Hg in Hg'. injection Hg' as <-.
    exists g. split; [exact Hg|]. split; [exact Hkeys | reflexivity].
Qed.

Lemma C7_top_locations_ranked_witness :
  exists agg,
    @top_locations Reference.pandas Runs.six_locations = Ok agg /\
    (List.length agg <= 5)%nat /\
    StronglySorted (fun a b => snd b <= snd a) agg /\
    (forall k s, In (k, s) agg ->
                 notna k = true /\
                 s = wrap64 (engagements_where 3 k Runs.six_locations) /\
                 exists x, In x (rows Runs.six_locations) /\ label_of 3 x = k) /\
    (forall x, In x (rows Runs.six_locations) -> notna (label_of 3 x) = true ->
               (exists e, In e agg /\ cell_compare (label_of 3 x) (fst e) = Eq) \/
               (forall e, In e agg ->
                          wrap64 (engagements_where 3 (label_of 3 x) Runs.six_locations)
                          <= snd e)) /\
    exists groups,
      engagements_by "location" Runs.six_locations = Ok groups /\
      StronglySorted (key_lt cell_compare) groups /\
      agg = firstn 5 (@sort_values_desc Reference.pandas cell groups).
Proof.
  apply (@C7_top_locations_ranked Reference.pandas Runs.six_locations 3).
  reflexivity.
Defined.

(** Six locations: five are listed, TX (10) is left out, and NY (10 and 5
    in two rows) is listed with 15. *)
Example six_locations_top5 :
  @top_locations Reference.pandas Runs.six_locations
  = Ok [(Str "LA", 60); (Str "DC", 50); (Str "SF", 30); (Str "WA", 20);
        (Str "NY", 15)].
Proof. vm_compute. reflexivity. Qed.

(** C7, as the specification has it, fails on ties. [groupby] lists its
    groups in key order, not in order of appearance, and the ranking starts
    from that list: NY met before LA, both totalling 5, gives LA, NY; and
    so does LA met before NY. *)
Lemma C7_tie_not_first_encountered :
  @clean_data Reference.pandas Samples.tied_locations
    = ([], Ok (Some Runs.tied_locations)) /\
  map (label_of 3) (rows Runs.tied_locations) = [Str "NY"; Str "LA"] /\
  @top_locations Reference.pandas Runs.tied_locations
    = Ok [(Str "LA", 5); (Str "NY", 5)] /\
  @clean_data Reference.pandas Samples.tied_locations_swapped
    = ([], Ok (Some Runs.tied_locations_swapped)) /\
  map (label_of 3) (rows Runs.tied_locations_swapped) = [Str "LA"; Str "NY"] /\
  @top_locations Reference.pandas Runs.tied_locations_swapped
    = Ok [(Str "LA", 5); (Str "NY", 5)].
Proof. repeat split; vm_compute; reflexivity. Qed.

(** C8. The table drawn by the platform chart has an entry for every
    platform that occurs in the table, each with the 64-bit sum of its
    engagements, in descending order of the sums and however many there
    are; the table put in the platform prompt is the first five entries of
    that same ranking, so every platform it leaves out has a sum no larger
    than any it keeps. *)
Theorem C8_chart_all_platforms_prompt_top5 `{Pandas} (df : Frame) (i : nat) :
  getitem "platform" (header df) = Series i ->
  exists d,
    create_platform_engagements_chart df = Ok (px_bar "Platform Engagements" d) /\
    rbind (platform_top5 df) (fun d5 => Ok (platform_prompt d5))
      = Ok [Lit "Based on platform engagements: "; Fmt (VDict (firstn 5 d));
            Lit ". Provide top 3 concise insights."] /\
    (forall x, In x (rows df) -> notna (label_of i x) = true ->
               exists e, In e d /\ cell_compare (label_of i x) (fst e) = Eq) /\
    (forall k s, In (k, s) d ->
                 notna k = true /\ s = wrap64 (engagements_where i k df) /\
                 exists x, In x (rows df) /\ label_of i x = k) /\
    StronglySorted (fun a b => snd b <= snd a) d /\
    (List.length (firstn 5 d) <= 5)%nat /\
    (forall a b, In a (firstn 5 d) -> In b (skipn 5 d) -> snd b <= snd a).
Proof.
  intros Hget.
  destruct (top5_spec "platform" df i Hget)
    as (g & ranked & Hg & -> & Hsorted & Hsum & Hcov & Hcut).
  exists (sort_values_desc g).
  unfold create_platform_engagements_chart, platform_engagements, platform_top5.
  rewrite Hg. unfold rbind.
  split; [reflexivity|]. split; [reflexivity|].
  split; [exact Hcov|]. split; [exact Hsum|]. split; [exact Hsorted|].
  split; [apply firstn_le_length | exact Hcut].
Qed.

Lemma C8_chart_all_platforms_prompt_top5_witness :
  exists d,
    @create_platform_engagements_chart Reference.pandas Runs.six_platforms
      = Ok (px_bar "Platform Engagements" d) /\
    rbind (@platform_top5 Reference.pandas Runs.six_platforms)
          (fun d5 => Ok (platform_prompt d5))
      = Ok [Lit "Based on platform engagements: "; Fmt (VDict (firstn 5 d));
            Lit ". Provide top 3 concise insights."] /\
    (forall x, In x (rows Runs.six_platforms) -> notna (label_of 1 x) = true ->
               exists e, In e d /\ cell_compare (label_of 1 x) (fst e) = Eq) /\
    (forall k s, In (k, s) d ->
                 notna k = true /\
                 s = wrap64 (engagements_where 1 k Runs.six_platforms) /\
                 exists x, In x (rows Runs.six_platforms) /\ label_of 1 x = k) /\
    StronglySorted (fun a b => snd b <= snd a) d /\
    (List.length (firstn 5 d) <= 5)%nat /\
    (forall a b, In a (firstn 5 d) -> In b (skipn 5 d) -> snd b <= snd a).
Proof.
  apply (@C8_chart_all_platforms_prompt_top5 Reference.pandas Runs.six_platforms 1).
  reflexivity.
Defined.

(** Six platforms: the chart draws six bars, the prompt names five. *)
Example six_platforms_chart_and_prompt :
  @create_platform_engagements_chart Reference.pandas Runs.six_platforms
    = Ok (px_bar "Platform Engagements"
            [(Str "X", 60); (Str "Instagram", 50); (Str "YouTube", 40);
             (Str "Facebook", 30); (Str "LinkedIn", 20); (Str "TikTok", 10)]) /\
  @platform_top5 Reference.pandas Runs.six_platforms
    = Ok [(Str "X", 60); (Str "Instagram", 50); (Str "YouTube", 40);
          (Str "Facebook", 30); (Str "LinkedIn", 20)].
Proof. split; vm_compute; reflexivity. Qed.

(** ** The prompts of an empty table *)

Lemma posted_app a b : posted (a ++ b) = (posted a ++ posted b)%list.
Proof.
  induction a as [|e a IH]; simpl; [reflexivity|].
  destruct e; simpl; rewrite IH; reflexivity.
Qed.

Section EmptyTable.
Context `{Pandas} `{TextService}.

Lemma insights_shape p :
  handled ->
  exists out, insights p = (requests_post p :: out, Ok tt) /\ posted out = [].
Proof.
  intros Hh. unfold insights, call_gemini_api. simpl.
  destruct (generate p) eqn:E; simpl;
    try (eexists; split; reflexivity).
  exfalso. exact (Hh p e E).
Qed.

Lemma sort_values_desc_nil {K : Type} : sort_values_desc (@nil (K * Z)) = [].
Proof. unfold sort_values_desc. simpl. rewrite argsort_nil. reflexivity. Qed.

Lemma engagements_by_empty name df i :
  rows df = [] -> getitem name (header df) = Series i ->
  engagements_by name df = Ok [].
Proof.
  intros Hr Hg. unfold engagements_by, label_column, the_series.
  rewrite Hg, Hr. reflexivity.
Qed.

(** All five aggregates of a table without rows are empty. *)
Lemma empty_aggregates df ip im il :
  rows df = [] ->
  getitem "platform" (header df) = Series ip ->
  getitem "media_type" (header df) = Series im ->
  getitem "location" (header df) = Series il ->
  sentiment_counts df = [] /\ engagement_by_date df = [] /\
  platform_engagements df = Ok [] /\ platform_top5 df = Ok [] /\
  media_type_counts df = Ok [] /\ top_locations df = Ok [].
Proof.
  intros Hr Hp Hm Hl. repeat split.
  - unfold sentiment_counts, value_counts, tally. rewrite Hr.
    cbn [map filter fold_left]. apply sort_values_desc_nil.
  - unfold engagement_by_date. rewrite Hr. reflexivity.
  - unfold platform_engagements. rewrite (engagements_by_empty _ _ _ Hr Hp).
    cbn [rbind]. rewrite sort_values_desc_nil. reflexivity.
  - unfold platform_top5. rewrite (engagements_by_empty _ _ _ Hr Hp).
    cbn [rbind]. rewrite sort_values_desc_nil. reflexivity.
  - unfold media_type_counts, label_column, the_series. rewrite Hm, Hr.
    cbn [rbind map]. unfold value_counts, tally. cbn [filter fold_left].
    rewrite sort_values_desc_nil. reflexivity.
  - unfold top_locations. rewrite (engagements_by_empty _ _ _ Hr Hl).
    cbn [rbind]. rewrite sort_values_desc_nil. reflexivity.
Qed.

Lemma empty_charts_and_insights df ip im il :
  handled ->
  rows df = [] ->
  getitem "platform" (header df) = Series ip ->
  getitem "media_type" (header df) = Series im ->
  getitem "location" (header df) = Series il ->
  snd (charts_and_insights df) = Ok tt /\
  posted (fst (charts_and_insights df))
  = [[Lit "Based on the following sentiment counts from media data: ";
      Fmt (VDict []); Lit ". Provide top 3 concise insights."];
     trend_fallback;
     [Lit "Based on platform engagements: "; Fmt (VDict []);
      Lit ". Provide top 3 concise insights."];
     [Lit "Based on media type counts: "; Fmt (VDict []);
      Lit ". Provide top 3 concise insights."];
     [Lit "Based on top 5 locations by engagement: "; Fmt (VDict []);
      Lit ". Provide top 3 concise insights."]].
Proof.
  intros Hh Hr Hp Hm Hl.
  destruct (empty_aggregates df ip im il Hr Hp Hm Hl)
    as (Es & Ed & Ep & Ep5 & Em & El).
  unfold charts_and_insights, create_sentiment_chart, create_engagement_trend_chart,
    create_platform_engagements_chart, create_media_type_mix_chart,
    create_top_locations_chart, trend_prompt, sentiment_prompt,
    platform_prompt, media_type_prompt, location_prompt.
  rewrite Es, Ed, Ep, Ep5, Em, El. simpl map. cbv iota.
  destruct (insights_shape
              [Lit "Based on the following sentiment counts from media data: ";
               Fmt (VDict []); Lit ". Provide top 3 concise insights."] Hh)
    as (o1 & E1 & N1).
  destruct (insights_shape trend_fallback Hh) as (o2 & E2 & N2).
  destruct (insights_shape [Lit "Based on platform engagements: "; Fmt (VDict []);
                            Lit ". Provide top 3 concise insights."] Hh)
    as (o3 & E3 & N3).
  destruct (insights_shape [Lit "Based on media type counts: "; Fmt (VDict []);
                            Lit ". Provide top 3 concise insights."] Hh)
    as (o4 & E4 & N4).
  destruct (insights_shape [Lit "Based on top 5 locations by engagement: ";
                            Fmt (VDict []);
                            Lit ". Provide top 3 concise insights."] Hh)
    as (o5 & E5 & N5).
  unfold lift, rbind, bind, emit. rewrite E1, E2, E3, E4, E5.
  split; [reflexivity|].
  simpl. repeat (rewrite ?posted_app, ?N1, ?N2, ?N3, ?N4, ?N5; simpl).
  reflexivity.
Qed.

End EmptyTable.

(** C6, as the code has it. When no row survives and the header names
    each label column once, building the five prompts raises nothing: the
    trend prompt is the generic fallback and the other four carry their
    empty aggregate. With a service whose answers [call_gemini_api] copes
    with, the run completes and these five prompts are what it sends. *)
Theorem C6_empty_table_prompts `{Pandas} `{TextService}
    (raw : RawFrame) (log : list event) (df : Frame) (ip im il : nat) :
  clean_data raw = (log, Ok (Some df)) ->
  rows df = [] ->
  getitem "platform" (header df) = Series ip ->
  getitem "media_type" (header df) = Series im ->
  getitem "location" (header df) = Series il ->
  sentiment_prompt df
  = [Lit "Based on the following sentiment counts from media data: ";
     Fmt (VDict []); Lit ". Provide top 3 concise insights."] /\
  trend_prompt df = Ok trend_fallback /\
  rbind (platform_top5 df) (fun d => Ok (platform_prompt d))
  = Ok [Lit "Based on platform engagements: "; Fmt (VDict []);
        Lit ". Provide top 3 concise insights."] /\
  rbind (media_type_counts df) (fun d => Ok (media_type_prompt d))
  = Ok [Lit "Based on media type counts: "; Fmt (VDict []);
        Lit ". Provide top 3 concise insights."] /\
  rbind (top_locations df) (fun d => Ok (location_prompt d))
  = Ok [Lit "Based on top 5 locations by engagement: "; Fmt (VDict []);
        Lit ". Provide top 3 concise insights."] /\
  (handled ->
   snd (process raw) = Ok tt /\
   posted (main (Some raw))
   = [[Lit "Based on the following sentiment counts from media data: ";
       Fmt (VDict []); Lit ". Provide top 3 concise insights."];
      trend_fallback;
      [Lit "Based on platform engagements: "; Fmt (VDict []);
       Lit ". Provide top 3 concise insights."];
      [Lit "Based on media type counts: "; Fmt (VDict []);
       Lit ". Provide top 3 concise insights."];
      [Lit "Based on top 5 locations by engagement: "; Fmt (VDict []);
       Lit ". Provide top 3 concise insights."]]).
Proof.
  intros Hc Hr Hp Hm Hl.
  destruct (empty_aggregates df ip im il Hr Hp Hm Hl)
    as (Es & Ed & Ep & Ep5 & Em & El).
  split; [unfold sentiment_prompt; rewrite Es; reflexivity|].
  split; [unfold trend_prompt; rewrite Ed; reflexivity|].
  split; [rewrite Ep5; reflexivity|].
  split; [rewrite Em; reflexivity|].
  split; [rewrite El; reflexivity|].
  intros Hh.
  destruct (clean_data_some _ _ _ Hc) as (_ & _ & -> & _ & _).
  destruct (empty_charts_and_insights df ip im il Hh Hr Hp Hm Hl) as [Hok Hposted].
  unfold main, process. rewrite Hc. unfold bind.
  destruct (charts_and_insights df) as [shown r]. simpl in Hok, Hposted. subst r.
  simpl. split; [reflexivity | exact Hposted].
Qed.

Lemma C6_empty_table_prompts_witness :
  posted (@main Reference.pandas Reference.offline (Some Samples.header_only))
  = [[Lit "Based on the following sentiment counts from media data: ";
      Fmt (VDict []); Lit ". Provide top 3 concise insights."];
     trend_fallback;
     [Lit "Based on platform engagements: "; Fmt (VDict []);
      Lit ". Provide top 3 concise insights."];
     [Lit "Based on media type counts: "; Fmt (VDict []);
      Lit ". Provide top 3 concise insights."];
     [Lit "Based on top 5 locations by engagement: "; Fmt (VDict []);
      Lit ". Provide top 3 concise insights."]].
Proof.
  refine (proj2 ((proj2 (proj2 (proj2 (proj2 (proj2
    (@C6_empty_table_prompts Reference.pandas Reference.offline
       Samples.header_only [] Runs.header_only 1 5 3 _ _ _ _ _)))))) _)).
  - vm_compute. reflexivity.
  - reflexivity.
  - reflexivity.
  - reflexivity.
  - reflexivity.
  - intros p e. discriminate.
Defined.

(** C6, as the specification has it, fails: for an upload of a header and
    no rows, the first prompt sent is the sentiment prompt with the empty
    aggregate in it, not a fallback; only the trend prompt is one. *)
Lemma C6_empty_aggregate_in_prompt :
  exists p rest,
    posted (@main Reference.pandas Reference.offline (Some Samples.header_only))
      = p :: trend_fallback :: rest /\
    p = [Lit "Based on the following sentiment counts from media data: ";
         Fmt (VDict []); Lit ". Provide top 3 concise insights."] /\
    embeds_aggregate p /\ p <> trend_fallback /\
    Forall embeds_aggregate rest /\ List.length rest = 3%nat.
Proof.
  eexists. eexists. split; [vm_compute; reflexivity|].
  split; [reflexivity|]. split; [exists []; simpl; tauto|].
  split; [discriminate|]. split; [|reflexivity].
  repeat constructor; exists []; simpl; tauto.
Qed.

(** ** The run on a table with rows *)

Lemma add_to_group_not_nil {K : Type} (cmp : K -> K -> comparison) k v acc :
  add_to_group cmp k v acc <> [].
Proof. destruct acc as [|[k' s] acc]; simpl; [|destruct (cmp k k')]; discriminate. Qed.

Lemma groupby_sum_not_nil {K : Type} (cmp : K -> K -> comparison) l :
  l <> [] -> groupby_sum cmp l <> [].
Proof.
  unfold groupby_sum.
  assert (G : forall l acc, acc <> [] ->
              fold_left (fun a kv => add_to_group cmp (fst kv) (snd kv) a) l acc <> []).
  { clear. induction l as [|x l IH]; intros acc Hacc; simpl; [exact Hacc|].
    apply IH, add_to_group_not_nil. }
  destruct l as [|x l]; [congruence|]. intros _. simpl.
  apply G. discriminate.
Qed.

Lemma last_of_map {A B : Type} (f : A -> B) (l : list A) (d : A) :
  List.last (map f l) (f d) = f (List.last l d).
Proof.
  induction l as [|x l IH]; simpl; [reflexivity|].
  destruct l as [|y l]; [reflexivity|]. exact IH.
Qed.

Lemma trend_prompt_with_rows (df : Frame) :
  rows df <> [] -> trend_prompt df = Raise (KeyError "Total Engagements").
Proof.
  intros Hr. unfold trend_prompt.
  assert (Hne : engagement_by_date df <> []).
  { unfold engagement_by_date. apply groupby_sum_not_nil.
    destruct (rows df); [congruence | discriminate]. }
  destruct (engagement_by_date df) as [|kv l]; [congruence|].
  pose proof (last_of_map (fun kv => [VDate (fst kv); VInt (snd kv)])
                (kv :: l) kv) as El.
  cbn [map] in El |- *. rewrite El. reflexivity.
Qed.

(** X1. As soon as one row survives, the trend prompt is not built: the script
    asks a row of the grouped sums for [Total Engagements], a name the
    chart function gives its own copy of that table and the main run does
    not. The [KeyError] ends the run in the handler: whatever the service
    answers, the sentiment prompt is the only prompt sent and no chart
    after the trend chart is shown. The platform, media-type and location
    blocks are reached for a table without rows only. *)
Theorem run_with_rows_stops_at_trend_prompt `{Pandas} `{TextService}
    (raw : RawFrame) (log : list event) (df : Frame) :
  clean_data raw = (log, Ok (Some df)) ->
  rows df <> [] ->
  trend_prompt df = Raise (KeyError "Total Engagements") /\
  posted (main (Some raw)) = [sentiment_prompt df] /\
  (forall fig, In (st_plotly_chart fig) (main (Some raw)) ->
               fig = create_sentiment_chart df \/
               fig = create_engagement_trend_chart df) /\
  (handled ->
   exists answer,
     main (Some raw)
     = (st_success "File uploaded successfully! Processing data..."
        :: st_plotly_chart (create_sentiment_chart df)
        :: requests_post (sentiment_prompt df)
        :: answer
        ++ st_plotly_chart (create_engagement_trend_chart df)
        :: handler (KeyError "Total Engagements"))%list).
Proof.
  intros Hc Hr.
  destruct (clean_data_some _ _ _ Hc) as (_ & _ & -> & _ & _).
  pose proof (trend_prompt_with_rows df Hr) as Ht.
  split; [exact Ht|].
  assert (Hmain :
    main (Some raw)
    = st_success "File uploaded successfully! Processing data..."
      :: st_plotly_chart (create_sentiment_chart df)
      :: requests_post (sentiment_prompt df)
      :: match generate (sentiment_prompt df) with
         | Candidates text =>
             [st_markdown text;
              st_plotly_chart (create_engagement_trend_chart df)]
             ++ handler (KeyError "Total Engagements")
         | UnexpectedShape =>
             [st_error [Lit "Unexpected API response structure: "];
              st_markdown "Could not generate insights due to an unexpected API response.";
              st_plotly_chart (create_engagement_trend_chart df)]
             ++ handler (KeyError "Total Engagements")
         | RequestException =>
             [st_error [Lit "Failed to generate insights: "];
              st_markdown "Failed to generate insights due to a network or API error.";
              st_plotly_chart (create_engagement_trend_chart df)]
             ++ handler (KeyError "Total Engagements")
         | Unhandled e => handler e
         end%list).
  { unfold main, process. rewrite Hc. unfold bind at 1.
    unfold charts_and_insights, insights, call_gemini_api. rewrite Ht.
    destruct (generate (sentiment_prompt df)); reflexivity. }
  rewrite Hmain. split; [|split].
  - destruct (generate (sentiment_prompt df)); reflexivity.
  - intros fig Hin. simpl in Hin.
    destruct Hin as [E|[E|[E|Hin]]]; try discriminate.
    + injection E as <-. left. reflexivity.
    + destruct (generate (sentiment_prompt df)); simpl in Hin;
        repeat (destruct Hin as [E|Hin];
                [try discriminate; injection E as <-; right; reflexivity|]);
        destruct Hin.
  - intros Hh. destruct (generate (sentiment_prompt df)) eqn:E.
    + eexists [_]. reflexivity.
    + eexists [_; _]. reflexivity.
    + eexists [_; _]. reflexivity.
    + exfalso. exact (Hh _ _ E).
Qed.

Lemma run_with_rows_stops_at_trend_prompt_witness :
  posted (@main Reference.pandas Reference.offline (Some Samples.three_rows))
  = [@sentiment_prompt Reference.pandas Runs.three_rows].
Proof.
  refine (proj1 (proj2
    (@run_with_rows_stops_at_trend_prompt Reference.pandas Reference.offline
       Samples.three_rows [] Runs.three_rows _ _))).
  - vm_compute. reflexivity.
  - discriminate.
Defined.

(** * Further properties of the code *)

(** ** The renaming of columns *)

Lemma lower_char_idem c : PyStr.lower_char (PyStr.lower_char c) = PyStr.lower_char c.
Proof. destruct c as [[] [] [] [] [] [] [] []]; reflexivity. Qed.

Lemma lower_char_ascii c :
  PyStr.is_ascii c = true -> PyStr.is_ascii (PyStr.lower_char c) = true.
Proof. destruct c as [[] [] [] [] [] [] [] []]; intros E; try reflexivity; exact E. Qed.

Lemma map_fixed {A : Type} (f : A -> A) (l : list A) :
  (forall x, In x l -> f x = x) -> map f l = l.
Proof.
  induction l as [|a l IH]; intros H; simpl; [reflexivity|].
  rewrite (H a (or_introl eq_refl)), IH; [reflexivity|].
  intros x Hx. apply H. right. exact Hx.
Qed.

Section Stripped.

Local Abbreviation strip_chars l := (PyStr.rstrip_chars (PyStr.lstrip_chars l)).
Local Abbreviation underscore :=
  (fun c : ascii => if Ascii.eqb c " " then "_"%char else c).

(** What [rstrip] leaves is the text without some bytes of its end. *)
Lemma rstrip_chars_prefix l : exists q, l = (PyStr.rstrip_chars l ++ q)%list.
Proof.
  unfold PyStr.rstrip_chars.
  destruct (lstrip_with_suffix PyStr.is_space (fun a b => PyStr.is_space2 b a)
              (fun a b c => PyStr.is_space3 c b a) (rev l)) as [p E].
  exists (rev p). rewrite <- rev_app_distr, <- E, rev_involutive. reflexivity.
Qed.

Lemma rstrip_chars_end l : PyStr.ends_with_space (PyStr.rstrip_chars l) = false.
Proof.
  unfold PyStr.ends_with_space, PyStr.rstrip_chars. rewrite rev_involutive.
  apply lstrip_with_head.
Qed.

Lemma rstrip_chars_id l : PyStr.ends_with_space l = false -> PyStr.rstrip_chars l = l.
Proof.
  intros E. unfold PyStr.rstrip_chars.
  rewrite lstrip_with_id by exact E. apply rev_involutive.
Qed.

Lemma rstrip_chars_start l :
  PyStr.starts_with_space l = false ->
  PyStr.starts_with_space (PyStr.rstrip_chars l) = false.
Proof.
  intros E. destruct (rstrip_chars_prefix l) as [q Eq].
  destruct (PyStr.starts_with_space (PyStr.rstrip_chars l)) eqn:Es; [|reflexivity].
  apply (starts_with_app _ _ _ _ q) in Es.
  unfold PyStr.starts_with_space in E. rewrite <- Eq, E in Es. discriminate.
Qed.

Lemma strip_chars_ends l :
  PyStr.starts_with_space (strip_chars l) = false /\
  PyStr.ends_with_space (strip_chars l) = false.
Proof.
  split; [|apply rstrip_chars_end].
  apply rstrip_chars_start. apply lstrip_with_head.
Qed.

Lemma strip_chars_idem l : strip_chars (strip_chars l) = strip_chars l.
Proof.
  destruct (strip_chars_ends l) as [Hs He].
  unfold PyStr.lstrip_chars at 1. rewrite lstrip_with_id by exact Hs.
  apply rstrip_chars_id. exact He.
Qed.

Lemma strip_chars_incl l c : In c (strip_chars l) -> In c l.
Proof.
  intros Hc.
  destruct (rstrip_chars_prefix (PyStr.lstrip_chars l)) as [q Eq].
  assert (H2 : In c (PyStr.lstrip_chars l)).
  { rewrite Eq. apply in_or_app. left. exact Hc. }
  destruct (lstrip_with_suffix PyStr.is_space PyStr.is_space2 PyStr.is_space3 l)
    as [p Ep].
  rewrite Ep. apply in_or_app. right. exact H2.
Qed.

Context `{Pandas}.

(** The bytes of a renamed column name. *)
Lemma normalize_column_chars col :
  list_ascii_of_string (normalize_column col)
  = strip_chars (map underscore (list_ascii_of_string (str_lower col))).
Proof.
  unfold normalize_column, PyStr.strip, PyStr.replace.
  rewrite !list_ascii_of_string_of_list_ascii. reflexivity.
Qed.

Lemma renamed_no_blank col c :
  In c (list_ascii_of_string (normalize_column col)) -> c <> " "%char.
Proof.
  rewrite normalize_column_chars. intros Hc. apply strip_chars_incl in Hc.
  apply in_map_iff in Hc. destruct Hc as [x [Ex _]].
  destruct (Ascii.eqb_spec x " "); subst c; [discriminate | assumption].
Qed.

Lemma renamed_replace col :
  PyStr.replace " " "_" (normalize_column col) = normalize_column col.
Proof.
  unfold PyStr.replace. rewrite map_fixed.
  - apply string_of_list_ascii_of_string.
  - intros c Hc. pose proof (renamed_no_blank col c Hc) as Hn.
    destruct (Ascii.eqb_spec c " "); [contradiction | reflexivity].
Qed.

Lemma renamed_strip col : PyStr.strip (normalize_column col) = normalize_column col.
Proof.
  unfold PyStr.strip. rewrite normalize_column_chars, strip_chars_idem.
  rewrite <- normalize_column_chars. apply string_of_list_ascii_of_string.
Qed.

(** The renamed name of a name of ASCII characters is one, and has no
    upper-case letter. *)
Lemma renamed_ascii col :
  PyStr.all_ascii col = true ->
  PyStr.all_ascii (normalize_column col) = true /\
  PyStr.ascii_lower (normalize_column col) = normalize_column col.
Proof.
  intros Ha.
  assert (Hc : forall c, In c (list_ascii_of_string (normalize_column col)) ->
                         PyStr.is_ascii c = true /\ PyStr.lower_char c = c).
  { intros c Hc. rewrite normalize_column_chars, (str_lower_ascii _ Ha) in Hc.
    apply strip_chars_incl in Hc.
    unfold PyStr.ascii_lower in Hc. rewrite list_ascii_of_string_of_list_ascii in Hc.
    apply in_map_iff in Hc. destruct Hc as [y [Ey Hy]].
    apply in_map_iff in Hy. destruct Hy as [x [Ex Hx]]. subst y.
    unfold PyStr.all_ascii in Ha. rewrite forallb_forall in Ha.
    specialize (Ha x Hx).
    destruct (Ascii.eqb (PyStr.lower_char x) " "); subst c.
    - split; reflexivity.
    - split; [apply lower_char_ascii; exact Ha | apply lower_char_idem]. }
  split.
  - unfold PyStr.all_ascii. apply forallb_forall. intros c Hin. apply (Hc c Hin).
  - unfold PyStr.ascii_lower. rewrite map_fixed.
    + apply string_of_list_ascii_of_string.
    + intros c Hin. apply (Hc c Hin).
Qed.

(** X2. Whatever [str.lower] makes of a column name, the renamed name
    holds no blank, neither starts nor ends with a white-space character
    of Unicode, and replacing its blanks or stripping it again leaves it as
    it is. *)
Theorem normalize_column_shape (col : string) :
  (forall c, In c (list_ascii_of_string (normalize_column col)) -> c <> " "%char) /\
  PyStr.starts_with_space (list_ascii_of_string (normalize_column col)) = false /\
  PyStr.ends_with_space (list_ascii_of_string (normalize_column col)) = false /\
  PyStr.replace " " "_" (normalize_column col) = normalize_column col /\
  PyStr.strip (normalize_column col) = normalize_column col.
Proof.
  split; [apply renamed_no_blank|].
  rewrite normalize_column_chars at 1 2.
  split; [apply strip_chars_ends|]. split; [apply strip_chars_ends|].
  split; [apply renamed_replace | apply renamed_strip].
Qed.

(** X3. On a column name of ASCII characters the renaming is idempotent:
    the renamed name is of ASCII characters, has no upper-case letter, and
    is renamed to itself. *)
Theorem normalize_column_idempotent (col : string) :
  PyStr.all_ascii col = true ->
  PyStr.all_ascii (normalize_column col) = true /\
  PyStr.ascii_lower (normalize_column col) = normalize_column col /\
  normalize_column (normalize_column col) = normalize_column col.
Proof.
  intros Ha. destruct (renamed_ascii col Ha) as [Hn Hl].
  split; [exact Hn|]. split; [exact Hl|].
  rewrite (normalize_column_ascii (normalize_column col) Hn), Hl, renamed_replace.
  apply renamed_strip.
Qed.

End Stripped.

Lemma normalize_column_idempotent_witness :
  PyStr.all_ascii (@normalize_column Reference.pandas " Media Type ") = true /\
  PyStr.ascii_lower (@normalize_column Reference.pandas " Media Type ")
  = @normalize_column Reference.pandas " Media Type " /\
  @normalize_column Reference.pandas (@normalize_column Reference.pandas " Media Type ")
  = @normalize_column Reference.pandas " Media Type ".
Proof.
  apply (@normalize_column_idempotent Reference.pandas " Media Type ").
  reflexivity.
Defined.

(** ** What [clean_data] returns *)

Lemma positions_from_absent i name cols :
  ~ In name cols -> positions_from i name cols = [].
Proof.
  revert i. induction cols as [|c cols IH]; intros i H; simpl; [reflexivity|].
  destruct (String.eqb_spec name c) as [->|_].
  - exfalso. apply H. left. reflexivity.
  - apply IH. intros G. apply H. right. exact G.
Qed.

(** In a header without repeated names a name that occurs selects one
    column. *)
Lemma getitem_unique name cols :
  NoDup cols -> In name cols -> exists i, getitem name cols = Series i.
Proof.
  unfold getitem. generalize 0%nat.
  induction cols as [|c cols IH]; intros n Hnd Hin; [destruct Hin|].
  inversion Hnd as [|? ? Hc Hnd']; subst. simpl.
  destruct (String.eqb_spec name c) as [->|Hne].
  - rewrite (positions_from_absent _ _ _ Hc). exists n. reflexivity.
  - destruct Hin as [E|Hin]; [congruence|]. apply (IH (S n) Hnd' Hin).
Qed.

Lemma has_required_true cols :
  has_required cols = true <-> forall c, In c required_columns -> In c cols.
Proof.
  unfold has_required. rewrite forallb_forall. split.
  - intros H c Hc. apply col_in_In. apply H. exact Hc.
  - intros H c Hc. apply col_in_In. apply H. exact Hc.
Qed.

Lemma dropna_date_length (D : list (option Z)) :
  forall (b : list (list cell)) (idx : list nat),
    List.length D = List.length b -> List.length idx = List.length b ->
    List.length (dropna_date (combine idx (combine D b)))
    = List.length (filter parsed D).
Proof.
  induction D as [|[t|] D IH]; intros [|r b] [|i idx] HD Hi; simpl in *;
    try reflexivity; try discriminate.
  - f_equal. apply IH; lia.
  - apply IH; lia.
Qed.

Section Returned.
Context `{Pandas}.

(** X4. [clean_data] returns [None] exactly when one of the six required
    names is not in the renamed header; it then shows the one message about
    the required columns. In every other case it shows nothing. *)
Theorem clean_data_none_iff_missing (raw : RawFrame) :
  (snd (clean_data raw) = Ok None <->
   exists c, In c required_columns /\
             ~ In c (map normalize_column (columns raw))) /\
  (snd (clean_data raw) <> Ok None -> fst (clean_data raw) = []).
Proof.
  unfold clean_data, clean_sorted, the_series.
  destruct (has_required (map normalize_column (columns raw))) eqn:E; simpl.
  - assert (Hn : ~ exists c, In c required_columns /\
                             ~ In c (map normalize_column (columns raw))).
    { intros G. apply has_required_false in G. congruence. }
    destruct (getitem "date" _); simpl;
      [|split; [split; [discriminate | intros G; contradiction] | reflexivity]..].
    destruct (getitem "engagements" _); simpl;
      [|split; [split; [discriminate | intros G; contradiction] | reflexivity]..].
    destruct (to_engagements _ _); simpl;
      [|split; [split; [discriminate | intros G; contradiction] | reflexivity]].
    destruct (getitem "sentiment" _); simpl;
      split; try reflexivity; (split; [discriminate | intros G; contradiction]).
  - split; [|intros G; congruence].
    split; [intros _; apply has_required_false; exact E | reflexivity].
Qed.

(** X5. When the renamed header has no repeated name and holds the six
    required names, [clean_data] shows nothing and either returns a table
    or raises the [ValueError] of [astype(int)]: it raises exactly when
    [pd.to_numeric] read an infinity in a row whose date parsed. The table
    has the renamed header and as many rows as [pd.to_datetime] found
    dates, so at most as many as the upload; when no date parses the table
    is empty, not an error. *)
Theorem clean_data_returns_table (raw : RawFrame) :
  NoDup (map normalize_column (columns raw)) ->
  (forall c, In c required_columns -> In c (map normalize_column (columns raw))) ->
  exists di ei,
    getitem "date" (map normalize_column (columns raw)) = Series di /\
    getitem "engagements" (map normalize_column (columns raw)) = Series ei /\
    let nums := to_numeric (map (fun x => field ei (snd (snd x)))
                                (dropna_date (dated di (body raw)))) in
    (In (Some Infinity) nums ->
     clean_data raw
     = ([], Raise (ValueError "Cannot convert non-finite values (NA or inf) to integer"))) /\
    (~ In (Some Infinity) nums ->
     exists df,
       clean_data raw = ([], Ok (Some df)) /\
       header df = map normalize_column (columns raw) /\
       List.length (rows df)
       = List.length (filter parsed (to_datetime (map (field di) (body raw)))) /\
       (List.length (rows df) <= List.length (body raw))%nat /\
       (Forall (fun o => o = None) (to_datetime (map (field di) (body raw))) ->
        rows df = [])).
Proof.
  intros Hnd Hreq.
  destruct (getitem_unique "date" _ Hnd (Hreq "date" ltac:(simpl; tauto)))
    as [di Hd].
  destruct (getitem_unique "engagements" _ Hnd
              (Hreq "engagements" ltac:(simpl; tauto))) as [ei He].
  destruct (getitem_unique "sentiment" _ Hnd
              (Hreq "sentiment" ltac:(simpl; tauto))) as [si Hs].
  apply has_required_true in Hreq.
  exists di, ei. split; [exact Hd|]. split; [exact He|]. cbv zeta. split.
  { intros Hinf.
    unfold clean_data, clean_sorted, the_series, to_engagements.
    rewrite Hreq, Hd, He. cbn [negb rbind].
    rewrite astype_int_infinite; [reflexivity|].
    apply in_map_iff. exists (Some Infinity). split; [reflexivity | exact Hinf]. }
  intros Hfin.
  destruct (astype_int_finite
              (map (fillna (Float 0))
                   (to_numeric (map (fun x => field ei (snd (snd x)))
                                    (dropna_date (dated di (body raw)))))))
    as [ints Hi].
  { intros Hin. apply in_map_iff in Hin. destruct Hin as [[x|] [Ex Hx]].
    - simpl in Ex. subst x. exact (Hfin Hx).
    - discriminate. }
  pose proof (to_engagements_length ei _ ints Hi) as Hints.
  eexists. split.
  { unfold clean_data, clean_sorted, the_series. rewrite Hreq, Hd, He. cbn [negb rbind].
    unfold to_engagements. rewrite Hi. cbn [rbind]. rewrite Hs. reflexivity. }
  split; [reflexivity|].
  assert (Hlen : List.length (reset_index (sort_by_date (map (typed si)
                    (combine (dropna_date (dated di (body raw))) ints))))
                 = List.length (filter parsed
                                  (to_datetime (map (field di) (body raw))))).
  { unfold reset_index, sort_by_date.
    rewrite length_combine, length_seq, length_map, Nat.min_id.
    rewrite (Permutation_length (argsort_perm _ _ _)), length_map.
    rewrite length_combine, Hints, Nat.min_id.
    unfold dated. apply dropna_date_length.
    - rewrite to_datetime_length, length_map. reflexivity.
    - apply length_seq. }
  simpl. split; [exact Hlen|]. split.
  - rewrite Hlen.
    etransitivity; [apply filter_length_le|].
    rewrite to_datetime_length, length_map. reflexivity.
  - intros Hall.
    apply length_zero_iff_nil. rewrite Hlen. clear - Hall.
    induction Hall as [|o D Ho _ IH]; simpl; [reflexivity|].
    rewrite Ho. simpl. exact IH.
Qed.

End Returned.

Lemma clean_data_returns_table_witness :
  @clean_data Reference.pandas Samples.infinite_engagements
  = ([], Raise (ValueError "Cannot convert non-finite values (NA or inf) to integer")) /\
  exists df,
    @clean_data Reference.pandas Samples.infinite_engagements_undated
      = ([], Ok (Some df)) /\
    List.length (rows df) = 1%nat.
Proof.
  split.
  - destruct (@clean_data_returns_table Reference.pandas Samples.infinite_engagements)
      as (di & ei & Hd & He & Hraise & _).
    + vm_compute. repeat constructor; simpl; intuition discriminate.
    + intros c Hc. vm_compute in Hc |- *. tauto.
    + apply Hraise. vm_compute in Hd, He.
      injection Hd as <-. injection He as <-. vm_compute. tauto.
  - destruct (@clean_data_returns_table Reference.pandas
                Samples.infinite_engagements_undated)
      as (di & ei & Hd & He & _ & Hok).
    + vm_compute. repeat constructor; simpl; intuition discriminate.
    + intros c Hc. vm_compute in Hc |- *. tauto.
    + vm_compute in Hd, He. injection Hd as <-. injection He as <-.
      destruct Hok as (df & Hdf & _ & Hlen & _).
      * vm_compute. intros [E|[]]. discriminate.
      * exists df. split; [exact Hdf|]. rewrite Hlen. reflexivity.
Defined.

(** ** Counts per category *)

Lemma same_key_sym a b : same_key a b = same_key b a.
Proof.
  unfold same_key. rewrite (cell_compare_antisym a b).
  destruct (cell_compare a b); reflexivity.
Qed.

Lemma same_key_trans_l a b c :
  same_key a b = true -> same_key a c = same_key b c.
Proof.
  unfold same_key. intros E.
  destruct (cell_compare a b) eqn:Eab; try discriminate.
  rewrite (cell_compare_eq_l _ _ c Eab). reflexivity.
Qed.

Lemma count_where_cons k x p :
  count_where k (x :: p)
  = (if same_key x k then 1 else 0) + count_where k p.
Proof.
  unfold count_where. simpl. destruct (same_key x k); simpl List.length; lia.
Qed.

Lemma count_where_app k a b :
  count_where k (a ++ b) = count_where k a + count_where k b.
Proof.
  unfold count_where. rewrite filter_app, length_app. lia.
Qed.

Lemma count_where_rev k p : count_where k (rev p) = count_where k p.
Proof.
  induction p as [|x p IH]; simpl; [reflexivity|].
  rewrite count_where_app, IH, !count_where_cons.
  change (count_where k []) with 0. lia.
Qed.

Lemma count_where_none k p :
  (forall x, In x p -> same_key x k = false) -> count_where k p = 0.
Proof.
  induction p as [|x p IH]; intros H; [reflexivity|].
  rewrite count_where_cons, (H x (or_introl eq_refl)), IH; [reflexivity|].
  intros y Hy. apply H. right. exact Hy.
Qed.

Lemma count_where_notna k s :
  notna k = true -> count_where k (filter notna s) = count_where k s.
Proof.
  intros Hk. induction s as [|x s IH]; [reflexivity|].
  simpl filter. destruct x as [|q|t]; simpl notna; cbv iota;
    rewrite !count_where_cons; rewrite ?IH; try reflexivity.
  destruct k; simpl in *; try discriminate; reflexivity.
Qed.

Lemma count_key_entries k acc j n :
  ForallOrdPairs (fun a b => same_key (fst a) (fst b) = false) acc ->
  In (j, n) (count_key k acc) ->
  (same_key k j = true /\
   ((exists n0, In (j, n0) acc /\ n = n0 + 1) \/
    (j = k /\ n = 1 /\ forall e, In e acc -> same_key k (fst e) = false))) \/
  (same_key k j = false /\ In (j, n) acc).
Proof.
  induction 1 as [|[k' n'] acc Hall Hfop IH]; simpl.
  - intros [E|[]]. injection E as <- <-. left. split; [apply same_key_refl|].
    right. repeat split. intros e [].
  - rewrite Forall_forall in Hall. simpl in Hall.
    destruct (same_key k k') eqn:E; simpl.
    + intros [G|Hin].
      * injection G as <- <-. left. split; [exact E|]. left.
        exists n'. split; [left|]; reflexivity.
      * right. split; [|right; exact Hin].
        rewrite (same_key_trans_l _ _ j E). apply (Hall _ Hin).
    + intros [G|Hin].
      * injection G as <- <-. right. split; [exact E | left; reflexivity].
      * destruct (IH Hin) as [[G1 [[n0 [G2 G3]]|(G2 & G3 & G4)]]|[G1 G2]].
        -- left. split; [exact G1|]. left. exists n0. split; [right; exact G2 | exact G3].
        -- left. split; [exact G1|]. right. repeat split; try assumption.
           intros e [<-|He]; [exact E | apply G4; exact He].
        -- right. split; [exact G1 | right; exact G2].
Qed.

Lemma count_key_distinct k acc :
  ForallOrdPairs (fun a b => same_key (fst a) (fst b) = false) acc ->
  ForallOrdPairs (fun a b => same_key (fst a) (fst b) = false) (count_key k acc).
Proof.
  induction 1 as [|[k' n'] acc Hall Hfop IH]; simpl.
  - repeat constructor.
  - destruct (same_key k k') eqn:E.
    + constructor; [|exact Hfop].
      rewrite Forall_forall in *. intros e He. apply (Hall e He).
    + constructor; [|exact IH].
      rewrite Forall_forall in *. intros e He. simpl.
      assert (Hk : In (fst e) (map fst (count_key k acc))) by (apply in_map; exact He).
      apply count_key_keys in Hk. destruct Hk as [->|Hk].
      * rewrite same_key_sym. exact E.
      * apply in_map_iff in Hk. destruct Hk as [e' [Ee He']].
        rewrite <- Ee. apply (Hall e' He').
Qed.

Lemma tallied_step p acc k : tallied p acc -> tallied (k :: p) (count_key k acc).
Proof.
  intros (Hcount & Hfop & Hcov). split; [|split].
  - intros j n Hin. rewrite count_where_cons.
    destruct (count_key_entries _ _ _ _ Hfop Hin)
      as [[E [[n0 [G1 G2]]|(G1 & G2 & G3)]]|[E G]].
    + rewrite E. destruct (Hcount _ _ G1) as [-> Hj]. split; [lia | right; exact Hj].
    + rewrite E. subst j n. split; [|left; reflexivity].
      rewrite count_where_none; [reflexivity|].
      intros x Hx. destruct (same_key x k) eqn:Exk; [|reflexivity].
      destruct (Hcov x Hx) as [e [He1 He2]].
      rewrite (same_key_trans_l _ _ (fst e) Exk) in He2.
      rewrite (G3 e He1) in He2. discriminate.
    + rewrite E. destruct (Hcount _ _ G) as [-> Hj]. split; [lia | right; exact Hj].
  - apply count_key_distinct. exact Hfop.
  - intros x [<-|Hx].
    + destruct (count_key_found k acc) as [k' [Hk' E]].
      apply in_map_iff in Hk'. destruct Hk' as [e [Ee He]].
      exists e. split; [exact He | rewrite Ee; exact E].
    + destruct (Hcov x Hx) as [e [He1 He2]].
      assert (Hk : In (fst e) (map fst (count_key k acc))).
      { apply count_key_keeps. apply in_map. exact He1. }
      apply in_map_iff in Hk. destruct Hk as [e' [Ee He']].
      exists e'. split; [exact He' | rewrite Ee; exact He2].
Qed.

Lemma tallied_fold s p acc :
  tallied p acc ->
  tallied (rev s ++ p) (fold_left (fun a k => count_key k a) s acc).
Proof.
  revert p acc. induction s as [|k s IH]; intros p acc Ht; simpl; [exact Ht|].
  rewrite <- app_assoc. simpl. apply IH, tallied_step, Ht.
Qed.

Lemma tally_spec s :
  (forall k n, In (k, n) (tally s) -> n = count_where k s /\ In k s) /\
  ForallOrdPairs (fun a b => same_key (fst a) (fst b) = false) (tally s) /\
  (forall x, In x s -> exists e, In e (tally s) /\ same_key x (fst e) = true).
Proof.
  assert (T0 : tallied [] []).
  { split; [intros k n []|]. split; [constructor | intros x []]. }
  destruct (tallied_fold s [] [] T0) as (Hcount & Hfop & Hcov).
  rewrite app_nil_r in *. fold (tally s) in *.
  split; [|split; [exact Hfop|]].
  - intros k n Hin. destruct (Hcount k n Hin) as [-> Hk].
    split; [apply count_where_rev | apply in_rev; exact Hk].
  - intros x Hx. apply Hcov. apply in_rev in Hx. exact Hx.
Qed.

Lemma distinct_at_most_one (l : list (cell * Z)) k :
  ForallOrdPairs (fun a b => same_key (fst a) (fst b) = false) l ->
  (List.length (filter (fun e => same_key k (fst e)) l) <= 1)%nat.
Proof.
  induction 1 as [|a l Hall Hfop IH]; simpl; [lia|].
  destruct (same_key k (fst a)) eqn:E; [|exact IH].
  assert (Hnil : filter (fun e => same_key k (fst e)) l = []).
  { rewrite Forall_forall in Hall. clear -Hall E.
    induction l as [|b l IHl]; simpl; [reflexivity|].
    rewrite (same_key_trans_l _ _ (fst b) E), (Hall b (or_introl eq_refl)).
    apply IHl. intros x Hx. apply Hall. right. exact Hx. }
  rewrite Hnil. simpl. lia.
Qed.

Lemma filter_length_perm {A : Type} (f : A -> bool) (l l' : list A) :
  Permutation l l' -> List.length (filter f l) = List.length (filter f l').
Proof.
  induction 1 as [|x l l' _ IH|x y l|l l' l'' _ IH1 _ IH2]; simpl.
  - reflexivity.
  - destruct (f x); simpl; lia.
  - destruct (f x), (f y); reflexivity.
  - lia.
Qed.

Section ValueCounts.
Context `{Pandas}.

(** What [value_counts] returns for a column [s]. *)
Lemma value_counts_spec s :
  StronglySorted (fun a b => snd b <= snd a) (value_counts s) /\
  (forall k n, In (k, n) (value_counts s) ->
               notna k = true /\ In k s /\ n = count_where k s /\ 1 <= n) /\
  (forall x, In x s -> notna x = true ->
             exists e, In e (value_counts s) /\ same_key x (fst e) = true) /\
  (forall k, (List.length (filter (fun e => same_key k (fst e)) (value_counts s))
              <= 1)%nat) /\
  total (value_counts s) = Z.of_nat (List.length (filter notna s)).
Proof.
  unfold value_counts.
  pose proof (sort_values_desc_perm (tally (filter notna s))) as Hperm.
  destruct (tally_spec (filter notna s)) as (Hcount & Hfop & Hcov).
  split; [apply sort_values_desc_sorted|]. split; [|split; [|split]].
  - intros k n Hin. apply (Permutation_in _ Hperm) in Hin.
    destruct (Hcount k n Hin) as [-> Hk]. apply filter_In in Hk.
    destruct Hk as [Hk Hna]. split; [exact Hna|]. split; [exact Hk|].
    rewrite (count_where_notna _ _ Hna). split; [reflexivity|].
    clear -Hk. induction s as [|x s IH]; [destruct Hk|].
    rewrite count_where_cons. destruct Hk as [->|Hk].
    + rewrite same_key_refl. unfold count_where. lia.
    + specialize (IH Hk). destruct (same_key x k); lia.
  - intros x Hx Hna.
    destruct (Hcov x) as [e [He1 He2]]; [apply filter_In; split; assumption|].
    exists e. split; [|exact He2].
    apply (Permutation_in _ (Permutation_sym Hperm)). exact He1.
  - intros k. rewrite (filter_length_perm _ _ _ Hperm).
    apply distinct_at_most_one. exact Hfop.
  - rewrite (total_perm _ _ Hperm). unfold tally. rewrite fold_count_total.
    reflexivity.
Qed.

End ValueCounts.

Lemma same_key_Str_eqb a b : same_key (Str a) (Str b) = String.eqb a b.
Proof.
  destruct (String.eqb_spec a b) as [->|Hne]; [apply same_key_refl|].
  destruct (same_key (Str a) (Str b)) eqn:E; [|reflexivity].
  exfalso. apply Hne. apply same_key_Str. exact E.
Qed.

Lemma at_most_one_NoDup (l : list (cell * Z)) :
  (forall k, (List.length (filter (fun e => same_key k (fst e)) l) <= 1)%nat) ->
  NoDup (map fst l).
Proof.
  induction l as [|a l IH]; intros H; simpl; constructor.
  - intros Hin. apply in_map_iff in Hin. destruct Hin as [e [Ee He]].
    specialize (H (fst a)). simpl in H. rewrite same_key_refl in H. simpl in H.
    assert (G : (1 <= List.length (filter (fun e => same_key (fst a) (fst e)) l))%nat).
    { clear -Ee He. induction l as [|b l IHl]; [destruct He|]. simpl.
      destruct He as [->|He].
      - rewrite Ee, same_key_refl. simpl. lia.
      - destruct (same_key (fst a) (fst b)); simpl; [lia | apply IHl; exact He]. }
    lia.
  - apply IH. intros k. specialize (H k). simpl in H.
    destruct (same_key k (fst a)); simpl in H; lia.
Qed.

Lemma count_where_map {A : Type} (f : A -> cell) (k : cell) (l : list A) :
  count_where k (map f l)
  = Z.of_nat (List.length (filter (fun x => same_key (f x) k) l)).
Proof.
  unfold count_where. f_equal.
  induction l as [|x l IH]; simpl; [reflexivity|].
  destruct (same_key (f x) k); simpl; rewrite IH; reflexivity.
Qed.

(** X6. The sentiment breakdown lists each sentiment of the table once,
    with the number of rows that have it (at least one), in descending
    order of the counts; no row is left out. *)
Theorem sentiment_breakdown_counts_rows `{Pandas} (df : Frame) :
  StronglySorted (fun a b => snd b <= snd a) (sentiment_counts df) /\
  NoDup (map fst (sentiment_counts df)) /\
  (forall k n, In (k, n) (sentiment_counts df) ->
     exists s, k = Str s /\ 1 <= n /\
       n = Z.of_nat (List.length
             (filter (fun x => String.eqb (sentiment (snd x)) s) (rows df)))) /\
  (forall x, In x (rows df) ->
     exists n, In (Str (sentiment (snd x)), n) (sentiment_counts df)).
Proof.
  unfold sentiment_counts.
  destruct (value_counts_spec (map (fun x => Str (sentiment (snd x))) (rows df)))
    as (Hsorted & Hentries & Hcov & Hone & _).
  split; [exact Hsorted|]. split; [apply at_most_one_NoDup; exact Hone|]. split.
  - intros k n Hin. destruct (Hentries k n Hin) as (_ & Hk & Hn & Hpos).
    apply in_map_iff in Hk. destruct Hk as [x [<- _]].
    exists (sentiment (snd x)). split; [reflexivity|]. split; [exact Hpos|].
    rewrite Hn, (count_where_map (fun x => Str (sentiment (snd x)))).
    f_equal. f_equal. apply filter_ext. intros y. apply same_key_Str_eqb.
  - intros x Hx.
    destruct (Hcov (Str (sentiment (snd x)))) as [[k n] [He1 He2]].
    + apply (in_map (fun x => Str (sentiment (snd x)))). exact Hx.
    + reflexivity.
    + destruct (Hentries k n He1) as (_ & Hk & _).
      apply in_map_iff in Hk. destruct Hk as [y [<- _]].
      simpl in He2. apply same_key_Str in He2. rewrite He2.
      exists n. exact He1.
Qed.

(** X7. In the returned table the sentiment of a row whose raw sentiment
    is a text of ASCII characters is that text with A to Z turned into a to
    z; so two such rows whose raw sentiments differ in the case of letters
    only have the same sentiment and are counted in one category of the
    sentiment breakdown. *)
Theorem sentiment_spellings_merge `{Pandas}
    (raw : RawFrame) (log : list event) (df : Frame) :
  clean_data raw = (log, Ok (Some df)) ->
  exists si,
    getitem "sentiment" (map normalize_column (columns raw)) = Series si /\
    (forall x s,
        In x (rows df) -> field si (cells (snd x)) = Str s ->
        PyStr.all_ascii s = true ->
        sentiment (snd x) = PyStr.ascii_lower s) /\
    (forall x y s s',
        In x (rows df) -> In y (rows df) ->
        field si (cells (snd x)) = Str s -> field si (cells (snd y)) = Str s' ->
        PyStr.all_ascii s = true -> PyStr.all_ascii s' = true ->
        PyStr.ascii_lower s = PyStr.ascii_lower s' ->
        sentiment (snd x) = sentiment (snd y) /\
        exists n, In (Str (sentiment (snd x)), n) (sentiment_counts df) /\
                  In (Str (sentiment (snd y)), n) (sentiment_counts df)).
Proof.
  intros Hc.
  destruct (clean_data_some _ _ _ Hc) as (pre & Hp & _ & _ & _).
  destruct (clean_sorted_some _ _ Hp)
    as (di & ei & si & ints & Hd & He & Hs & Hi & _ & _).
  exists si. split; [exact Hs|].
  assert (Hrow : forall x s,
             In x (rows df) -> field si (cells (snd x)) = Str s ->
             PyStr.all_ascii s = true ->
             sentiment (snd x) = PyStr.ascii_lower s).
  { intros x s Hx Hf Ha.
    destruct (returned_row_origin _ _ _ _ _ Hc Hp Hx) as [i Hrow].
    apply (survivors _ _ _ _ _ _ Hp Hd He Hs Hi) in Hrow.
    destruct Hrow as (t & r & n & _ & _ & _ & E). rewrite E in Hf |- *.
    cbn [sentiment cells] in *. rewrite Hf. cbn [astype_str].
    apply str_lower_ascii. exact Ha. }
  split; [exact Hrow|].
  intros x y s s' Hx Hy Hfx Hfy Ha Ha' E.
  assert (Exy : sentiment (snd x) = sentiment (snd y)).
  { rewrite (Hrow x s Hx Hfx Ha), (Hrow y s' Hy Hfy Ha'). exact E. }
  split; [exact Exy|].
  pose proof (sentiment_counts_key df x Hx) as Hk.
  apply in_map_iff in Hk. destruct Hk as [[k n] [Ek Hk]]. simpl in Ek. subst k.
  exists n. split; [exact Hk|]. rewrite <- Exy. exact Hk.
Qed.

Lemma sentiment_spellings_merge_witness :
  exists si,
    getitem "sentiment"
      (map (@normalize_column Reference.pandas) (columns Samples.three_rows))
      = Series si /\
    (forall x s,
        In x (rows Runs.three_rows) -> field si (cells (snd x)) = Str s ->
        PyStr.all_ascii s = true ->
        sentiment (snd x) = PyStr.ascii_lower s) /\
    (forall x y s s',
        In x (rows Runs.three_rows) -> In y (rows Runs.three_rows) ->
        field si (cells (snd x)) = Str s -> field si (cells (snd y)) = Str s' ->
        PyStr.all_ascii s = true -> PyStr.all_ascii s' = true ->
        PyStr.ascii_lower s = PyStr.ascii_lower s' ->
        sentiment (snd x) = sentiment (snd y) /\
        exists n,
          In (Str (sentiment (snd x)), n)
             (@sentiment_counts Reference.pandas Runs.three_rows) /\
          In (Str (sentiment (snd y)), n)
             (@sentiment_counts Reference.pandas Runs.three_rows)).
Proof.
  apply (@sentiment_spellings_merge Reference.pandas Samples.three_rows []).
  vm_compute. reflexivity.
Defined.

(** X8. The media-type mix counts the rows that have a media type: each
    media type of the table is listed once with the number of its rows,
    in descending order of the counts, and the counts add up to the number
    of rows whose media type is not missing. *)
Theorem media_type_mix_counts_rows `{Pandas} (df : Frame) (i : nat) :
  getitem "media_type" (header df) = Series i ->
  exists d,
    media_type_counts df = Ok d /\
    create_media_type_mix_chart df = Ok (px_pie "Media Type Mix" d) /\
    StronglySorted (fun a b => snd b <= snd a) d /\
    NoDup (map fst d) /\
    (forall k n, In (k, n) d ->
       notna k = true /\ 1 <= n /\
       n = Z.of_nat (List.length
             (filter (fun x => same_key (label_of i x) k) (rows df)))) /\
    (forall x, In x (rows df) -> notna (label_of i x) = true ->
       exists e, In e d /\ same_key (label_of i x) (fst e) = true) /\
    total d
    = Z.of_nat (List.length (filter (fun x => notna (label_of i x)) (rows df))).
Proof.
  intros Hget.
  unfold create_media_type_mix_chart, media_type_counts, label_column, the_series.
  rewrite Hget. cbn [rbind].
  eexists. split; [reflexivity|]. split; [reflexivity|].
  destruct (value_counts_spec (map (fun x => field i (cells (snd x))) (rows df)))
    as (Hsorted & Hentries & Hcov & Hone & Htotal).
  split; [exact Hsorted|]. split; [apply at_most_one_NoDup; exact Hone|].
  split; [|split].
  - intros k n Hin. destruct (Hentries k n Hin) as (Hna & _ & Hn & Hpos).
    split; [exact Hna|]. split; [exact Hpos|].
    rewrite Hn. apply (count_where_map (label_of i)).
  - intros x Hx Hna. apply Hcov; [|exact Hna].
    apply (in_map (label_of i)). exact Hx.
  - rewrite Htotal. f_equal.
    generalize (rows df). intros l. induction l as [|x l IH]; simpl; [reflexivity|].
    change (field i (cells (snd x))) with (label_of i x).
    destruct (notna (label_of i x)); simpl; rewrite IH; reflexivity.
Qed.

Lemma media_type_mix_counts_rows_witness :
  exists d,
    @media_type_counts Reference.pandas Runs.three_rows = Ok d /\
    @create_media_type_mix_chart Reference.pandas Runs.three_rows
      = Ok (px_pie "Media Type Mix" d) /\
    StronglySorted (fun a b => snd b <= snd a) d /\
    NoDup (map fst d) /\
    (forall k n, In (k, n) d ->
       notna k = true /\ 1 <= n /\
       n = Z.of_nat (List.length
             (filter (fun x => same_key (label_of 5 x) k) (rows Runs.three_rows)))) /\
    (forall x, In x (rows Runs.three_rows) -> notna (label_of 5 x) = true ->
       exists e, In e d /\ same_key (label_of 5 x) (fst e) = true) /\
    total d
    = Z.of_nat (List.length (filter (fun x => notna (label_of 5 x))
                                    (rows Runs.three_rows))).
Proof.
  apply (@media_type_mix_counts_rows Reference.pandas Runs.three_rows 5).
  reflexivity.
Defined.

(** ** The engagement trend *)

Lemma wrap64_add_r a b : wrap64 (a + wrap64 b) = wrap64 (a + b).
Proof. rewrite Z.add_comm, wrap64_add_l. f_equal. lia. Qed.

Lemma wrap64_small z : - 2 ^ 63 <= z < 2 ^ 63 -> wrap64 z = z.
Proof. intros Hz. unfold wrap64. rewrite Z.mod_small; lia. Qed.

Lemma add_to_group_total {K : Type} (cmp : K -> K -> comparison) k v acc :
  wrap64 (total (add_to_group cmp k v acc)) = wrap64 (total acc + v).
Proof.
  induction acc as [|[k' s] acc IH]; simpl.
  - rewrite wrap64_add_l. f_equal. lia.
  - destruct (cmp k k'); simpl.
    + rewrite wrap64_add_l. f_equal. lia.
    + rewrite wrap64_add_l. f_equal. lia.
    + rewrite <- wrap64_add_r, IH, wrap64_add_r. f_equal. lia.
Qed.

Lemma groupby_sum_total {K : Type} (cmp : K -> K -> comparison) l :
  wrap64 (total (groupby_sum cmp l)) = wrap64 (total l).
Proof.
  unfold groupby_sum.
  assert (G : forall l acc,
             wrap64 (total (fold_left
                              (fun a kv => add_to_group cmp (fst kv) (snd kv) a) l acc))
             = wrap64 (total acc + total l)).
  { clear. induction l as [|x l IH]; intros acc; simpl.
    - f_equal. lia.
    - rewrite IH, <- wrap64_add_l, add_to_group_total, wrap64_add_l. f_equal. lia. }
  rewrite G. reflexivity.
Qed.

Lemma StronglySorted_impl {A : Type} (R R' : A -> A -> Prop) l :
  (forall a b, R a b -> R' a b) -> StronglySorted R l -> StronglySorted R' l.
Proof.
  intros Himp. induction 1 as [|x l Hs IH Hall]; constructor; [exact IH|].
  rewrite Forall_forall in *. intros y Hy. apply Himp, Hall, Hy.
Qed.

Lemma Z_compare_eq_l (a b c : Z) : (a ?= b) = Eq -> (a ?= c) = (b ?= c).
Proof. intros E. apply Z.compare_eq in E. subst. reflexivity. Qed.

Lemma Z_compare_lt_trans (a b c : Z) :
  (a ?= b) = Lt -> (b ?= c) = Lt -> (a ?= c) = Lt.
Proof. rewrite !Z.compare_lt_iff. lia. Qed.

(** X9. The engagement trend has one entry for every calendar day on which
    the table has a row, in strictly ascending order of the days; each
    entry is the 64-bit sum of the engagements of the rows of its day, and
    the entries add up, in 64-bit arithmetic, to the engagements of the
    whole table. The line chart draws exactly these entries. *)
Theorem engagement_trend_by_day (df : Frame) :
  create_engagement_trend_chart df
  = px_line "Engagement Trend Over Time" (engagement_by_date df) /\
  StronglySorted (fun a b => fst a < fst b) (engagement_by_date df) /\
  (forall day s, In (day, s) (engagement_by_date df) ->
     s = wrap64 (sum_where Z.compare day (by_day (rows df))) /\
     exists x, In x (rows df) /\ dt_date (date (snd x)) = day) /\
  (forall x, In x (rows df) ->
     exists s, In (dt_date (date (snd x)), s) (engagement_by_date df)) /\
  wrap64 (total (engagement_by_date df)) = wrap64 (total (by_day (rows df))).
Proof.
  split; [reflexivity|].
  unfold engagement_by_date. fold (by_day (rows df)).
  destruct (groupby_sum_spec Z.compare Z.compare_refl
              (fun a b => Z.compare_antisym a b) Z_compare_eq_l Z_compare_lt_trans
              (by_day (rows df))) as (Hsorted & Hsum & Hcov).
  split; [|split; [|split]].
  - apply (StronglySorted_impl (key_lt Z.compare)); [|exact Hsorted].
    intros a b. unfold key_lt. apply Z.compare_lt_iff.
  - intros day s Hin. destruct (Hsum day s Hin) as [Hs Hk].
    split; [exact Hs|].
    apply in_map_iff in Hk. destruct Hk as [[d v] [Ed Hk]]. simpl in Ed. subst d.
    apply in_map_iff in Hk. destruct Hk as [x [Ex Hx]].
    exists x. split; [exact Hx|]. injection Ex as Ex _. exact Ex.
  - intros x Hx.
    destruct (Hcov (dt_date (date (snd x)), engagements (snd x))) as [[d s] [He1 He2]].
    + apply (in_map (fun x => (dt_date (date (snd x)), engagements (snd x)))). exact Hx.
    + simpl in He2. apply Z.compare_eq in He2. subst d. exists s. exact He1.
  - apply groupby_sum_total.
Qed.

Lemma add_to_group_comm k1 v1 k2 v2 (acc : list (Z * Z)) :
  add_to_group Z.compare k1 v1 (add_to_group Z.compare k2 v2 acc)
  = add_to_group Z.compare k2 v2 (add_to_group Z.compare k1 v1 acc).
Proof.
  induction acc as [|[k s] acc IH]; simpl;
    repeat match goal with
           | |- context [(?a ?= ?b)] =>
               destruct (Z.compare_spec a b); subst; simpl; try lia
           end;
    rewrite ?wrap64_add_l; rewrite ?IH;
    repeat first [reflexivity | lia | f_equal].
Qed.

Lemma fold_left_perm {A B : Type} (f : A -> B -> A) (l l' : list B) :
  (forall a x y, f (f a x) y = f (f a y) x) ->
  Permutation l l' -> forall acc, fold_left f l acc = fold_left f l' acc.
Proof.
  intros Hcomm. induction 1 as [|x l l' _ IH|x y l|l l' l'' _ IH1 _ IH2];
    intros acc; simpl.
  - reflexivity.
  - apply IH.
  - rewrite Hcomm. reflexivity.
  - rewrite IH1. apply IH2.
Qed.

(** X10. The engagement trend does not depend on the order in which
    [sort_values] leaves the rows: it is what grouping the surviving rows
    in their input order gives. *)
Theorem engagement_trend_ignores_row_order `{Pandas}
    (raw : RawFrame) (log : list event) (df : Frame) :
  clean_data raw = (log, Ok (Some df)) ->
  exists di ei si ints,
    getitem "date" (map normalize_column (columns raw)) = Series di /\
    getitem "engagements" (map normalize_column (columns raw)) = Series ei /\
    getitem "sentiment" (map normalize_column (columns raw)) = Series si /\
    to_engagements ei (dropna_date (dated di (body raw))) = Ok ints /\
    engagement_by_date df
    = groupby_sum Z.compare
        (by_day (map (typed si)
                     (combine (dropna_date (dated di (body raw))) ints))).
Proof.
  intros Hc.
  destruct (clean_data_some _ _ _ Hc) as (pre & Hp & _ & _ & Hrows).
  destruct (clean_sorted_some _ _ Hp)
    as (di & ei & si & ints & Hd & He & Hs & Hi & _ & Hpre).
  exists di, ei, si, ints. repeat split; try assumption.
  unfold engagement_by_date, groupby_sum. fold (by_day (rows df)).
  apply fold_left_perm.
  - intros a [k1 v1] [k2 v2]. simpl. apply add_to_group_comm.
  - unfold by_day.
    rewrite <- (map_map snd (fun r => (dt_date (date r), engagements r)) (rows df)).
    rewrite <- (map_map snd (fun r => (dt_date (date r), engagements r))
                  (map (typed si) _)).
    apply Permutation_map.
    rewrite Hrows, reset_index_rows, Hpre. apply Permutation_map, argsort_perm.
Qed.

Lemma engagement_trend_ignores_row_order_witness :
  exists di ei si ints,
    getitem "date"
      (map (@normalize_column Reference.pandas) (columns Samples.one_day)) = Series di /\
    getitem "engagements"
      (map (@normalize_column Reference.pandas) (columns Samples.one_day)) = Series ei /\
    getitem "sentiment"
      (map (@normalize_column Reference.pandas) (columns Samples.one_day)) = Series si /\
    @to_engagements Reference.pandas ei
      (dropna_date (@dated Reference.pandas di (body Samples.one_day))) = Ok ints /\
    engagement_by_date (Runs.returned Samples.one_day)
    = groupby_sum Z.compare
        (by_day (map (@typed Reference.pandas si)
                     (combine (dropna_date (@dated Reference.pandas di
                                              (body Samples.one_day)))
                              ints))).
Proof.
  apply (@engagement_trend_ignores_row_order Reference.pandas Samples.one_day []).
  vm_compute. reflexivity.
Defined.

(** ** One entry per label, and sums without overflow *)

Lemma NoDup_firstn {A : Type} n (l : list A) : NoDup l -> NoDup (firstn n l).
Proof.
  intros Hnd. revert n. induction Hnd as [|x l Hx Hnd IH]; intros [|n]; simpl;
    try constructor.
  - intros Hin. apply Hx. eapply In_firstn. exact Hin.
  - apply IH.
Qed.

Lemma key_lt_distinct (l : list (cell * Z)) :
  StronglySorted (key_lt cell_compare) l ->
  ForallOrdPairs (fun a b => same_key (fst a) (fst b) = false) l.
Proof.
  induction 1 as [|a l Hs IH Hall]; constructor; [|exact IH].
  rewrite Forall_forall in *. intros b Hb. specialize (Hall b Hb).
  unfold key_lt in Hall. unfold same_key. rewrite Hall. reflexivity.
Qed.

Section ExactSums.
Context {K : Type} (cmp : K -> K -> comparison).

Lemma abs_total_nonneg (l : list (K * Z)) : 0 <= abs_total l.
Proof. induction l as [|x l IH]; simpl; lia. Qed.

Lemma sum_where_bound k (l : list (K * Z)) :
  Z.abs (sum_where cmp k l) <= abs_total l.
Proof.
  induction l as [|x l IH]; simpl; [lia|].
  destruct (cmp k (fst x)); lia.
Qed.

Lemma total_bound (l : list (K * Z)) : Z.abs (total l) <= abs_total l.
Proof. induction l as [|x l IH]; simpl; lia. Qed.

Lemma add_to_group_exact k v (acc : list (K * Z)) :
  abs_total acc + Z.abs v < 2 ^ 63 ->
  total (add_to_group cmp k v acc) = total acc + v /\
  abs_total (add_to_group cmp k v acc) <= abs_total acc + Z.abs v.
Proof.
  induction acc as [|[k' s] acc IH]; simpl; intros Hb.
  - rewrite wrap64_small; lia.
  - pose proof (abs_total_nonneg acc) as Hn.
    destruct (cmp k k'); simpl.
    + rewrite wrap64_small; lia.
    + rewrite wrap64_small; lia.
    + destruct IH as [IH1 IH2]; lia.
Qed.

Lemma groupby_sum_exact (l : list (K * Z)) :
  abs_total l < 2 ^ 63 -> total (groupby_sum cmp l) = total l.
Proof.
  unfold groupby_sum.
  assert (G : forall l acc,
             abs_total acc + abs_total l < 2 ^ 63 ->
             total (fold_left (fun a kv => add_to_group cmp (fst kv) (snd kv) a) l acc)
             = total acc + total l).
  { clear. induction l as [|x l IH]; intros acc Hb; simpl in *; [lia|].
    pose proof (abs_total_nonneg l) as Hn.
    destruct (add_to_group_exact (fst x) (snd x) acc) as [E1 E2]; [lia|].
    rewrite IH; lia. }
  intros Hb. rewrite G; simpl; lia.
Qed.
End ExactSums.

Section Labels.
Context `{Pandas}.

Lemma engagements_by_groups name df i :
  getitem name (header df) = Series i ->
  engagements_by name df = Ok (groupby_sum cell_compare (by_label i (rows df))).
Proof.
  intros Hget. unfold engagements_by, label_column, the_series.
  rewrite Hget. cbn [rbind].
  rewrite (combine_map (fun x => field i (cells (snd x)))
                       (fun x => engagements (snd x))).
  reflexivity.
Qed.

(** X11. A ranking by label (the bars of the platform chart, the five
    entries of the platform prompt, the top locations) lists no label
    twice, and the bars of the platform chart add up, in 64-bit
    arithmetic, to the engagements of the rows that have a platform. *)
Theorem rankings_list_each_label_once (df : Frame) (ip il : nat) :
  getitem "platform" (header df) = Series ip ->
  getitem "location" (header df) = Series il ->
  exists bars top,
    create_platform_engagements_chart df = Ok (px_bar "Platform Engagements" bars) /\
    platform_top5 df = Ok (firstn 5 bars) /\
    top_locations df = Ok top /\
    NoDup (map fst bars) /\ NoDup (map fst (firstn 5 bars)) /\ NoDup (map fst top) /\
    wrap64 (total bars) = wrap64 (total (by_label ip (rows df))).
Proof.
  intros Hp Hl.
  assert (Hnd : forall i, NoDup (map fst (sort_values_desc
                                (groupby_sum cell_compare (by_label i (rows df)))))).
  { intros i. apply at_most_one_NoDup. intros k.
    rewrite (filter_length_perm _ _ _ (sort_values_desc_perm _)).
    apply distinct_at_most_one, key_lt_distinct.
    apply (groupby_sum_spec cell_compare cell_compare_refl cell_compare_antisym
             cell_compare_eq_l cell_compare_lt_trans). }
  unfold create_platform_engagements_chart, platform_engagements, platform_top5,
    top_locations.
  rewrite (engagements_by_groups _ _ _ Hp), (engagements_by_groups _ _ _ Hl).
  unfold rbind. eexists. eexists.
  split; [reflexivity|]. split; [reflexivity|]. split; [reflexivity|].
  split; [apply Hnd|].
  split; [rewrite <- firstn_map; apply NoDup_firstn, Hnd|].
  split; [rewrite <- firstn_map; apply NoDup_firstn, Hnd|].
  rewrite (total_perm _ _ (sort_values_desc_perm _)). apply groupby_sum_total.
Qed.

(** X12. When the magnitudes of the engagements of the table add up to
    less than 2^63, no sum wraps: every entry of the engagement trend is
    the exact sum of its day and the entries add up to the engagements of
    the table, and every entry of a ranking by label is the exact sum of
    its label. *)
Theorem sums_exact_below_2_63 (df : Frame) (name : string) (i : nat) :
  abs_total (by_day (rows df)) < 2 ^ 63 ->
  getitem name (header df) = Series i ->
  (forall day s, In (day, s) (engagement_by_date df) ->
                 s = sum_where Z.compare day (by_day (rows df))) /\
  total (engagement_by_date df) = total (by_day (rows df)) /\
  exists g,
    engagements_by name df = Ok g /\
    forall k s, In (k, s) (sort_values_desc g) ->
                s = sum_where cell_compare k (by_label i (rows df)).
Proof.
  intros Hb Hget.
  assert (Hlab : abs_total (by_label i (rows df)) <= abs_total (by_day (rows df))).
  { unfold by_label, by_day. generalize (rows df). intros l.
    induction l as [|x l IH]; simpl; [lia|].
    destruct (notna (label_of i x)); simpl; lia. }
  split; [|split].
  - intros day s Hin. unfold engagement_by_date in Hin. fold (by_day (rows df)) in Hin.
    destruct (groupby_sum_spec Z.compare Z.compare_refl
                (fun a b => Z.compare_antisym a b) Z_compare_eq_l Z_compare_lt_trans
                (by_day (rows df))) as (_ & Hsum & _).
    destruct (Hsum day s Hin) as [-> _].
    pose proof (sum_where_bound Z.compare day (by_day (rows df))).
    apply wrap64_small. lia.
  - unfold engagement_by_date. fold (by_day (rows df)).
    apply groupby_sum_exact. exact Hb.
  - eexists. split; [apply (engagements_by_groups _ _ _ Hget)|].
    intros k s Hin. apply (Permutation_in _ (sort_values_desc_perm _)) in Hin.
    destruct (groupby_sum_spec cell_compare cell_compare_refl cell_compare_antisym
                cell_compare_eq_l cell_compare_lt_trans
                (by_label i (rows df))) as (_ & Hsum & _).
    destruct (Hsum k s Hin) as [-> _].
    pose proof (sum_where_bound cell_compare k (by_label i (rows df))).
    apply wrap64_small. lia.
Qed.

End Labels.

Lemma rankings_list_each_label_once_witness :
  exists bars top,
    @create_platform_engagements_chart Reference.pandas Runs.six_platforms
      = Ok (px_bar "Platform Engagements" bars) /\
    @platform_top5 Reference.pandas Runs.six_platforms = Ok (firstn 5 bars) /\
    @top_locations Reference.pandas Runs.six_platforms = Ok top /\
    NoDup (map fst bars) /\ NoDup (map fst (firstn 5 bars)) /\ NoDup (map fst top) /\
    wrap64 (total bars) = wrap64 (total (by_label 1 (rows Runs.six_platforms))).
Proof.
  apply (@rankings_list_each_label_once Reference.pandas Runs.six_platforms 1 3);
    reflexivity.
Defined.

Lemma sums_exact_below_2_63_witness :
  (forall day s, In (day, s) (engagement_by_date Runs.six_platforms) ->
                 s = sum_where Z.compare day (by_day (rows Runs.six_platforms))) /\
  total (engagement_by_date Runs.six_platforms)
  = total (by_day (rows Runs.six_platforms)) /\
  exists g,
    engagements_by "platform" Runs.six_platforms = Ok g /\
    forall k s, In (k, s) (@sort_values_desc Reference.pandas cell g) ->
                s = sum_where cell_compare k (by_label 1 (rows Runs.six_platforms)).
Proof.
  apply (@sums_exact_below_2_63 Reference.pandas Runs.six_platforms "platform" 1).
  - vm_compute. reflexivity.
  - reflexivity.
Defined.

(** ** The answer of the service *)

Ltac split_match :=
  match goal with
  | |- context [match ?x with _ => _ end] =>
      lazymatch x with
      | context [match _ with _ => _ end] => fail
      | _ => destruct x eqn:?
      end
  end.

Ltac read_cases :=
  unfold read_candidates, text_path, first_part, incomplete, lacking,
    first_if_truthy, py_get, py_getitem, member, head_item, and_then, rbind, truthy;
  repeat (split_match; subst; simpl).

Ltac answer_cases :=
  repeat match goal with
         | H : exists _, _ |- _ => destruct H
         | H : _ /\ _ |- _ => destruct H
         | H : Candidates _ = Candidates _ |- _ => injection H as <-
         end;
  try discriminate; try congruence; eauto.

Lemma read_candidates_text_path j v :
  read_candidates j = Ok (Some v) <-> text_path j = Some v.
Proof. read_cases; split; intros; try discriminate; congruence. Qed.

Lemma read_candidates_incomplete j :
  read_candidates j = Ok None <-> incomplete j = true.
Proof. read_cases; split; intros; try discriminate; congruence. Qed.

Lemma read_candidates_without_text j members :
  first_part j = Some (JObj members) -> assoc "text" members = None ->
  read_candidates j = Raise (KeyError "text").
Proof.
  revert members. read_cases; intros ms E1 E2; try discriminate;
    congruence.
Qed.

Lemma read_candidates_not_object j :
  (forall members, j <> JObj members) ->
  read_candidates j = Raise (no_attribute j "get").
Proof.
  intros Hj. destruct j; try reflexivity. exfalso. exact (Hj _ eq_refl).
Qed.

(** X13. How an answer with a good status is read. The text shown is the
    value at [candidates[0].content.parts[0].text], and there is one
    exactly when the body has that path through objects and arrays. The
    unexpected-structure message is for the bodies without a true
    [candidates], [content] or [parts]. Every other body makes the
    reading raise an exception that [call_gemini_api] does not catch; no
    body is reported as a failed request. *)
Theorem answer_read_by_path (format : json -> string) (status : Z) (j : json) :
  is_error_status status = false ->
  (forall text, reply_of format (Response status (Some j)) = Candidates text <->
                exists v, text_path j = Some v /\ format v = text) /\
  (reply_of format (Response status (Some j)) = UnexpectedShape <->
   incomplete j = true) /\
  ((exists e, reply_of format (Response status (Some j)) = Unhandled e) <->
   text_path j = None /\ incomplete j = false) /\
  reply_of format (Response status (Some j)) <> RequestException.
Proof.
  intros Hs. unfold reply_of. rewrite Hs.
  pose proof (read_candidates_text_path j) as Ht.
  pose proof (read_candidates_incomplete j) as Hi.
  assert (Hn : incomplete j = true \/ incomplete j = false)
    by (destruct (incomplete j); auto).
  destruct (read_candidates j) as [[v|]|e].
  - pose proof (proj1 (Ht v) eq_refl) as Ev.
    destruct Hn as [Ei | Ei]; [apply Hi in Ei; discriminate|].
    repeat split; intros; answer_cases.
  - pose proof (proj1 Hi eq_refl) as Ei.
    assert (Ev : text_path j = None).
    { destruct (text_path j) as [v|]; [|reflexivity].
      pose proof (proj2 (Ht v) eq_refl). discriminate. }
    repeat split; intros; answer_cases.
  - assert (Ev : text_path j = None).
    { destruct (text_path j) as [v|]; [|reflexivity].
      pose proof (proj2 (Ht v) eq_refl). discriminate. }
    destruct Hn as [Ei | Ei]; [apply Hi in Ei; discriminate|].
    repeat split; intros; answer_cases.
Qed.

Lemma answer_read_by_path_witness :
  reply_of Answers.as_text (Response 200 (Some Answers.with_text))
    = Candidates "1. Engagement is rising." /\
  reply_of Answers.as_text (Response 200 (Some Answers.blocked)) = UnexpectedShape /\
  exists e, reply_of Answers.as_text (Response 200 (Some Answers.part_without_text))
            = Unhandled e.
Proof.
  split; [|split].
  - apply (proj1 (answer_read_by_path Answers.as_text 200 Answers.with_text eq_refl)).
    exists (JStr "1. Engagement is rising."). split; reflexivity.
  - apply (proj1 (proj2 (answer_read_by_path Answers.as_text 200 Answers.blocked eq_refl))).
    reflexivity.
  - apply (proj1 (proj2 (proj2
             (answer_read_by_path Answers.as_text 200 Answers.part_without_text eq_refl)))).
    split; reflexivity.
Defined.

(** X14. A request that fails (no response, a status from 400 to 599, a
    body that is not JSON) stays in its block: the request was sent once,
    one error message is shown, the placeholder text takes the place of the
    insights and nothing is raised. *)
Theorem failed_request_stays_in_its_block
    (format : json -> string) (http : prompt -> response) (p : prompt) :
  (http p = NoResponse \/
   exists status body,
     http p = Response status body /\ (is_error_status status = true \/ body = None)) ->
  @insights (over_http format http) p
  = ([requests_post p;
      st_error [Lit "Failed to generate insights: "];
      st_markdown "Failed to generate insights due to a network or API error."],
     Ok tt).
Proof.
  intros Hf.
  assert (E : @generate (over_http format http) p = RequestException).
  { unfold generate, over_http, reply_of.
    destruct Hf as [-> | (status & body & -> & [-> | ->])]; try reflexivity.
    destruct (is_error_status status); reflexivity. }
  unfold insights, call_gemini_api. rewrite E. reflexivity.
Qed.

Lemma failed_request_stays_in_its_block_witness :
  @insights (over_http Answers.as_text (fun _ => Response 503 (Some Answers.with_text)))
            trend_fallback
  = ([requests_post trend_fallback;
      st_error [Lit "Failed to generate insights: "];
      st_markdown "Failed to generate insights due to a network or API error."],
     Ok tt).
Proof.
  apply (failed_request_stays_in_its_block Answers.as_text
           (fun _ => Response 503 (Some Answers.with_text)) trend_fallback).
  right. exists 503, (Some Answers.with_text). split; [reflexivity|].
  left. reflexivity.
Defined.

(** X15. An answer that is neither read nor reported as unexpected does
    not stay in its block: the exception of the reading ends the whole run
    in the top-level handler, after the first chart and the first request.
    A first part without [text] gives [KeyError('text')], a body that is no
    object the [AttributeError] that names its type. *)
Theorem unreadable_answer_ends_the_run `{Pandas}
    (format : json -> string) (http : prompt -> response)
    (raw : RawFrame) (log : list event) (df : Frame) (status : Z) (j : json) :
  clean_data raw = (log, Ok (Some df)) ->
  http (sentiment_prompt df) = Response status (Some j) ->
  is_error_status status = false ->
  text_path j = None ->
  incomplete j = false ->
  exists e,
    @main _ (over_http format http) (Some raw)
    = (st_success "File uploaded successfully! Processing data..."
       :: st_plotly_chart (create_sentiment_chart df)
       :: requests_post (sentiment_prompt df)
       :: handler e)%list /\
    (forall members, first_part j = Some (JObj members) -> e = KeyError "text") /\
    ((forall members, j <> JObj members) -> e = no_attribute j "get").
Proof.
  intros Hc Hh Hs Ht Hi.
  destruct (clean_data_some _ _ _ Hc) as (_ & _ & -> & _ & _).
  assert (He : exists e, reply_of format (Response status (Some j)) = Unhandled e).
  { unfold reply_of. rewrite Hs.
    destruct (read_candidates j) as [[v|]|e] eqn:Er.
    - apply read_candidates_text_path in Er. congruence.
    - apply read_candidates_incomplete in Er. congruence.
    - exists e. reflexivity. }
  destruct He as [e He]. exists e.
  assert (E : @generate (over_http format http) (sentiment_prompt df) = Unhandled e).
  { unfold generate, over_http. rewrite Hh. exact He. }
  split; [|split].
  - unfold main, process. rewrite Hc. unfold bind at 1.
    unfold charts_and_insights, insights, call_gemini_api. rewrite E. reflexivity.
  - intros members Hp.
    assert (Ha : assoc "text" members = None).
    { destruct (assoc "text" members) as [v|] eqn:Ea; [|reflexivity].
      exfalso. revert Ht. unfold text_path.
      revert Hp. unfold first_part.
      destruct (member "candidates" j) as [c|]; simpl; [|discriminate].
      destruct (head_item c) as [c0|]; simpl; [|discriminate].
      destruct (member "content" c0) as [c1|]; simpl; [|discriminate].
      destruct (member "parts" c1) as [c2|]; simpl; [|discriminate].
      intros ->. simpl. rewrite Ea. discriminate. }
    unfold reply_of in He. rewrite Hs in He.
    rewrite (read_candidates_without_text j members Hp Ha) in He.
    congruence.
  - intros Hj. unfold reply_of in He. rewrite Hs in He.
    rewrite (read_candidates_not_object j Hj) in He. congruence.
Qed.

Lemma unreadable_answer_ends_the_run_witness :
  exists e,
    @main Reference.pandas
          (over_http Answers.as_text
                     (fun _ => Response 200 (Some Answers.part_without_text)))
          (Some Samples.three_rows)
    = (st_success "File uploaded successfully! Processing data..."
       :: st_plotly_chart (@create_sentiment_chart Reference.pandas Runs.three_rows)
       :: requests_post (@sentiment_prompt Reference.pandas Runs.three_rows)
       :: handler e)%list /\
    (forall members,
        first_part Answers.part_without_text = Some (JObj members) ->
        e = KeyError "text") /\
    ((forall members, Answers.part_without_text <> JObj members) ->
     e = no_attribute Answers.part_without_text "get").
Proof.
  apply (@unreadable_answer_ends_the_run Reference.pandas Answers.as_text
           (fun _ => Response 200 (Some Answers.part_without_text))
           Samples.three_rows [] Runs.three_rows 200 Answers.part_without_text).
  - vm_compute. reflexivity.
  - reflexivity.
  - reflexivity.
  - reflexivity.
  - reflexivity.
Defined.

(** ** What a run shows and sends *)

Lemma shown_app a b : shown (a ++ b) = (shown a ++ shown b)%list.
Proof.
  induction a as [|e a IH]; simpl; [reflexivity|].
  destruct e; simpl; rewrite ?IH; reflexivity.
Qed.

Section Shown.
Context `{Pandas} `{TextService}.

Lemma insights_log p :
  exists out r, insights p = (requests_post p :: out, r) /\
                posted out = [] /\ shown out = [].
Proof.
  unfold insights, call_gemini_api. simpl.
  destruct (generate p); simpl; eexists; eexists; repeat split; reflexivity.
Qed.

Lemma insights_quiet p :
  handled ->
  exists out, insights p = (requests_post p :: out, Ok tt) /\
              posted out = [] /\ shown out = [].
Proof.
  intros Hh. unfold insights, call_gemini_api. simpl.
  destruct (generate p) eqn:E; simpl;
    try (eexists; repeat split; reflexivity).
  exfalso. exact (Hh p e E).
Qed.

(** X16. A table without rows, under a header that names each label
    column once and with a service whose answers are handled: the run
    shows the five charts, each of them empty, in the order of the page. *)
Theorem empty_table_shows_five_empty_charts
    (raw : RawFrame) (log : list event) (df : Frame) (ip im il : nat) :
  clean_data raw = (log, Ok (Some df)) ->
  rows df = [] ->
  getitem "platform" (header df) = Series ip ->
  getitem "media_type" (header df) = Series im ->
  getitem "location" (header df) = Series il ->
  handled ->
  shown (main (Some raw))
  = [px_pie "Sentiment Breakdown" [];
     px_line "Engagement Trend Over Time" [];
     px_bar "Platform Engagements" [];
     px_pie "Media Type Mix" [];
     px_bar "Top 5 Locations by Engagements" []].
Proof.
  intros Hc Hr Hp Hm Hl Hh.
  destruct (clean_data_some _ _ _ Hc) as (_ & _ & -> & _ & _).
  destruct (empty_aggregates df ip im il Hr Hp Hm Hl)
    as (Es & Ed & Ep & Ep5 & Em & El).
  unfold main, process. rewrite Hc. unfold bind at 1.
  unfold charts_and_insights, create_sentiment_chart, create_engagement_trend_chart,
    create_platform_engagements_chart, create_media_type_mix_chart,
    create_top_locations_chart, trend_prompt, sentiment_prompt,
    platform_prompt, media_type_prompt, location_prompt.
  rewrite Es, Ed, Ep, Ep5, Em, El. simpl map. cbv iota.
  destruct (insights_quiet
              [Lit "Based on the following sentiment counts from media data: ";
               Fmt (VDict []); Lit ". Provide top 3 concise insights."] Hh)
    as (o1 & E1 & _ & N1).
  destruct (insights_quiet trend_fallback Hh) as (o2 & E2 & _ & N2).
  destruct (insights_quiet [Lit "Based on platform engagements: "; Fmt (VDict []);
                            Lit ". Provide top 3 concise insights."] Hh)
    as (o3 & E3 & _ & N3).
  destruct (insights_quiet [Lit "Based on media type counts: "; Fmt (VDict []);
                            Lit ". Provide top 3 concise insights."] Hh)
    as (o4 & E4 & _ & N4).
  destruct (insights_quiet [Lit "Based on top 5 locations by engagement: ";
                            Fmt (VDict []);
                            Lit ". Provide top 3 concise insights."] Hh)
    as (o5 & E5 & _ & N5).
  unfold lift, rbind, bind, emit. rewrite E1, E2, E3, E4, E5.
  simpl. repeat (rewrite ?shown_app, ?N1, ?N2, ?N3, ?N4, ?N5; simpl).
  reflexivity.
Qed.

Lemma bind_log {A B : Type} (m : ui A) (k : A -> ui B) :
  fst (bind m k)
  = (fst m ++ match snd m with
              | Ok a => fst (k a)
              | Raise _ => []
              end)%list.
Proof.
  destruct m as [log [a|e]]; simpl; [|rewrite app_nil_r; reflexivity].
  destruct (k a). reflexivity.
Qed.

Ltac next_step :=
  first
    [ rewrite bind_log
    | progress cbn [emit lift fst snd]
    | match goal with
      | |- context [insights ?p] =>
          let out := fresh "out" in
          let r := fresh "r" in
          let E := fresh "E" in
          let P := fresh "P" in
          let S := fresh "S" in
          destruct (insights_log p) as (out & r & E & P & S);
          rewrite E; clear E; destruct r as [[]|?]
      end
    | match goal with
      | |- context [match ?r with Ok _ => _ | Raise _ => _ end] => destruct r
      end ].

Lemma charts_and_insights_counts df :
  (List.length (posted (fst (charts_and_insights df)))
   <= List.length (shown (fst (charts_and_insights df))) <= 5)%nat.
Proof.
  unfold charts_and_insights.
  repeat next_step.
  all: repeat (rewrite ?posted_app, ?shown_app, ?length_app; cbn [app posted shown List.length]).
  all: repeat match goal with H : posted _ = [] |- _ => rewrite H; clear H end.
  all: repeat match goal with H : shown _ = [] |- _ => rewrite H; clear H end.
  all: cbn [List.length app]; lia.
Qed.

(** X17. Whatever is uploaded and whatever the service answers, a run
    shows at most five charts and sends at most as many requests as it has
    shown charts; without an upload it does nothing. *)
Theorem run_shows_and_sends_at_most_five (uploaded : option RawFrame) :
  (List.length (posted (main uploaded)) <= List.length (shown (main uploaded)) <= 5)%nat /\
  main None = [].
Proof.
  split; [|reflexivity].
  destruct uploaded as [raw|]; [|simpl; lia].
  unfold main, process, clean_data.
  destruct (clean_sorted raw) as [[f|]|e]; cbn -[charts_and_insights];
    try lia.
  pose proof (charts_and_insights_counts
                {| header := header f; rows := reset_index (rows f) |}) as Hc.
  destruct (charts_and_insights _) as [log [[]|e]]; cbn [fst] in Hc.
  - exact Hc.
  - rewrite ?app_nil_r, posted_app, shown_app, !length_app. cbn. lia.
Qed.

End Shown.
Lemma empty_table_shows_five_empty_charts_witness :
  shown (@main Reference.pandas Reference.offline (Some Samples.header_only))
  = [px_pie "Sentiment Breakdown" [];
     px_line "Engagement Trend Over Time" [];
     px_bar "Platform Engagements" [];
     px_pie "Media Type Mix" [];
     px_bar "Top 5 Locations by Engagements" []].
Proof.
  apply (@empty_table_shows_five_empty_charts Reference.pandas Reference.offline
           Samples.header_only [] Runs.header_only 1 5 3).
  - vm_compute. reflexivity.
  - reflexivity.
  - reflexivity.
  - reflexivity.
  - reflexivity.
  - intros p e. discriminate.
Defined.
